(** * The network transport layer (libfreerdp-core/transport.c)

    A shallow embedding of the transport core: the layer tag, the
    blocking read primitive [transport_read_layer], the single-PDU read
    [transport_read], the non-blocking dispatch [transport_check_fds],
    the write path [transport_write] and the TLS upgrade.

    Conventions.
    - A C [int] is a [Z].  Every [int] computed below is a byte count or
      an endpoint status; signed overflow is undefined in C, so there is
      no wrap-around to write out.  A [uint8] is a [Z] in [0, 256).
    - A [STREAM] is its three fields; the pointer [s->p] is kept as the
      offset [s->p - s->data].
    - The endpoints (tcp.c, tls.c) are an interface; every call the
      transport makes to them is recorded in the transport's [log], so
      that "the endpoint was not touched" is a statement about the log.
    - Loops that the C code may spin in for ever take a budget of
      iterations ([fuel]); running out of it is the outcome [Spin]. *)

From Stdlib Require Import String ZArith List Bool Lia.
Import ListNotations.
Local Open Scope Z_scope.

(** ** Outcomes of a call *)

Inductive outcome (A : Type) : Type :=
| Done (a : A)   (* the call returned [a] *)
| Spin           (* the iteration budget ran out: the loop is still going *)
| Overrun.       (* a store past the end of the destination buffer *)

Arguments Done {A} a.
Arguments Spin {A}.
Arguments Overrun {A}.

(** ** Streams (freerdp/utils/stream.h) *)

Record STREAM : Type := mkStream {
  size : Z;          (* s->size *)
  p    : Z;          (* s->p - s->data *)
  data : list Z      (* the bytes allocated at s->data *)
}.

(** Modelled from the spec: the stream macros of freerdp/utils/stream.h
    are not among the sources.  The position is the count of bytes held
    ("advance the buffer's write position", "reset to position 0"). *)
Definition stream_get_pos (s : STREAM) : Z := p s.

(** Modelled from the spec: stream.h is missing; the length of a stream
    is the distance of its position from its start. *)
Definition stream_get_length (s : STREAM) : Z := p s.

(** Modelled from the spec: stream.h is missing; sets the position. *)
Definition stream_set_pos (s : STREAM) (n : Z) : STREAM :=
  mkStream (size s) n (data s).

(** Modelled from the spec: stream.h is missing; advances the position. *)
Definition stream_seek (s : STREAM) (n : Z) : STREAM :=
  mkStream (size s) (p s + n) (data s).

(** Modelled from the spec: stream.h is missing; "seal the buffer at the
    PDU length": the length field becomes the current position. *)
Definition stream_seal (s : STREAM) : STREAM :=
  mkStream (p s) (p s) (data s).

(** Modelled from the spec: stream.h is missing; the byte under the
    position, the position unchanged. *)
Definition stream_peek_uint8 (s : STREAM) : Z :=
  nth (Z.to_nat (p s)) (data s) 0.

(** Modelled from the spec: stream.h is missing; "grow the receive buffer
    to at least 32 KiB of headroom".  The buffer grows by the larger of
    the request and its present size, the new bytes are zero. *)
Definition stream_check_size (s : STREAM) (n : Z) : STREAM :=
  if p s + n >? size s then
    let size' := Z.max (p s + n) (size s + Z.max n (size s)) in
    mkStream size' (p s)
             (firstn (Z.to_nat (size s)) (data s)
              ++ repeat 0 (Z.to_nat (size' - size s)))
  else s.

(** Modelled from the spec: stream.h is missing; a fresh zeroed stream. *)
Definition stream_new (n : Z) : STREAM :=
  mkStream n 0 (repeat 0 (Z.to_nat n)).

Definition with_data (s : STREAM) (d : list Z) : STREAM :=
  mkStream (size s) (p s) d.

(** [s->data[i]]. *)
Definition byte_at (d : list Z) (i : nat) : Z := nth i d 0.

(** A store of [bs] at [d + off]: defined when it stays inside [d]. *)
Definition poke (d : list Z) (off : Z) (bs : list Z) : option (list Z) :=
  match bs with
  | [] => Some d
  | _ :: _ =>
      if (0 <=? off) && (off + Z.of_nat (length bs) <=? Z.of_nat (length d))
      then Some (firstn (Z.to_nat off) d ++ bs
                 ++ skipn (Z.to_nat off + length bs) d)
      else None
  end.

(** ** Layers, events, endpoints *)

Inductive TRANSPORT_LAYER : Type :=
| TRANSPORT_LAYER_TCP
| TRANSPORT_LAYER_TLS
| TRANSPORT_LAYER_CLOSED.

(** What the transport did to the outside, in the order it did it. *)
Inductive Event : Type :=
| EvRead (l : TRANSPORT_LAYER) (req status : Z)   (* tcp_read / tls_read *)
| EvWrite (l : TRANSPORT_LAYER) (req status : Z)  (* tcp_write / tls_write *)
| EvCanRecv (timeout : Z)                         (* tcp_can_recv *)
| EvUsleep (us : Z)                               (* freerdp_usleep *)
| EvTlsConnect (ok : bool)                        (* tls_connect *)
| EvPrintf (msg : string)
| EvHexdump (bytes : list Z)
| EvCallback (pdu : list Z).                      (* transport->recv_callback *)

(** The byte endpoints, consumed and not defined by the transport.  [W]
    is the state of the socket that [transport->tcp] and
    [transport->tls] share ([tls->sockfd = tcp->sockfd]).  A read
    answers with its status and the bytes it stored at the destination;
    a write is handed the bytes between the tail of the stream and
    [length]. *)
Class Endpoint (W : Type) : Type := {
  tcp_read : W -> Z -> Z * list Z * W;
  tcp_write : W -> list Z -> Z * W;
  tcp_can_recv : W -> Z -> W;
  tcp_set_blocking_mode : W -> bool -> bool * W;
  tls_read : W -> Z -> Z * list Z * W;
  tls_write : W -> list Z -> Z * W;
  tls_connect : W -> bool * W;
  freerdp_usleep : W -> Z -> W
}.

(** ** The transport *)

Record rdpTransport (W : Type) : Type := mkTransport {
  layer : TRANSPORT_LAYER;
  net : W;                 (* transport->tcp and transport->tls *)
  tls : bool;              (* transport->tls != NULL *)
  blocking : bool;
  usleep_interval : Z;
  recv_buffer : STREAM;
  level : Z;
  log : list Event
}.

Arguments mkTransport {W}.
Arguments layer {W}.
Arguments net {W}.
Arguments tls {W}.
Arguments blocking {W}.
Arguments usleep_interval {W}.
Arguments recv_buffer {W}.
Arguments level {W}.
Arguments log {W}.

Definition BUFFER_SIZE : Z := 16384.

Section Transport.

Context {W : Type} {E : Endpoint W}.

Definition set_layer (t : rdpTransport W) (l : TRANSPORT_LAYER) :=
  mkTransport l (net t) (tls t) (blocking t) (usleep_interval t)
              (recv_buffer t) (level t) (log t).

Definition set_net (t : rdpTransport W) (w : W) :=
  mkTransport (layer t) w (tls t) (blocking t) (usleep_interval t)
              (recv_buffer t) (level t) (log t).

Definition set_tls (t : rdpTransport W) (b : bool) :=
  mkTransport (layer t) (net t) b (blocking t) (usleep_interval t)
              (recv_buffer t) (level t) (log t).

Definition set_blocking (t : rdpTransport W) (b : bool) :=
  mkTransport (layer t) (net t) (tls t) b (usleep_interval t)
              (recv_buffer t) (level t) (log t).

Definition set_recv_buffer (t : rdpTransport W) (b : STREAM) :=
  mkTransport (layer t) (net t) (tls t) (blocking t) (usleep_interval t)
              b (level t) (log t).

Definition set_level (t : rdpTransport W) (n : Z) :=
  mkTransport (layer t) (net t) (tls t) (blocking t) (usleep_interval t)
              (recv_buffer t) n (log t).

Definition emit (t : rdpTransport W) (evs : list Event) :=
  match evs with
  | [] => t
  | _ :: _ =>
      mkTransport (layer t) (net t) (tls t) (blocking t) (usleep_interval t)
                  (recv_buffer t) (level t) (log t ++ evs)
  end.

(** [transport_new]: the endpoint state [w] stands for [tcp_new(settings)]. *)
Definition transport_new (w : W) : rdpTransport W :=
  mkTransport TRANSPORT_LAYER_TCP w false true 100
              (stream_new BUFFER_SIZE) 0 [].

Definition transport_set_blocking_mode (t : rdpTransport W) (b : bool)
  : bool * rdpTransport W :=
  let t1 := set_blocking t b in
  let '(r, w) := tcp_set_blocking_mode (net t1) b in
  (r, set_net t1 w).

(** [transport_connect_tls]: the layer tag is set before the handshake. *)
Definition transport_connect_tls (t : rdpTransport W)
  : bool * rdpTransport W :=
  let t1 := if tls t then t else set_tls t true in
  let t2 := set_layer t1 TRANSPORT_LAYER_TLS in
  let '(ok, w) := tls_connect (net t2) in
  let t3 := emit (set_net t2 w) [EvTlsConnect ok] in
  if negb ok then (false, t3) else (true, t3).

(** *** transport_read_layer *)

(** Lines 181-184: the read of the active layer.  A closed layer reads
    nothing and leaves [status] as it was. *)
Definition layer_read (t : rdpTransport W) (status n : Z)
  : Z * list Z * rdpTransport W :=
  match layer t with
  | TRANSPORT_LAYER_TLS =>
      let '(st, bs, w) := tls_read (net t) n in
      (st, bs, emit (set_net t w) [EvRead TRANSPORT_LAYER_TLS n st])
  | TRANSPORT_LAYER_TCP =>
      let '(st, bs, w) := tcp_read (net t) n in
      (st, bs, emit (set_net t w) [EvRead TRANSPORT_LAYER_TCP n st])
  | TRANSPORT_LAYER_CLOSED => (status, [], t)
  end.

(** Lines 199-207: the idle wait after a read of zero bytes. *)
Definition idle_wait (t : rdpTransport W) : rdpTransport W :=
  match layer t with
  | TRANSPORT_LAYER_CLOSED =>
      emit (set_net t (freerdp_usleep (net t) (usleep_interval t)))
           [EvUsleep (usleep_interval t)]
  | _ => emit (set_net t (tcp_can_recv (net t) 100)) [EvCanRecv 100]
  end.

Fixpoint transport_read_layer_loop (fuel : nat) (t : rdpTransport W)
    (d : list Z) (off bytes read status : Z)
  : outcome (Z * rdpTransport W * list Z) :=
  if read <? bytes then
    match fuel with
    | O => Spin
    | S fuel' =>
        let '(status1, bs, t1) := layer_read t status (bytes - read) in
        match poke d (off + read) bs with
        | None => Overrun
        | Some d1 =>
            if negb (blocking t1) then Done (status1, t1, d1)
            else if status1 <? 0 then Done (status1, t1, d1)
            else
              let read1 := read + status1 in
              let t2 := if status1 =? 0 then idle_wait t1 else t1 in
              transport_read_layer_loop fuel' t2 d1 off bytes read1 status1
        end
    end
  else Done (read, t, d).

(** [transport_read_layer(transport, d + off, bytes)]. *)
Definition transport_read_layer (fuel : nat) (t : rdpTransport W)
    (d : list Z) (off bytes : Z) : outcome (Z * rdpTransport W * list Z) :=
  transport_read_layer_loop fuel t d off bytes 0 (-1).

(** *** transport_read *)

(** Lines 241-281: the framing recognizer, the total length of the PDU
    whose header is at [d], with what it prints. *)
Definition transport_read_pdu_bytes (d : list Z) : Z * list Event :=
  if byte_at d 0 =? 0x03 then
    (Z.lor (Z.shiftl (byte_at d 2) 8) (byte_at d 3), [])
  else if byte_at d 0 =? 0x30 then
    if negb (Z.land (byte_at d 1) 0x80 =? 0) then
      if Z.land (byte_at d 1) (Z.lnot 0x80) =? 1 then
        (byte_at d 2 + 3, [])
      else if Z.land (byte_at d 1) (Z.lnot 0x80) =? 2 then
        (Z.lor (Z.shiftl (byte_at d 2) 8) (byte_at d 3) + 4, [])
      else
        (0, [EvPrintf "Error reading TSRequest!"%string])
    else
      (byte_at d 1 + 2, [])
  else
    if negb (Z.land (byte_at d 1) 0x80 =? 0) then
      (Z.lor (Z.shiftl (Z.land (byte_at d 1) 0x7f) 8) (byte_at d 2), [])
    else
      (byte_at d 1, []).

(** Lines 241-300: the part of [transport_read] after the header is in. *)
Definition transport_read_pdu (fuel : nat) (t : rdpTransport W) (s : STREAM)
    (stream_bytes transport_status : Z)
  : outcome (Z * rdpTransport W * STREAM) :=
  let '(pdu_bytes, msgs) := transport_read_pdu_bytes (data s) in
  match transport_read_layer fuel (emit t msgs) (data s) stream_bytes
                             (pdu_bytes - stream_bytes) with
  | Done (status, t1, d1) =>
      if status <? 0 then Done (status, t1, with_data s d1)
      else Done (transport_status + status, t1, with_data s d1)
  | Spin => Spin
  | Overrun => Overrun
  end.

Definition transport_read (fuel : nat) (t : rdpTransport W) (s : STREAM)
  : outcome (Z * rdpTransport W * STREAM) :=
  let stream_bytes := stream_get_length s in
  if stream_bytes <? 4 then
    match transport_read_layer fuel t (data s) stream_bytes
                               (4 - stream_bytes) with
    | Done (status, t1, d1) =>
        if status <? 0 then Done (status, t1, with_data s d1)
        else if status + stream_bytes <? 4 then
          Done (0 + status, t1, with_data s d1)
        else
          transport_read_pdu fuel t1 (with_data s d1)
                             (stream_bytes + status) (0 + status)
    | Spin => Spin
    | Overrun => Overrun
    end
  else transport_read_pdu fuel t s stream_bytes 0.

Definition transport_read_nonblocking (fuel : nat) (t : rdpTransport W)
  : outcome (Z * rdpTransport W) :=
  let b := stream_check_size (recv_buffer t) (32 * 1024) in
  match transport_read fuel (set_recv_buffer t b) b with
  | Done (status, t1, b1) =>
      if status <=? 0 then Done (status, set_recv_buffer t1 b1)
      else Done (status, set_recv_buffer t1 (stream_seek b1 status))
  | Spin => Spin
  | Overrun => Overrun
  end.

(** *** transport_write *)

(** Lines 336-339: the write to the active layer. *)
Definition layer_write (t : rdpTransport W) (status : Z) (bs : list Z)
    (len : Z) : Z * rdpTransport W :=
  match layer t with
  | TRANSPORT_LAYER_TLS =>
      let '(st, w) := tls_write (net t) bs in
      (st, emit (set_net t w) [EvWrite TRANSPORT_LAYER_TLS len st])
  | TRANSPORT_LAYER_TCP =>
      let '(st, w) := tcp_write (net t) bs in
      (st, emit (set_net t w) [EvWrite TRANSPORT_LAYER_TCP len st])
  | TRANSPORT_LAYER_CLOSED => (status, t)
  end.

(** [length] bytes from [stream_get_tail(s)]. *)
Definition stream_tail_bytes (s : STREAM) (len : Z) : list Z :=
  firstn (Z.to_nat len) (skipn (Z.to_nat (p s)) (data s)).

Fixpoint transport_write_loop (fuel : nat) (t : rdpTransport W) (s : STREAM)
    (status len : Z) : outcome (Z * rdpTransport W * STREAM) :=
  if len >? 0 then
    match fuel with
    | O => Spin
    | S fuel' =>
        let '(status1, t1) :=
          layer_write t status (stream_tail_bytes s len) len in
        if status1 <? 0 then Done (status1, t1, s)
        else
          let t2 :=
            if status1 =? 0 then
              emit (set_net t1 (freerdp_usleep (net t1) (usleep_interval t1)))
                   [EvUsleep (usleep_interval t1)]
            else t1 in
          transport_write_loop fuel' t2 (stream_seek s status1) status1
                               (len - status1)
    end
  else Done (status, t, s).

Definition transport_write (fuel : nat) (t : rdpTransport W) (s : STREAM)
  : outcome (Z * rdpTransport W * STREAM) :=
  let len := stream_get_length s in
  let s0 := stream_set_pos s 0 in
  match transport_write_loop fuel t s0 (-1) len with
  | Done (status, t1, s1) =>
      if status <? 0 then
        Done (status, set_layer t1 TRANSPORT_LAYER_CLOSED, s1)
      else Done (status, t1, s1)
  | Spin => Spin
  | Overrun => Overrun
  end.

(** *** The header codecs (tpkt.c, fastpath.c) *)

(** Modelled from the spec: tpkt.c is not among the sources.  "First
    byte 0x03: TPKT"; the stream is left where it was. *)
Definition tpkt_verify_header (s : STREAM) : bool :=
  stream_peek_uint8 s =? 3.

(** Modelled from the spec: tpkt.c is not among the sources.  "Total
    length LL_hi * 256 + LL_lo" read from the 4-byte header, which is
    consumed; anything that is not a TPKT header yields length 0. *)
Definition tpkt_read_header (s : STREAM) : Z * STREAM :=
  if stream_peek_uint8 s =? 3 then
    (nth (Z.to_nat (p s + 2)) (data s) 0 * 256
     + nth (Z.to_nat (p s + 3)) (data s) 0, stream_seek s 4)
  else (0, s).

(** Modelled from the spec: fastpath.c is not among the sources.  "The
    recognized header length (2 or 3)": 3 when bit 7 of the length byte
    is set; the stream is left where it was. *)
Definition fastpath_header_length (s : STREAM) : Z :=
  if Z.testbit (nth (Z.to_nat (p s + 1)) (data s) 0) 7 then 3 else 2.

(** Modelled from the spec: fastpath.c is not among the sources.  "Total
    length LL" when bit 7 of LL is 0, and "((LL_hi & 0x7f) << 8) | LL_lo"
    when bit 7 of LL_hi is set; the header is consumed. *)
Definition fastpath_read_header (s : STREAM) : Z * STREAM :=
  let b1 := nth (Z.to_nat (p s + 1)) (data s) 0 in
  if Z.testbit b1 7 then
    (Z.lor (Z.shiftl (Z.land b1 0x7f) 8) (nth (Z.to_nat (p s + 2)) (data s) 0),
     stream_seek s 3)
  else (b1, stream_seek s 2).

(** *** transport_check_fds *)

(** The registered handler: it is handed the transport, whose
    [recv_buffer] is the sealed PDU, and may change the transport. *)
Definition recv_callback_t : Type := rdpTransport W -> bool * rdpTransport W.

(** The readable region of a sealed stream. *)
Definition sealed_bytes (s : STREAM) : list Z :=
  firstn (Z.to_nat (size s)) (data s).

(** Lines 418-446: what follows once [length] has been read. *)
Definition transport_check_fds_dispatch (cb : recv_callback_t)
    (t : rdpTransport W) (b : STREAM) (pos status len : Z)
  : Z * rdpTransport W :=
  if len =? 0 then
    (-1, emit (set_recv_buffer t b)
           [EvPrintf "transport_check_fds: protocol error, not a TPKT or Fast Path header."%string;
            EvHexdump (firstn (Z.to_nat pos) (data b))])
  else if pos <? len then (0, set_recv_buffer t (stream_set_pos b pos))
  else
    let b1 := stream_set_pos (stream_seal (stream_set_pos b len)) 0 in
    let t1 := set_level (set_recv_buffer t b1) (level t + 1) in
    let '(ok, t2) := cb (emit t1 [EvCallback (sealed_bytes b1)]) in
    let status1 := if negb ok then -1 else status in
    let t3 := set_level t2 (level t2 - 1) in
    let t4 := set_recv_buffer t3 (stream_set_pos (recv_buffer t3) 0) in
    (if status1 <? 0 then status1 else 0, t4).

(** Lines 387-446: the framing of what the receive buffer holds after
    the read, [status] being what the read returned. *)
Definition transport_check_fds_frame (cb : recv_callback_t)
    (t1 : rdpTransport W) (status : Z) : Z * rdpTransport W :=
  let pos := stream_get_pos (recv_buffer t1) in
  if pos >? 0 then
    let b := stream_set_pos (recv_buffer t1) 0 in
    if tpkt_verify_header b then
      if pos <=? 4 then
        (0, set_recv_buffer t1 (stream_set_pos b pos))
      else
        let '(len, b1) := tpkt_read_header b in
        transport_check_fds_dispatch cb t1 b1 pos status len
    else
      if pos <=? 2 then
        (0, set_recv_buffer t1 (stream_set_pos b pos))
      else
        let hl := fastpath_header_length b in
        if pos <? hl then
          (0, set_recv_buffer t1 (stream_set_pos b pos))
        else
          let '(len, b1) := fastpath_read_header b in
          transport_check_fds_dispatch cb t1 b1 pos status len
  else (0, t1).

Definition transport_check_fds (fuel : nat) (cb : recv_callback_t)
    (t : rdpTransport W) : outcome (Z * rdpTransport W) :=
  if negb (level t =? 0) then
    Done (-1, emit t [EvPrintf "transport_check_fds: error, nested calls"%string])
  else
    match transport_read_nonblocking fuel t with
    | Done (status, t1) =>
        if status <? 0 then Done (status, t1)
        else Done (transport_check_fds_frame cb t1 status)
    | Spin => Spin
    | Overrun => Overrun
    end.

(** A sequence of [transport_write] calls, with the statuses returned. *)
Fixpoint write_all (fuel : nat) (t : rdpTransport W) (ss : list STREAM)
  : outcome (list Z * rdpTransport W) :=
  match ss with
  | [] => Done ([], t)
  | s :: ss' =>
      match transport_write fuel t s with
      | Done (status, t1, _) =>
          match write_all fuel t1 ss' with
          | Done (sts, t2) => Done (status :: sts, t2)
          | Spin => Spin
          | Overrun => Overrun
          end
      | Spin => Spin
      | Overrun => Overrun
      end
  end.

End Transport.

(** ** A socket to run the transport on *)

(** Modelled from the spec: tcp.c and tls.c are not among the sources.
    The endpoint contract: "read(buf, n): positive bytes, 0 on
    would-block, negative on error; write(buf, n): same conventions".
    [rx] holds the bytes that have arrived and were not read yet, [tx]
    the bytes sent; a peer that is gone fails every write, and every
    read once [rx] is drained.  The TLS endpoint wraps the same socket. *)
Record Sock : Type := mkSock {
  rx : list Z;
  tx : list Z;
  peer_up : bool;
  handshake_ok : bool
}.

Definition sock_read (w : Sock) (n : Z) : Z * list Z * Sock :=
  match rx w with
  | [] => (if peer_up w then 0 else -1, [], w)
  | _ :: _ =>
      let bs := firstn (Z.to_nat n) (rx w) in
      (Z.of_nat (length bs), bs,
       mkSock (skipn (Z.to_nat n) (rx w)) (tx w) (peer_up w) (handshake_ok w))
  end.

Definition sock_write (w : Sock) (bs : list Z) : Z * Sock :=
  if peer_up w then
    (Z.of_nat (length bs),
     mkSock (rx w) (tx w ++ bs) (peer_up w) (handshake_ok w))
  else (-1, w).

#[export] Instance sock_endpoint : Endpoint Sock := {
  tcp_read := sock_read;
  tcp_write := sock_write;
  tcp_can_recv := fun w _ => w;
  tcp_set_blocking_mode := fun w _ => (true, w);
  tls_read := sock_read;
  tls_write := sock_write;
  tls_connect := fun w => (handshake_ok w, w);
  freerdp_usleep := fun w _ => w
}.

(** Bytes arriving from the peer. *)
Definition sock_arrive (w : Sock) (bs : list Z) : Sock :=
  mkSock (rx w ++ bs) (tx w) (peer_up w) (handshake_ok w).

(** ** Driving the dispatch loop *)

Inductive Action : Type :=
| Arrive (bs : list Z)   (* bytes reach the socket *)
| Poll.                  (* the event loop calls transport_check_fds *)

Definition step (fuel : nat) (cb : rdpTransport Sock -> bool * rdpTransport Sock)
    (t : rdpTransport Sock) (a : Action) : outcome (rdpTransport Sock) :=
  match a with
  | Arrive bs => Done (set_net t (sock_arrive (net t) bs))
  | Poll =>
      match transport_check_fds fuel cb t with
      | Done (_, t') => Done t'
      | Spin => Spin
      | Overrun => Overrun
      end
  end.

Fixpoint run (fuel : nat) (cb : rdpTransport Sock -> bool * rdpTransport Sock)
    (sched : list Action) (t : rdpTransport Sock)
  : outcome (rdpTransport Sock) :=
  match sched with
  | [] => Done t
  | a :: sched' =>
      match step fuel cb t a with
      | Done t' => run fuel cb sched' t'
      | Spin => Spin
      | Overrun => Overrun
      end
  end.

(** The bytes a schedule delivers, in order. *)
Definition arrivals (sched : list Action) : list Z :=
  flat_map (fun a => match a with Arrive bs => bs | Poll => [] end) sched.

(** The PDUs handed to the callback, in order. *)
Definition callbacks (l : list Event) : list (list Z) :=
  flat_map (fun e => match e with EvCallback u => [u] | _ => [] end) l.

(** The reads and writes issued to the endpoints. *)
Definition endpoint_io (l : list Event) : list Event :=
  filter (fun e => match e with EvRead _ _ _ | EvWrite _ _ _ => true
                           | _ => false end) l.

(** A handler that consumes the PDU and leaves the transport alone. *)
Definition consume (ok : list Z -> bool) (t : rdpTransport Sock)
  : bool * rdpTransport Sock :=
  (ok (sealed_bytes (recv_buffer t)), t).

(** A fresh client transport on a quiet socket, switched to the
    non-blocking mode. *)
Definition quiet : Sock := mkSock [] [] true true.

Definition session0 : rdpTransport Sock :=
  snd (transport_set_blocking_mode (transport_new quiet) false).

(** ** PDUs on the wire *)

Definition is_byte (b : Z) : bool := (0 <=? b) && (b <? 256).

Definition len (u : list Z) : Z := Z.of_nat (length u).

(** TPKT: [03 00 LL_hi LL_lo ...], total length [LL_hi * 256 + LL_lo]. *)
Definition tpkt_length (u : list Z) : Z := byte_at u 2 * 256 + byte_at u 3.

(** Fast-Path: [XX LL ...] or [XX LL_hi LL_lo ...]. *)
Definition fastpath_length (u : list Z) : Z :=
  if Z.testbit (byte_at u 1) 7
  then (byte_at u 1 mod 128) * 256 + byte_at u 2
  else byte_at u 1.

(** TSRequest: [30 LL ...], [30 81 LL ...] or [30 82 LL_hi LL_lo ...]. *)
Definition tsrequest_length (u : list Z) : option Z :=
  if byte_at u 1 <? 0x80 then Some (byte_at u 1 + 2)
  else if byte_at u 1 =? 0x81 then Some (byte_at u 2 + 3)
  else if byte_at u 1 =? 0x82 then Some (byte_at u 2 * 256 + byte_at u 3 + 4)
  else None.

(** A complete PDU, in any of the three framings of the spec: its
    bytes are as many as its header declares. *)
Definition complete_pdu (u : list Z) : bool :=
  forallb is_byte u &&
  (if byte_at u 0 =? 0x03 then (byte_at u 1 =? 0) && (4 <=? len u) && (len u =? tpkt_length u)
   else if byte_at u 0 =? 0x30 then
     match tsrequest_length u with
     | Some n => (2 <=? len u) && (len u =? n)
     | None => false
     end
   else (2 <=? len u) && (len u =? fastpath_length u)).

(** The PDUs the dispatch loop is built for: a TPKT PDU that carries
    something after its header and fits the 32 KiB of headroom, or a
    Fast-Path PDU of at least the 4 bytes the header read pulls in. *)
Definition dispatchable (u : list Z) : bool :=
  forallb is_byte u &&
  (if byte_at u 0 =? 0x03 then
     (byte_at u 1 =? 0) && (5 <=? len u) && (len u <=? 32768)
     && (len u =? tpkt_length u)
   else
     negb (byte_at u 0 =? 0x30) && (4 <=? len u)
     && (len u =? fastpath_length u)).

(** ** The state of a session between two steps of its event loop *)

(** [t1] is [t] but for the socket, whose unread bytes are now [q], and
    for log entries that are not callbacks. *)
Definition quiet_frame (t t1 : rdpTransport Sock) (q : list Z) : Prop :=
  layer t1 = layer t /\ blocking t1 = blocking t /\ level t1 = level t /\
  recv_buffer t1 = recv_buffer t /\
  peer_up (net t1) = peer_up (net t) /\ rx (net t1) = q /\
  callbacks (log t1) = callbacks (log t).

(** A session that can be polled: an open layer in non-blocking mode,
    outside any dispatch, on a socket whose peer is there. *)
Definition pollable (t : rdpTransport Sock) : Prop :=
  layer t <> TRANSPORT_LAYER_CLOSED /\ blocking t = false /\
  level t = 0 /\ peer_up (net t) = true.

(** The bytes received and not dispatched yet. *)
Definition held (b : STREAM) : list Z := firstn (Z.to_nat (p b)) (data b).

(** [rest] are the PDUs not dispatched yet and [future] the bytes that
    have not reached the socket yet: what the receive buffer holds, what
    waits in the socket and what is still to come make up [rest], and
    the buffer holds less than the first of them. *)
Definition in_step (t : rdpTransport Sock) (rest : list (list Z))
    (future : list Z) : Prop :=
  pollable t /\
  0 <= p (recv_buffer t) <= size (recv_buffer t) /\
  size (recv_buffer t) <= len (data (recv_buffer t)) /\
  forallb dispatchable rest = true /\
  held (recv_buffer t) ++ rx (net t) ++ future = concat rest /\
  match rest with
  | [] => True
  | u :: _ => p (recv_buffer t) < len u
  end.

(** What the dispatch loop needs of a handler.  A handler may read the
    stream it is handed to any position, overwrite it, send on the
    socket, log, and move between the open layers; it returns the
    transport with a layer that is still open, in the mode and at the
    level it got it, with a stream that fits its storage, and without
    having taken any of the bytes the socket has still to deliver. *)
Definition keeps_session
    (cb : rdpTransport Sock -> bool * rdpTransport Sock) : Prop :=
  forall x,
    (layer x <> TRANSPORT_LAYER_CLOSED ->
     layer (snd (cb x)) <> TRANSPORT_LAYER_CLOSED) /\
    blocking (snd (cb x)) = blocking x /\
    level (snd (cb x)) = level x /\
    rx (net (snd (cb x))) = rx (net x) /\
    peer_up (net (snd (cb x))) = peer_up (net x) /\
    (0 <= size (recv_buffer x) <= len (data (recv_buffer x)) ->
     0 <= size (recv_buffer (snd (cb x)))
     <= len (data (recv_buffer (snd (cb x))))) /\
    callbacks (log (snd (cb x))) = callbacks (log x).

(** The transport as the handler gets it when the PDU [u] is handed
    over from [t1]: the receive buffer sealed at the length of [u] and
    rewound, the level raised. *)
Definition handed (t1 : rdpTransport Sock) (u : list Z)
  : rdpTransport Sock :=
  emit (set_level
          (set_recv_buffer t1 (mkStream (len u) 0 (data (recv_buffer t1))))
          (level t1 + 1))
       [EvCallback u].

(** The transport as [transport_check_fds] leaves it, [t2] being what
    the handler returned: the level lowered, the receive buffer
    rewound. *)
Definition resumed (t2 : rdpTransport Sock) : rdpTransport Sock :=
  set_recv_buffer (set_level t2 (level t2 - 1))
                  (stream_set_pos (recv_buffer t2) 0).

(** A handler that reads the PDU to its end and answers [ok]. *)
Definition read_through (ok : list Z -> bool) (t : rdpTransport Sock)
  : bool * rdpTransport Sock :=
  (ok (sealed_bytes (recv_buffer t)),
   set_recv_buffer t (stream_set_pos (recv_buffer t) (size (recv_buffer t)))).

(** The PDUs a run has handed to the callback, when it came to its end. *)
Definition delivered (o : outcome (rdpTransport Sock))
  : option (list (list Z)) :=
  match o with
  | Done t => Some (callbacks (log t))
  | Spin => None
  | Overrun => None
  end.

(** The session the moment [bs] has reached its socket. *)
Definition arrived (bs : list Z) : rdpTransport Sock :=
  set_net session0 (sock_arrive (net session0) bs).

(** The session a run ends in ([session0] if it does not end). *)
Definition final (o : outcome (rdpTransport Sock)) : rdpTransport Sock :=
  match o with
  | Done t => t
  | Spin => session0
  | Overrun => session0
  end.

(** What a call of [transport_check_fds] returned and left behind: the
    status, the bytes held in the receive buffer, the PDUs handed to
    the callback so far. *)
Definition poll_report (o : outcome (Z * rdpTransport Sock))
  : option (Z * list Z * list (list Z)) :=
  match o with
  | Done (st, t) => Some (st, held (recv_buffer t), callbacks (log t))
  | Spin => None
  | Overrun => None
  end.

(** A session whose socket is drained while its receive buffer holds
    [n] bytes, fewer than the four the header read asks for. *)
Definition short_of_header (t : rdpTransport Sock) (n : Z) : Prop :=
  pollable t /\ rx (net t) = [] /\
  p (recv_buffer t) = n /\ 0 < n < 4 /\
  n <= size (recv_buffer t) /\
  size (recv_buffer t) <= len (data (recv_buffer t)).

(** A handler that polls the transport it is handed. *)
Definition reenter (t : rdpTransport Sock) : bool * rdpTransport Sock :=
  match transport_check_fds 1 (consume (fun _ => true)) t with
  | Done (st, t') => (0 <=? st, t')
  | Spin => (false, t)
  | Overrun => (false, t)
  end.

(** The log a call of [transport_check_fds] left behind. *)
Definition poll_log (o : outcome (Z * rdpTransport Sock))
  : option (list Event) :=
  match o with
  | Done (_, t) => Some (log t)
  | Spin => None
  | Overrun => None
  end.

(** Sessions can be compared, so that "this poll changed nothing" is
    something to compute. *)
Definition layer_eq_dec (a b : TRANSPORT_LAYER) : {a = b} + {a <> b}.
Proof. decide equality. Defined.

Definition event_eq_dec (a b : Event) : {a = b} + {a <> b}.
Proof.
  decide equality; try apply Z.eq_dec; try apply layer_eq_dec;
    try apply bool_dec; try apply string_dec; apply (list_eq_dec Z.eq_dec).
Defined.

Definition stream_eq_dec (a b : STREAM) : {a = b} + {a <> b}.
Proof.
  decide equality; try apply Z.eq_dec; apply (list_eq_dec Z.eq_dec).
Defined.

Definition sock_eq_dec (a b : Sock) : {a = b} + {a <> b}.
Proof.
  decide equality; try apply bool_dec; apply (list_eq_dec Z.eq_dec).
Defined.

Definition transport_eq_dec (a b : rdpTransport Sock) : {a = b} + {a <> b}.
Proof.
  decide equality; try apply Z.eq_dec; try apply bool_dec;
    try apply layer_eq_dec; try apply stream_eq_dec; try apply sock_eq_dec;
    apply (list_eq_dec event_eq_dec).
Defined.

Definition ends_in (o : outcome (rdpTransport Sock)) (t : rdpTransport Sock)
  : bool :=
  match o with
  | Done t' => if transport_eq_dec t' t then true else false
  | Spin => false
  | Overrun => false
  end.

(** ** The rest of the transport: teardown, server side, NLA, descriptors *)

(** The statuses of the endpoint writes in a log, in order. *)
Definition write_statuses (l : list Event) : list Z :=
  flat_map (fun e => match e with EvWrite _ _ st => [st] | _ => [] end) l.

Definition total (l : list Z) : Z := fold_right Z.add 0 l.

(** The calls [transport_disconnect] makes, in order. *)
Inductive Closing : Type :=
| ClosedTls    (* tls_disconnect(transport->tls) *)
| ClosedTcp.   (* tcp_disconnect(transport->tcp) *)

(** The endpoint operations of teardown and of the server side (tcp.c,
    tls.c): consumed, not defined, by the transport.  The certificate
    and key files [tls_accept] is handed are settings of the socket. *)
Class Teardown (W : Type) : Type := {
  tls_disconnect : W -> W;
  tcp_disconnect : W -> bool * W;
  tls_accept : W -> bool * W
}.

Section Lifecycle.

Context {W : Type} {E : Endpoint W} {T : Teardown W}.

(** The endpoint keeps to "write(buf, n): at most n bytes". *)
Definition write_contract : Prop :=
  forall (w : W) (bs : list Z),
    fst (tcp_write w bs) <= len bs /\ fst (tls_write w bs) <= len bs.

(** [transport_disconnect]: the layer tag is not touched. *)
Definition transport_disconnect (t : rdpTransport W)
  : bool * rdpTransport W * list Closing :=
  let '(t1, calls) :=
    match layer t with
    | TRANSPORT_LAYER_TLS => (set_net t (tls_disconnect (net t)), [ClosedTls])
    | _ => (t, [])
    end in
  let '(r, w) := tcp_disconnect (net t1) in
  (r, set_net t1 w, calls ++ [ClosedTcp]).

Definition transport_connect_rdp (t : rdpTransport W)
  : bool * rdpTransport W := (true, t).

Definition transport_accept_rdp (t : rdpTransport W)
  : bool * rdpTransport W := (true, t).

Definition transport_accept_tls (t : rdpTransport W)
  : bool * rdpTransport W :=
  let t1 := if tls t then t else set_tls t true in
  let t2 := set_layer t1 TRANSPORT_LAYER_TLS in
  let '(ok, w) := tls_accept (net t2) in
  if negb ok then (false, set_net t2 w) else (true, set_net t2 w).

(** [transport_accept_nla]; [authentication] is
    [transport->settings->authentication]. *)
Definition transport_accept_nla (authentication : bool) (t : rdpTransport W)
  : bool * rdpTransport W :=
  let t1 := if tls t then t else set_tls t true in
  let t2 := set_layer t1 TRANSPORT_LAYER_TLS in
  let '(ok, w) := tls_accept (net t2) in
  if negb ok then (false, set_net t2 w)
  else if negb authentication then (true, set_net t2 w)
  else (true, set_net t2 w).

Definition auth_failure_message : string :=
  ("Authentication failure, check credentials."
   ++ String (Ascii.ascii_of_nat 10)
        "If credentials are valid, the NTLMSSP implementation may be to blame.")%string.

(** [transport_connect_nla].  [authentication] is
    [transport->settings->authentication]; [credssp_authenticate] is
    the authenticator of credssp.c, which exchanges its PDUs through the
    transport it is handed and answers with a status; [credssp] tells
    whether [transport->credssp] is set, on entry and in the result
    (it is freed after use and not reset). *)
Definition transport_connect_nla
    (credssp_authenticate : rdpTransport W -> Z * rdpTransport W)
    (authentication credssp : bool) (t : rdpTransport W)
  : bool * rdpTransport W * bool :=
  let t1 := if tls t then t else set_tls t true in
  let t2 := set_layer t1 TRANSPORT_LAYER_TLS in
  let '(ok, w) := tls_connect (net t2) in
  let t3 := emit (set_net t2 w) [EvTlsConnect ok] in
  if negb ok then (false, t3, credssp)
  else if negb authentication then (true, t3, credssp)
  else
    let '(status, t4) := credssp_authenticate t3 in
    if status <? 0 then (false, emit t4 [EvPrintf auth_failure_message], true)
    else (true, t4, true).

End Lifecycle.

(** ** Endpoints that deliver a queue of bytes *)

Section Queue.

Context {W : Type} {E : Endpoint W}.

(** The read [rd] delivers the queue: [queue w] is what has reached the
    endpoint and was not read yet, [fault w] what a read answers when
    nothing is pending, 0 ("would block") while the peer is there and a
    negative status once it is gone.  A read of [n > 0] bytes takes
    between 1 and [n] of the pending bytes off the front of the queue,
    as many as its status says. *)
Definition read_delivers (queue : W -> list Z) (fault : W -> Z)
    (rd : W -> Z -> Z * list Z * W) : Prop :=
  forall (w : W) (n : Z),
    0 < n ->
    queue w = snd (fst (rd w n)) ++ queue (snd (rd w n)) /\
    fault (snd (rd w n)) = fault w /\
    (queue w <> [] ->
     0 < fst (fst (rd w n)) <= n /\
     len (snd (fst (rd w n))) = fst (fst (rd w n))) /\
    (queue w = [] ->
     fst (fst (rd w n)) = fault w /\ snd (fst (rd w n)) = []).

(** Both reads deliver the same queue, and waiting for input takes
    nothing off it. *)
Definition delivers_queue (queue : W -> list Z) (fault : W -> Z) : Prop :=
  read_delivers queue fault tcp_read /\
  read_delivers queue fault tls_read /\
  (forall w, fault w <= 0) /\
  (forall w k, queue (tcp_can_recv w k) = queue w /\
               fault (tcp_can_recv w k) = fault w).

End Queue.

(** A socket that hands over one byte per read.  Modelled from the
    spec: tcp.c is not among the sources; the endpoint contract
    "read(buf, n): positive bytes, 0 on would-block, negative on
    error", a short count being allowed. *)
Record Drip : Type := mkDrip {
  pending : list Z;
  hung_up : bool
}.

Definition drip_fault (w : Drip) : Z := if hung_up w then -1 else 0.

Definition drip_read (w : Drip) (n : Z) : Z * list Z * Drip :=
  match pending w with
  | [] => (drip_fault w, [], w)
  | b :: r => (1, [b], mkDrip r (hung_up w))
  end.

#[export] Instance drip_endpoint : Endpoint Drip := {
  tcp_read := drip_read;
  tcp_write := fun w bs => (len bs, w);
  tcp_can_recv := fun w _ => w;
  tcp_set_blocking_mode := fun w _ => (true, w);
  tls_read := drip_read;
  tls_write := fun w bs => (len bs, w);
  tls_connect := fun w => (true, w);
  freerdp_usleep := fun w _ => w
}.

(** A wire that takes at most [mtu] bytes per write and has nothing to
    read.  Modelled from the spec: tcp.c is not among the sources; the
    endpoint contract "write(buf, n): positive bytes", a short count
    being allowed. *)
Record Pipe : Type := mkPipe {
  sent : list Z;
  mtu : Z
}.

Definition pipe_write (w : Pipe) (bs : list Z) : Z * Pipe :=
  (len (firstn (Z.to_nat (mtu w)) bs),
   mkPipe (sent w ++ firstn (Z.to_nat (mtu w)) bs) (mtu w)).

#[export] Instance pipe_endpoint : Endpoint Pipe := {
  tcp_read := fun w _ => (0, [], w);
  tcp_write := pipe_write;
  tcp_can_recv := fun w _ => w;
  tcp_set_blocking_mode := fun w _ => (true, w);
  tls_read := fun w _ => (0, [], w);
  tls_write := pipe_write;
  tls_connect := fun w => (true, w);
  freerdp_usleep := fun w _ => w
}.

(** A socket with its descriptor ([transport->tcp->sockfd]). *)
Record Wired : Type := mkWired {
  sockfd : Z;
  wire : Sock
}.

(** [transport_attach]. *)
Definition transport_attach (t : rdpTransport Wired) (fd : Z)
  : rdpTransport Wired :=
  set_net t (mkWired fd (wire (net t))).

(** [rfds[i] = v]: defined inside the array. *)
Definition store_at (l : list Z) (i : Z) (v : Z) : option (list Z) :=
  if (0 <=? i) && (i <? len l)
  then Some (firstn (Z.to_nat i) l ++ v :: skipn (S (Z.to_nat i)) l)
  else None.

(** [transport_get_fds]: [rfds] and [*rcount] in, both out. *)
Definition transport_get_fds (t : rdpTransport Wired) (rfds : list Z)
    (rcount : Z) : option (list Z * Z) :=
  match store_at rfds rcount (sockfd (net t)) with
  | Some rfds' => Some (rfds', rcount + 1)
  | None => None
  end.

(** [t'] is [t] but for the endpoints and for log entries that are
    neither callbacks nor writes. *)
Definition untouched {W : Type} (t t' : rdpTransport W) : Prop :=
  layer t' = layer t /\ blocking t' = blocking t /\ level t' = level t /\
  tls t' = tls t /\ usleep_interval t' = usleep_interval t /\
  recv_buffer t' = recv_buffer t /\
  exists evs,
    log t' = log t ++ evs /\ callbacks evs = [] /\ write_statuses evs = [].

(** The transport a call of [transport_check_fds] left behind
    ([session0] if it did not return). *)
Definition landed (o : outcome (Z * rdpTransport Sock)) : rdpTransport Sock :=
  match o with
  | Done (_, t) => t
  | Spin => session0
  | Overrun => session0
  end.

Definition returns (o : outcome (Z * rdpTransport Sock)) (st : Z)
    (t : rdpTransport Sock) : bool :=
  match o with
  | Done (st', t') =>
      (st' =? st) && (if transport_eq_dec t' t then true else false)
  | Spin => false
  | Overrun => false
  end.

(** A handler that answers only when the guard is armed. *)
Definition guarded (cb : rdpTransport Sock -> bool * rdpTransport Sock)
    (x : rdpTransport Sock) : bool * rdpTransport Sock :=
  if level x =? 1 then cb x else (false, x).

(** The socket taken down and the server side of the handshake.
    Modelled from the spec: tcp.c and tls.c are not among the sources;
    "closes the TLS session first; then closes the TCP endpoint", and
    the TLS endpoint "wrapping the same socket". *)
#[export] Instance sock_teardown : Teardown Sock := {
  tls_disconnect := fun w => mkSock (rx w) (tx w) (peer_up w) false;
  tcp_disconnect := fun w => (true, mkSock [] (tx w) false (handshake_ok w));
  tls_accept := fun w => (handshake_ok w, w)
}.

(** An authenticator that fails without touching the transport. *)
Definition credssp_refuses (t : rdpTransport Sock) : Z * rdpTransport Sock :=
  (-1, t).

(** * The PulseAudio sound device (rdpsnd_pulse.c): audio formats *)

Module Pulse.

(** The fields of [rdpsndFormat] the device looks at. *)
Record rdpsndFormat : Type := mkFormat {
  wFormatTag : Z;
  nChannels : Z;
  nSamplesPerSec : Z;
  nAvgBytesPerSec : Z;
  nBlockAlign : Z;
  wBitsPerSample : Z;
  cbSize : Z
}.

Inductive pa_sample_format : Type :=
| PA_SAMPLE_U8
| PA_SAMPLE_S16LE
| PA_SAMPLE_ALAW
| PA_SAMPLE_ULAW.

(** [spec_format] is [None] as long as it is what the initialiser
    [{ 0 }] made it.  The fields hold what the source assigns to them;
    the widths PulseAudio gives them are not modelled. *)
Record pa_sample_spec : Type := mkSpec {
  spec_format : option pa_sample_format;
  rate : Z;
  channels : Z
}.

(** The fields of the plugin the format functions read and write;
    [context] tells whether [pulse->context] is set. *)
Record rdpsndPulsePlugin : Type := mkPulse {
  context : bool;
  sample_spec : pa_sample_spec;
  format : Z;
  block_size : Z;
  rec_sample_spec : pa_sample_spec;
  rec_format : Z;
  rec_block_size : Z
}.

(** What [rdpsnd_pulse_format_supported] prints. *)
Inductive Printed : Type :=
| PrintHexdump (f : rdpsndFormat)
| PrintField (name : string) (v : Z)
| PrintLine (s : string).

Section Limits.

(** The limits of the PulseAudio headers. *)
Variables PA_RATE_MAX PA_CHANNELS_MAX : Z.

(** Lines 264-313. *)
Definition rdpsnd_pulse_set_format_spec (pulse : rdpsndPulsePlugin)
    (fmt : rdpsndFormat) (rec : Z) : rdpsndPulsePlugin :=
  if negb (context pulse) then pulse
  else
    let sample_format :=
      if wFormatTag fmt =? 1 then
        if wBitsPerSample fmt =? 8 then Some PA_SAMPLE_U8
        else if wBitsPerSample fmt =? 16 then Some PA_SAMPLE_S16LE
        else None
      else if wFormatTag fmt =? 6 then Some PA_SAMPLE_ALAW
      else if wFormatTag fmt =? 7 then Some PA_SAMPLE_ULAW
      else if wFormatTag fmt =? 0x11 then Some PA_SAMPLE_S16LE
      else None in
    let spec := mkSpec sample_format (nSamplesPerSec fmt) (nChannels fmt) in
    if negb (rec =? 0) then
      mkPulse (context pulse) (sample_spec pulse) (format pulse)
              (block_size pulse) spec (wFormatTag fmt) (nBlockAlign fmt)
    else
      mkPulse (context pulse) spec (wFormatTag fmt) (nBlockAlign fmt)
              (rec_sample_spec pulse) (rec_format pulse)
              (rec_block_size pulse).

(** Lines 427-496; the cases for A-law, u-law and IMA ADPCM are
    compiled out ([#if 0]). *)
Definition rdpsnd_pulse_format_supported (pulse : rdpsndPulsePlugin)
    (fmt : rdpsndFormat) : bool * list Printed :=
  if negb (context pulse) then (false, [])
  else if wFormatTag fmt =? 41222 then
    let seen :=
      [PrintHexdump fmt;
       PrintField "cbSize" (cbSize fmt);
       PrintField "nAvgBytesPerSec" (nAvgBytesPerSec fmt);
       PrintField "nChannels" (nChannels fmt);
       PrintField "nSamplesPerSec" (nSamplesPerSec fmt)] in
    if (nChannels fmt =? 2) && (nSamplesPerSec fmt =? 44100)
       && (nAvgBytesPerSec fmt =? 12000)
    then (true, seen ++ [PrintLine "good"])
    else (false, seen ++ [PrintLine "not good"])
  else if wFormatTag fmt =? 1 then
    if (cbSize fmt =? 0) && (nSamplesPerSec fmt <=? PA_RATE_MAX)
       && ((wBitsPerSample fmt =? 8) || (wBitsPerSample fmt =? 16))
       && ((nChannels fmt >=? 1) && (nChannels fmt <=? PA_CHANNELS_MAX))
    then (true, [])
    else (false, [])
  else (false, []).

End Limits.

End Pulse.

(** * Properties *)

(** ** Bytes and bit operations *)

Lemma is_byte_range (b : Z) : is_byte b = true <-> 0 <= b < 256.
Proof.
  unfold is_byte. rewrite andb_true_iff, Z.leb_le, Z.ltb_lt. tauto.
Qed.

Lemma byte_at_range (d : list Z) (i : nat) :
  forallb is_byte d = true -> 0 <= byte_at d i < 256.
Proof.
  intros H. unfold byte_at.
  destruct (nth_in_or_default i d 0) as [Hin | Hdef].
  - rewrite forallb_forall in H. apply is_byte_range, H, Hin.
  - rewrite Hdef. lia.
Qed.

(** A property of bytes that holds on each of the 256 of them. *)
Lemma byte_cases (P : Z -> bool) :
  forallb P (map Z.of_nat (seq 0 256)) = true ->
  forall b, 0 <= b < 256 -> P b = true.
Proof.
  intros H b Hb. rewrite forallb_forall in H. apply H.
  rewrite in_map_iff. exists (Z.to_nat b). split; [lia |].
  apply in_seq. lia.
Qed.

Lemma lor_shiftl8 (a b : Z) :
  0 <= a -> 0 <= b < 256 -> Z.lor (Z.shiftl a 8) b = a * 256 + b.
Proof.
  intros Ha Hb.
  assert (Hand : Z.land (Z.shiftl a 8) b = 0).
  { apply Z.bits_inj'. intros n Hn.
    rewrite Z.land_spec, Z.bits_0.
    destruct (Z.lt_ge_cases n 8) as [Hlt | Hge].
    - rewrite Z.shiftl_spec_low by lia. reflexivity.
    - rewrite (Z.bits_above_log2 b n), andb_false_r; [reflexivity | lia |].
      destruct (Z.eq_dec b 0) as [-> | Hnz]; [simpl; lia |].
      apply Z.log2_lt_pow2; [lia |].
      apply Z.lt_le_trans with (2 ^ 8); [simpl; lia |].
      apply Z.pow_le_mono_r; lia. }
  rewrite <- Z.lxor_lor by exact Hand.
  rewrite <- Z.add_nocarry_lxor by exact Hand.
  rewrite Z.shiftl_mul_pow2 by lia. reflexivity.
Qed.

Lemma bit7_clear (b : Z) :
  0 <= b < 256 -> Z.testbit b 7 = false -> Z.land b 0x80 = 0 /\ b < 128.
Proof.
  intros Hb H7.
  assert (G : implb (negb (Z.testbit b 7))
                     ((Z.land b 0x80 =? 0) && (b <? 128)) = true).
  { revert Hb. clear H7. revert b.
    apply (byte_cases (fun b => implb (negb (Z.testbit b 7))
                                  ((Z.land b 0x80 =? 0) && (b <? 128)))).
    vm_compute. reflexivity. }
  rewrite H7 in G. simpl in G.
  apply andb_true_iff in G. destruct G as [G1 G2].
  apply Z.eqb_eq in G1. apply Z.ltb_lt in G2. auto.
Qed.

Lemma bit7_set (b : Z) :
  0 <= b < 256 -> Z.testbit b 7 = true ->
  Z.land b 0x80 <> 0 /\ 128 <= b
  /\ Z.land b (Z.lnot 0x80) = b mod 128 /\ Z.land b 0x7f = b mod 128
  /\ b mod 128 = b - 128.
Proof.
  intros Hb H7.
  pose (P := fun b => implb (Z.testbit b 7)
                   (negb (Z.land b 0x80 =? 0) && (128 <=? b)
                    && (Z.land b (Z.lnot 0x80) =? b mod 128)
                    && (Z.land b 0x7f =? b mod 128)
                    && (b mod 128 =? b - 128))).
  assert (G : P b = true).
  { apply byte_cases; [vm_compute; reflexivity | exact Hb]. }
  unfold P in G. rewrite H7 in G. simpl in G.
  repeat (apply andb_true_iff in G; destruct G as [G ?]).
  apply negb_true_iff, Z.eqb_neq in G.
  repeat match goal with
         | H : (_ =? _) = true |- _ => apply Z.eqb_eq in H
         | H : (_ <=? _) = true |- _ => apply Z.leb_le in H
         end.
  auto.
Qed.

(** ** The framing recognizer of transport_read *)

(** A TSRequest length octet that announces more than two octets: the
    error is printed and the length stays 0. *)
Lemma tsrequest_wide_length (d : list Z) :
  forallb is_byte d = true ->
  byte_at d 0 = 0x30 ->
  Z.testbit (byte_at d 1) 7 = true -> 2 < byte_at d 1 mod 128 ->
  transport_read_pdu_bytes d
  = (0, [EvPrintf "Error reading TSRequest!"%string]).
Proof.
  intros Hd H0 H7 Hwide.
  pose proof (byte_at_range d 1 Hd) as R1.
  unfold transport_read_pdu_bytes. rewrite H0.
  change (0x30 =? 0x03) with false. change (0x30 =? 0x30) with true. cbv iota.
  destruct (bit7_set _ R1 H7) as (Hnz & _ & -> & _ & _).
  apply Z.eqb_neq in Hnz. rewrite Hnz. simpl negb. cbv iota.
  replace (byte_at d 1 mod 128 =? 1) with false
    by (symmetry; apply Z.eqb_neq; lia).
  replace (byte_at d 1 mod 128 =? 2) with false
    by (symmetry; apply Z.eqb_neq; lia).
  reflexivity.
Qed.

(** C5. For a buffer whose first byte is 0x30 the recognizer computes the
    total TSRequest length: a second byte LL with bit 7 clear gives
    LL + 2; a second byte 0x81 gives the third byte + 3; a second byte
    0x82 gives third * 256 + fourth + 4; a second byte that announces
    more than two length octets prints an error and leaves the length
    at 0. *)
Theorem tsrequest_length_recognized (d : list Z) :
  forallb is_byte d = true ->
  byte_at d 0 = 0x30 ->
  (Z.testbit (byte_at d 1) 7 = false ->
   transport_read_pdu_bytes d = (byte_at d 1 + 2, [])) /\
  (byte_at d 1 = 0x81 ->
   transport_read_pdu_bytes d = (byte_at d 2 + 3, [])) /\
  (byte_at d 1 = 0x82 ->
   transport_read_pdu_bytes d
   = (byte_at d 2 * 256 + byte_at d 3 + 4, [])) /\
  (Z.testbit (byte_at d 1) 7 = true -> 2 < byte_at d 1 mod 128 ->
   transport_read_pdu_bytes d
   = (0, [EvPrintf "Error reading TSRequest!"%string])).
Proof.
  intros Hd H0.
  pose proof (byte_at_range d 1 Hd) as R1.
  pose proof (byte_at_range d 2 Hd) as R2.
  pose proof (byte_at_range d 3 Hd) as R3.
  unfold transport_read_pdu_bytes. rewrite H0.
  change (0x30 =? 0x03) with false. change (0x30 =? 0x30) with true. cbv iota.
  repeat split.
  - intros H7. destruct (bit7_clear _ R1 H7) as [-> _]. reflexivity.
  - intros ->. reflexivity.
  - intros ->. change (Z.land 0x82 0x80 =? 0) with false.
    change (Z.land 0x82 (Z.lnot 0x80) =? 1) with false.
    change (Z.land 0x82 (Z.lnot 0x80) =? 2) with true. cbv iota beta.
    simpl negb. cbv iota.
    rewrite lor_shiftl8 by lia. reflexivity.
  - intros H7 Hwide.
    pose proof (tsrequest_wide_length d Hd H0 H7 Hwide) as Herr.
    unfold transport_read_pdu_bytes in Herr. rewrite H0 in Herr.
    exact Herr.
Qed.

Lemma tsrequest_length_recognized_witness :
  forallb is_byte [0x30; 0x82; 0x01; 0x00] = true /\
  byte_at [0x30; 0x82; 0x01; 0x00] 0 = 0x30 /\
  byte_at [0x30; 0x82; 0x01; 0x00] 1 = 0x82 /\
  transport_read_pdu_bytes [0x30; 0x82; 0x01; 0x00] = (260, []).
Proof.
  split; [reflexivity |]. split; [reflexivity |]. split; [reflexivity |].
  apply (proj1 (proj2 (proj2
           (tsrequest_length_recognized [0x30; 0x82; 0x01; 0x00]
              eq_refl eq_refl)))).
  reflexivity.
Defined.

(** C6, as the code has it.  For a buffer whose first byte is 0x03 the
    recognizer computes byte[2] * 256 + byte[3] (03 00 00 04 gives 4);
    for a first byte that is neither 0x03 nor 0x30 it decodes Fast-Path:
    byte[1] when its bit 7 is clear (00 08 gives 8, and 80 02 00 gives 2,
    its length byte being 0x02), else ((byte[1] & 0x7f) << 8) | byte[2],
    which is (byte[1] - 128) * 256 + byte[2] (00 82 00 gives 512). *)
Theorem tpkt_fastpath_length_recognized (d : list Z) :
  forallb is_byte d = true ->
  (byte_at d 0 = 0x03 ->
   transport_read_pdu_bytes d = (byte_at d 2 * 256 + byte_at d 3, [])) /\
  (byte_at d 0 <> 0x03 -> byte_at d 0 <> 0x30 ->
   Z.testbit (byte_at d 1) 7 = false ->
   transport_read_pdu_bytes d = (byte_at d 1, [])) /\
  (byte_at d 0 <> 0x03 -> byte_at d 0 <> 0x30 ->
   Z.testbit (byte_at d 1) 7 = true ->
   transport_read_pdu_bytes d
   = (Z.lor (Z.shiftl (Z.land (byte_at d 1) 0x7f) 8) (byte_at d 2), [])
   /\ Z.lor (Z.shiftl (Z.land (byte_at d 1) 0x7f) 8) (byte_at d 2)
      = (byte_at d 1 - 128) * 256 + byte_at d 2) /\
  transport_read_pdu_bytes [0x03; 0x00; 0x00; 0x04] = (4, []) /\
  transport_read_pdu_bytes [0x00; 0x08] = (8, []) /\
  transport_read_pdu_bytes [0x80; 0x02; 0x00] = (2, []) /\
  transport_read_pdu_bytes [0x00; 0x82; 0x00] = (512, []).
Proof.
  intros Hd.
  pose proof (byte_at_range d 1 Hd) as R1.
  pose proof (byte_at_range d 2 Hd) as R2.
  pose proof (byte_at_range d 3 Hd) as R3.
  unfold transport_read_pdu_bytes.
  split; [| split; [| split; [| repeat split]]].
  - intros ->. change (0x03 =? 0x03) with true. cbv iota.
    rewrite lor_shiftl8 by lia. reflexivity.
  - intros N3 N30 H7.
    apply Z.eqb_neq in N3, N30. rewrite N3, N30.
    destruct (bit7_clear _ R1 H7) as [-> _]. reflexivity.
  - intros N3 N30 H7.
    apply Z.eqb_neq in N3, N30. rewrite N3, N30.
    destruct (bit7_set _ R1 H7) as (Hnz & Hge & _ & H7f & Hmod).
    apply Z.eqb_neq in Hnz. rewrite Hnz. simpl negb. cbv iota.
    split; [reflexivity |].
    rewrite H7f, lor_shiftl8, Hmod by lia. reflexivity.
Qed.

Lemma tpkt_fastpath_length_recognized_witness :
  forallb is_byte [0x03; 0x00; 0x01; 0x02] = true /\
  transport_read_pdu_bytes [0x03; 0x00; 0x01; 0x02] = (258, []).
Proof.
  split; [reflexivity |].
  apply (proj1 (tpkt_fastpath_length_recognized [0x03; 0x00; 0x01; 0x02]
                  eq_refl)).
  reflexivity.
Defined.

(** C6, as the spec words it, fails on its own example: in 80 02 00 the
    length byte is 0x02, bit 7 clear, and the recognizer answers 2. *)
Lemma fastpath_80_02_00_is_not_512 :
  byte_at [0x80; 0x02; 0x00] 0 <> 0x03 /\
  byte_at [0x80; 0x02; 0x00] 0 <> 0x30 /\
  fst (transport_read_pdu_bytes [0x80; 0x02; 0x00]) <> 512.
Proof.
  repeat split; vm_compute; discriminate.
Qed.

(** ** Layer upgrade, re-entrancy guard and write path *)

Section Generic.

Context {W : Type} {E : Endpoint W}.

(** C2, as the code has it.  [transport_connect_tls] returns what the
    handshake returned, and the layer is TLS afterwards whether the
    handshake failed or not: the tag is set before [tls_connect] runs
    and is not restored. *)
Theorem connect_tls_sets_layer_first (t : rdpTransport W) :
  fst (transport_connect_tls t) = fst (tls_connect (net t)) /\
  layer (snd (transport_connect_tls t)) = TRANSPORT_LAYER_TLS.
Proof.
  unfold transport_connect_tls.
  assert (Hnet : net (set_layer (if tls t then t else set_tls t true)
                                TRANSPORT_LAYER_TLS) = net t)
    by (destruct (tls t); reflexivity).
  rewrite Hnet.
  destruct (tls_connect (net t)) as [ok w].
  destruct ok; split; reflexivity.
Qed.

(** C7. Called while [level] is not 0, [transport_check_fds] prints the
    nested-call error and returns -1 at once: no endpoint is read, the
    receive buffer is as it was, the callback is not invoked. *)
Theorem check_fds_refuses_nested_call (fuel : nat) (cb : recv_callback_t)
    (t : rdpTransport W) :
  level t <> 0 ->
  exists t',
    transport_check_fds fuel cb t = Done (-1, t') /\
    log t' = log t
             ++ [EvPrintf "transport_check_fds: error, nested calls"%string] /\
    net t' = net t /\ recv_buffer t' = recv_buffer t /\
    level t' = level t /\ layer t' = layer t /\
    endpoint_io (log t') = endpoint_io (log t) /\
    callbacks (log t') = callbacks (log t).
Proof.
  intros Hlevel. unfold transport_check_fds.
  apply Z.eqb_neq in Hlevel. rewrite Hlevel. simpl negb. cbv iota.
  eexists. split; [reflexivity |].
  simpl. repeat split; try reflexivity.
  - unfold endpoint_io. rewrite filter_app. simpl. apply app_nil_r.
  - unfold callbacks. rewrite flat_map_app. simpl. apply app_nil_r.
Qed.

(** A write on a closed layer: no endpoint is reached, the status is -1
    and nothing of the transport changes. *)
Lemma write_on_closed_layer (fuel : nat) (t : rdpTransport W) (s : STREAM) :
  layer t = TRANSPORT_LAYER_CLOSED ->
  transport_write (S fuel) t s = Done (-1, t, stream_set_pos s 0).
Proof.
  intros Hl. unfold transport_write. cbn [transport_write_loop].
  unfold layer_write. rewrite Hl.
  destruct (stream_get_length s >? 0); cbn.
  - destruct t; cbn in *; subst; reflexivity.
  - destruct t; cbn in *; subst; reflexivity.
Qed.

(** C4. Once a [transport_write] has returned a negative status the
    layer is CLOSED, and every later [transport_write] returns -1
    leaving the transport, its log of endpoint calls included, exactly
    as it was: neither tcp_write nor tls_write is reached. *)
Theorem write_failure_closes_for_good (fuel : nat) (t t' : rdpTransport W)
    (s s' : STREAM) (st : Z) :
  transport_write fuel t s = Done (st, t', s') ->
  st < 0 ->
  layer t' = TRANSPORT_LAYER_CLOSED /\
  forall (fuel' : nat) (later : list STREAM),
    write_all (S fuel') t' later = Done (map (fun _ => -1) later, t').
Proof.
  intros Hw Hneg.
  assert (Hclosed : layer t' = TRANSPORT_LAYER_CLOSED).
  { unfold transport_write in Hw.
    destruct (transport_write_loop fuel t (stream_set_pos s 0) (-1)
                (stream_get_length s)) as [[[st1 t1] s1] | |];
      try discriminate.
    destruct (st1 <? 0) eqn:Hst.
    - inversion Hw; subst. reflexivity.
    - inversion Hw; subst. apply Z.ltb_ge in Hst. lia. }
  split; [exact Hclosed |].
  intros fuel' later. induction later as [| s0 later IH].
  - reflexivity.
  - cbn [write_all map].
    rewrite (write_on_closed_layer fuel' t' s0 Hclosed), IH. reflexivity.
Qed.

(** C9. A [transport_write] of an empty stream reaches no endpoint, yet
    returns -1 and closes the layer, whatever the layer was (TCP and
    TLS included); every later write then fails without an endpoint
    call. *)
Theorem empty_write_reports_failure (fuel : nat) (t : rdpTransport W)
    (s : STREAM) :
  stream_get_length s = 0 ->
  transport_write fuel t s
  = Done (-1, set_layer t TRANSPORT_LAYER_CLOSED, stream_set_pos s 0) /\
  log (set_layer t TRANSPORT_LAYER_CLOSED) = log t /\
  net (set_layer t TRANSPORT_LAYER_CLOSED) = net t /\
  layer (set_layer t TRANSPORT_LAYER_CLOSED) = TRANSPORT_LAYER_CLOSED /\
  forall (fuel' : nat) (later : list STREAM),
    write_all (S fuel') (set_layer t TRANSPORT_LAYER_CLOSED) later
    = Done (map (fun _ => -1) later, set_layer t TRANSPORT_LAYER_CLOSED).
Proof.
  intros Hlen.
  assert (Hw : transport_write fuel t s
               = Done (-1, set_layer t TRANSPORT_LAYER_CLOSED,
                       stream_set_pos s 0)).
  { unfold transport_write. rewrite Hlen.
    destruct fuel; reflexivity. }
  split; [exact Hw |]. repeat split.
  intros fuel' later. induction later as [| s0 later IH].
  - reflexivity.
  - cbn [write_all map].
    rewrite (write_on_closed_layer fuel'
               (set_layer t TRANSPORT_LAYER_CLOSED) s0 eq_refl), IH.
    reflexivity.
Qed.

End Generic.

(** C2, as the spec words it, fails: on a socket whose peer refuses the
    handshake the call returns false and the layer, TCP before, is TLS. *)
Lemma failed_handshake_leaves_layer_tls :
  let t := transport_new (mkSock [] [] true false) in
  layer t = TRANSPORT_LAYER_TCP /\
  fst (tls_connect (net t)) = false /\
  fst (transport_connect_tls t) = false /\
  layer (snd (transport_connect_tls t)) <> layer t.
Proof.
  cbv zeta. repeat split. vm_compute. discriminate.
Qed.

(** The guard at work: a handler that polls the transport it was handed
    gets the nested-call error, and the outer call reports the failure. *)
Lemma nested_poll_is_refused :
  poll_report (transport_check_fds 1 reenter (arrived [0x04; 0x04; 0x11; 0x22]))
  = Some (-1, [], [[0x04; 0x04; 0x11; 0x22]]) /\
  poll_log (transport_check_fds 1 reenter (arrived [0x04; 0x04; 0x11; 0x22]))
  = Some [EvRead TRANSPORT_LAYER_TCP 4 4;
          EvCallback [0x04; 0x04; 0x11; 0x22];
          EvPrintf "transport_check_fds: error, nested calls"%string].
Proof.
  split; vm_compute; reflexivity.
Qed.

Lemma check_fds_refuses_nested_call_witness :
  level (set_level session0 1) <> 0 /\
  exists t',
    transport_check_fds 1 (consume (fun _ => true)) (set_level session0 1)
    = Done (-1, t') /\
    recv_buffer t' = recv_buffer session0 /\
    callbacks (log t') = [].
Proof.
  split; [vm_compute; discriminate |].
  destruct (check_fds_refuses_nested_call 1 (consume (fun _ => true))
              (set_level session0 1)) as (t' & Hr & _ & _ & Hb & _ & _ & _ & Hc).
  - vm_compute; discriminate.
  - exists t'. split; [exact Hr |]. split; [exact Hb | exact Hc].
Defined.

Lemma write_failure_closes_for_good_witness :
  let t := transport_new (mkSock [] [] false true) in
  let s := mkStream 3 3 [1; 2; 3] in
  let t' := set_layer (emit t [EvWrite TRANSPORT_LAYER_TCP 3 (-1)])
                      TRANSPORT_LAYER_CLOSED in
  transport_write 1 t s = Done (-1, t', mkStream 3 0 [1; 2; 3]) /\
  -1 < 0 /\
  layer t' = TRANSPORT_LAYER_CLOSED /\
  write_all 1 t' [s; s] = Done ([-1; -1], t').
Proof.
  cbv zeta.
  assert (Hw : transport_write 1 (transport_new (mkSock [] [] false true))
                 (mkStream 3 3 [1; 2; 3])
               = Done (-1,
                       set_layer
                         (emit (transport_new (mkSock [] [] false true))
                               [EvWrite TRANSPORT_LAYER_TCP 3 (-1)])
                         TRANSPORT_LAYER_CLOSED,
                       mkStream 3 0 [1; 2; 3])) by reflexivity.
  assert (Hneg : -1 < 0) by lia.
  split; [exact Hw |]. split; [exact Hneg |].
  destruct (write_failure_closes_for_good 1 _ _ _ _ (-1) Hw Hneg)
    as [Hl Hall].
  split; [exact Hl |].
  exact (Hall 0%nat [mkStream 3 3 [1; 2; 3]; mkStream 3 3 [1; 2; 3]]).
Defined.

Lemma empty_write_reports_failure_witness :
  stream_get_length (mkStream 16384 0 [0; 0; 0; 0]) = 0 /\
  transport_write 1 (transport_new quiet) (mkStream 16384 0 [0; 0; 0; 0])
  = Done (-1, set_layer (transport_new quiet) TRANSPORT_LAYER_CLOSED,
          mkStream 16384 0 [0; 0; 0; 0]).
Proof.
  split; [reflexivity |].
  exact (proj1 (empty_write_reports_failure 1 (transport_new quiet)
                  (mkStream 16384 0 [0; 0; 0; 0]) eq_refl)).
Defined.

(** ** The read primitive and the single-PDU read *)

Section Reads.

Context {W : Type} {E : Endpoint W}.

(** Asked for nothing (or less), [transport_read_layer] does not enter
    its loop: no endpoint is read and 0 is returned. *)
Lemma read_layer_nothing_asked (fuel : nat) (t : rdpTransport W)
    (d : list Z) (off bytes : Z) :
  bytes <= 0 -> transport_read_layer fuel t d off bytes = Done (0, t, d).
Proof.
  intros Hb. unfold transport_read_layer.
  destruct fuel; cbn [transport_read_layer_loop];
    replace (0 <? bytes) with false by (symmetry; apply Z.ltb_ge; lia);
    reflexivity.
Qed.

(** On a closed layer no endpoint is read and the initial status -1 comes
    back, in either mode. *)
Lemma read_layer_closed (fuel : nat) (t : rdpTransport W) (d : list Z)
    (off n : Z) :
  layer t = TRANSPORT_LAYER_CLOSED -> 0 < n ->
  transport_read_layer (S fuel) t d off n = Done (-1, t, d).
Proof.
  intros Hl Hn. unfold transport_read_layer.
  cbn [transport_read_layer_loop].
  replace (0 <? n) with true by (symmetry; apply Z.ltb_lt; exact Hn).
  unfold layer_read. rewrite Hl. cbn [poke].
  destruct (blocking t); reflexivity.
Qed.

(** The read of an open layer is one endpoint read, logged. *)
Lemma layer_read_open (t : rdpTransport W) (status n : Z) :
  layer t <> TRANSPORT_LAYER_CLOSED ->
  exists st bs w,
    layer_read t status n
    = (st, bs, emit (set_net t w) [EvRead (layer t) n st]) /\
    (layer t = TRANSPORT_LAYER_TCP -> tcp_read (net t) n = (st, bs, w)) /\
    (layer t = TRANSPORT_LAYER_TLS -> tls_read (net t) n = (st, bs, w)).
Proof.
  intros Hopen. unfold layer_read.
  destruct (layer t) eqn:Hl; [| | congruence].
  - destruct (tcp_read (net t) n) as [[st bs] w].
    exists st, bs, w.
    split; [reflexivity | split; [reflexivity | discriminate]].
  - destruct (tls_read (net t) n) as [[st bs] w].
    exists st, bs, w.
    split; [reflexivity | split; [discriminate | reflexivity]].
Qed.

(** C10. When the length [transport_read] computes is below the count
    of bytes already in the stream, the body read asks
    [transport_read_layer] for a non-positive count, its loop is not
    entered, and [transport_read] returns the count of header bytes this
    call read, which is not negative; so with four bytes in and a
    TSRequest length octet announcing more than two octets, the error
    is printed and 0 is returned. *)
Theorem short_length_is_not_reported (fuel : nat) (t : rdpTransport W)
    (s : STREAM) :
  (forall (t0 : rdpTransport W) (d : list Z) (off bytes : Z),
      bytes <= 0 -> transport_read_layer fuel t0 d off bytes = Done (0, t0, d))
  /\
  (4 <= stream_get_length s ->
   fst (transport_read_pdu_bytes (data s)) < stream_get_length s ->
   transport_read fuel t s
   = Done (0, emit t (snd (transport_read_pdu_bytes (data s))),
           with_data s (data s)))
  /\
  (forall (st : Z) (t1 : rdpTransport W) (d1 : list Z),
      stream_get_length s < 4 ->
      transport_read_layer fuel t (data s) (stream_get_length s)
                           (4 - stream_get_length s) = Done (st, t1, d1) ->
      0 <= st -> 4 <= st + stream_get_length s ->
      fst (transport_read_pdu_bytes d1) < stream_get_length s + st ->
      transport_read fuel t s
      = Done (st, emit t1 (snd (transport_read_pdu_bytes d1)),
              with_data s d1))
  /\
  (4 <= stream_get_length s ->
   forallb is_byte (data s) = true ->
   byte_at (data s) 0 = 0x30 ->
   Z.testbit (byte_at (data s) 1) 7 = true ->
   2 < byte_at (data s) 1 mod 128 ->
   transport_read fuel t s
   = Done (0, emit t [EvPrintf "Error reading TSRequest!"%string],
           with_data s (data s))).
Proof.
  assert (Hbody : forall (t0 : rdpTransport W) (s0 : STREAM) (sb ts : Z),
             fst (transport_read_pdu_bytes (data s0)) < sb ->
             transport_read_pdu fuel t0 s0 sb ts
             = Done (ts + 0,
                     emit t0 (snd (transport_read_pdu_bytes (data s0))),
                     with_data s0 (data s0))).
  { intros t0 s0 sb ts Hlt. unfold transport_read_pdu.
    destruct (transport_read_pdu_bytes (data s0)) as [pdu msgs].
    cbn [fst snd] in *.
    rewrite read_layer_nothing_asked by lia. reflexivity. }
  split; [intros; apply read_layer_nothing_asked; assumption |].
  split; [| split].
  - intros H4 Hlt. unfold transport_read.
    replace (stream_get_length s <? 4) with false
      by (symmetry; apply Z.ltb_ge; exact H4).
    rewrite Hbody by exact Hlt. reflexivity.
  - intros st t1 d1 Hshort Hhdr Hst H4 Hlt. unfold transport_read.
    replace (stream_get_length s <? 4) with true
      by (symmetry; apply Z.ltb_lt; exact Hshort).
    rewrite Hhdr.
    replace (st <? 0) with false by (symmetry; apply Z.ltb_ge; exact Hst).
    replace (st + stream_get_length s <? 4) with false
      by (symmetry; apply Z.ltb_ge; exact H4).
    rewrite Hbody by (cbn [with_data data]; exact Hlt).
    cbn [with_data data size p]. rewrite Z.add_0_r. reflexivity.
  - intros H4 Hd H30 H7 Hwide.
    pose proof (tsrequest_wide_length (data s) Hd H30 H7 Hwide) as Herr.
    unfold transport_read.
    replace (stream_get_length s <? 4) with false
      by (symmetry; apply Z.ltb_ge; exact H4).
    rewrite Hbody by (rewrite Herr; cbn [fst]; lia).
    rewrite Herr. reflexivity.
Qed.

End Reads.

Lemma short_length_is_not_reported_witness :
  let t := transport_new (mkSock [0x30; 0x83; 0; 0; 9] [] true true) in
  let s := mkStream 8 0 [0; 0; 0; 0; 0; 0; 0; 0] in
  let t1 := emit (set_net t (mkSock [9] [] true true))
                 [EvRead TRANSPORT_LAYER_TCP 4 4] in
  let d1 := [0x30; 0x83; 0; 0; 0; 0; 0; 0] in
  stream_get_length s < 4 /\
  transport_read_layer 1 t (data s) (stream_get_length s)
                       (4 - stream_get_length s) = Done (4, t1, d1) /\
  fst (transport_read_pdu_bytes d1) < stream_get_length s + 4 /\
  transport_read 1 t s
  = Done (4, emit t1 [EvPrintf "Error reading TSRequest!"%string],
          with_data s d1).
Proof.
  cbv zeta.
  assert (Hshort : stream_get_length (mkStream 8 0 [0; 0; 0; 0; 0; 0; 0; 0])
                   < 4) by (cbn; lia).
  assert (Hlt : fst (transport_read_pdu_bytes [0x30; 0x83; 0; 0; 0; 0; 0; 0])
                < stream_get_length (mkStream 8 0 [0; 0; 0; 0; 0; 0; 0; 0]) + 4)
    by (cbn; lia).
  split; [exact Hshort |]. split; [reflexivity |]. split; [exact Hlt |].
  refine (proj1 (proj2 (proj2
            (short_length_is_not_reported 1
               (transport_new (mkSock [0x30; 0x83; 0; 0; 9] [] true true))
               (mkStream 8 0 [0; 0; 0; 0; 0; 0; 0; 0]))))
            4 _ [0x30; 0x83; 0; 0; 0; 0; 0; 0] Hshort eq_refl _ _ Hlt);
    cbn; lia.
Defined.

(** ** The dispatch loop on a socket *)

Lemma len_nonneg (l : list Z) : 0 <= len l.
Proof. unfold len. lia. Qed.

Lemma len_app (l m : list Z) : len (l ++ m) = len l + len m.
Proof. unfold len. rewrite length_app. lia. Qed.

Lemma len_firstn (n : Z) (l : list Z) :
  0 <= n -> len (firstn (Z.to_nat n) l) = Z.min n (len l).
Proof. intros Hn. unfold len. rewrite length_firstn. lia. Qed.

Lemma len_skipn (n : Z) (l : list Z) :
  0 <= n -> len (skipn (Z.to_nat n) l) = len l - Z.min n (len l).
Proof. intros Hn. unfold len. rewrite length_skipn. lia. Qed.

(** A store inside the buffer: the bytes before it stay, it follows. *)
Lemma poke_inside (d : list Z) (off : Z) (bs : list Z) :
  0 <= off -> off + len bs <= len d ->
  exists d1,
    poke d off bs = Some d1 /\ len d1 = len d /\
    firstn (Z.to_nat (off + len bs)) d1 = firstn (Z.to_nat off) d ++ bs.
Proof.
  intros Hoff Hfit. unfold len in *.
  assert (Hlen : length (firstn (Z.to_nat off) d) = Z.to_nat off)
    by (rewrite length_firstn; lia).
  destruct bs as [| b bs].
  - exists d. split; [reflexivity |]. split; [reflexivity |].
    cbn [length]. rewrite Z.add_0_r. symmetry. apply app_nil_r.
  - exists (firstn (Z.to_nat off) d ++ (b :: bs)
            ++ skipn (Z.to_nat off + length (b :: bs)) d).
    split; [| split].
    + unfold poke.
      replace ((0 <=? off)
               && (off + Z.of_nat (length (b :: bs))
                   <=? Z.of_nat (length d))) with true; [reflexivity |].
      symmetry. apply andb_true_iff. split; [apply Z.leb_le | apply Z.leb_le];
        lia.
    + f_equal. rewrite !length_app, Hlen, length_skipn. lia.
    + rewrite app_assoc.
      rewrite firstn_app.
      replace (Z.to_nat (off + Z.of_nat (length (b :: bs)))
               - length (firstn (Z.to_nat off) d ++ b :: bs))%nat with 0%nat
        by (rewrite length_app, Hlen; lia).
      rewrite firstn_O, app_nil_r.
      apply firstn_all2. rewrite length_app, Hlen. lia.
Qed.

(** ** transport_read_layer over an endpoint that delivers a queue *)

(** A store inside the buffer, spelled out. *)
Lemma poke_spec (d : list Z) (off : Z) (bs : list Z) :
  0 <= off -> off + len bs <= len d ->
  poke d off bs
  = Some (firstn (Z.to_nat off) d ++ bs
          ++ skipn (Z.to_nat off + length bs) d).
Proof.
  intros Hoff Hfit. unfold len in *. unfold poke.
  destruct bs as [| b bs].
  - cbn [app length]. rewrite Nat.add_0_r, firstn_skipn. reflexivity.
  - replace ((0 <=? off)
             && (off + Z.of_nat (length (b :: bs)) <=? Z.of_nat (length d)))
      with true; [reflexivity |].
    symmetry. apply andb_true_iff.
    split; [apply Z.leb_le | apply Z.leb_le]; lia.
Qed.

(** Two stores one after the other are the store of both. *)
Lemma poke_app (d : list Z) (off : Z) (a b : list Z) :
  0 <= off -> off + len a + len b <= len d ->
  poke d off (a ++ b)
  = match poke d off a with
    | Some d1 => poke d1 (off + len a) b
    | None => None
    end.
Proof.
  intros Hoff Hfit.
  pose proof (len_nonneg a) as Ha. pose proof (len_nonneg b) as Hb.
  rewrite (poke_spec d off a) by lia.
  rewrite (poke_spec d off (a ++ b)) by (rewrite ?len_app; lia).
  set (k := Z.to_nat off).
  assert (Hk : length (firstn k d) = k)
    by (rewrite length_firstn; unfold len in *; lia).
  assert (Hd1 : len (firstn k d ++ a ++ skipn (k + length a) d) = len d).
  { unfold len in *. rewrite !length_app, Hk, length_skipn. lia. }
  rewrite poke_spec by (rewrite ?Hd1; lia).
  replace (Z.to_nat (off + len a)) with (k + length a)%nat
    by (unfold len; lia).
  f_equal.
  rewrite (app_assoc (firstn k d) a).
  assert (Hka : length (firstn k d ++ a) = (k + length a)%nat)
    by (rewrite length_app, Hk; reflexivity).
  rewrite firstn_app, Hka, Nat.sub_diag, firstn_O, app_nil_r.
  rewrite <- Hka at 1. rewrite firstn_all.
  rewrite skipn_app, Hka.
  rewrite (skipn_all2 (firstn k d ++ a)) by lia.
  replace (k + length a + length b - (k + length a))%nat with (length b)
    by lia.
  rewrite skipn_skipn, length_app. cbn [app].
  rewrite <- !app_assoc.
  replace (length b + (k + length a))%nat
    with (k + (length a + length b))%nat by lia.
  reflexivity.
Qed.

Section QueueReads.

Context {W : Type} {E : Endpoint W}.
Variables (queue : W -> list Z) (fault : W -> Z).
Hypothesis Hq : delivers_queue queue fault.

(** One read of an open layer is one read of the queue. *)
Lemma layer_read_delivers (t : rdpTransport W) (status n : Z) :
  layer t <> TRANSPORT_LAYER_CLOSED -> 0 < n ->
  exists st bs w,
    layer_read t status n
    = (st, bs, emit (set_net t w) [EvRead (layer t) n st]) /\
    queue (net t) = bs ++ queue w /\ fault w = fault (net t) /\
    (queue (net t) <> [] -> 0 < st <= n /\ len bs = st) /\
    (queue (net t) = [] -> st = fault (net t) /\ bs = []).
Proof.
  intros Hopen Hn. destruct Hq as (Htcp & Htls & _ & _).
  unfold layer_read. destruct (layer t) eqn:Hl; [| | congruence].
  - specialize (Htcp (net t) n Hn).
    destruct (tcp_read (net t) n) as [[st bs] w]. cbn [fst snd] in Htcp.
    exists st, bs, w. split; [reflexivity | exact Htcp].
  - specialize (Htls (net t) n Hn).
    destruct (tls_read (net t) n) as [[st bs] w]. cbn [fst snd] in Htls.
    exists st, bs, w. split; [reflexivity | exact Htls].
Qed.

(** The blocking loop with the rest of the count pending: it reads on,
    whatever the size of the pieces, until the count is in. *)
Lemma queue_loop_full (fuel : nat) :
  forall (t : rdpTransport W) (d : list Z) (off bytes read status : Z),
    blocking t = true -> layer t <> TRANSPORT_LAYER_CLOSED ->
    0 <= off -> 0 <= read <= bytes -> off + bytes <= len d ->
    bytes - read <= len (queue (net t)) ->
    (Z.to_nat (bytes - read) <= fuel)%nat ->
    exists t' d',
      transport_read_layer_loop fuel t d off bytes read status
      = Done (bytes, t', d') /\
      poke d (off + read) (firstn (Z.to_nat (bytes - read)) (queue (net t)))
      = Some d' /\
      queue (net t') = skipn (Z.to_nat (bytes - read)) (queue (net t)) /\
      fault (net t') = fault (net t) /\
      layer t' = layer t /\ blocking t' = true.
Proof.
  induction fuel as [| fuel IH];
    intros t d off bytes read status Hblk Hopen Hoff Hread Hfit Hhas Hfuel.
  - assert (read = bytes) by lia. subst read.
    cbn [transport_read_layer_loop]. rewrite Z.ltb_irrefl, Z.sub_diag.
    exists t, d. cbn. repeat split; reflexivity || assumption.
  - cbn [transport_read_layer_loop].
    destruct (read <? bytes) eqn:Hlt.
    2:{ apply Z.ltb_ge in Hlt. assert (read = bytes) by lia. subst read.
        rewrite Z.sub_diag. exists t, d. cbn.
        repeat split; reflexivity || assumption. }
    apply Z.ltb_lt in Hlt.
    destruct (layer_read_delivers t status (bytes - read) Hopen)
      as (st & bs & w & Hrd & Hqueue & Hfault & Hsome & _); [lia |].
    pose proof (len_nonneg (queue w)) as Hw.
    destruct Hsome as [Hst Hbs].
    { intros Hnil. rewrite Hnil in Hhas. cbn in Hhas. lia. }
    rewrite Hrd.
    assert (Hlenq : len (queue (net t)) = st + len (queue w))
      by (rewrite Hqueue, len_app; lia).
    pose proof (poke_app d (off + read) bs
                  (firstn (Z.to_nat (bytes - read - st)) (queue w))) as Happ.
    rewrite len_firstn, Hbs in Happ by lia.
    rewrite (poke_spec d (off + read) bs) in * by lia.
    set (d1 := firstn (Z.to_nat (off + read)) d ++ bs
               ++ skipn (Z.to_nat (off + read) + length bs) d) in *.
    assert (Hd1 : len d1 = len d).
    { subst d1. unfold len in *.
      rewrite !length_app, length_firstn, length_skipn. lia. }
    set (t1 := emit (set_net t w) [EvRead (layer t) (bytes - read) st]).
    assert (Hb1 : blocking t1 = true) by exact Hblk.
    assert (Hl1 : layer t1 = layer t) by reflexivity.
    assert (Hn1 : net t1 = w) by reflexivity.
    rewrite Hb1. cbn [negb].
    replace (st <? 0) with false by (symmetry; apply Z.ltb_ge; lia).
    replace (st =? 0) with false by (symmetry; apply Z.eqb_neq; lia).
    destruct (IH t1 d1 off bytes (read + st) st)
      as (t' & d' & Hrun & Hpoke & Hqueue' & Hfault' & Hl' & Hb');
      [exact Hb1 | congruence | lia | lia | lia | rewrite Hn1; lia | lia |].
    rewrite Hn1 in Hpoke, Hqueue', Hfault'.
    replace (bytes - (read + st)) with (bytes - read - st) in * by lia.
    replace (off + (read + st)) with (off + read + st) in Hpoke by lia.
    exists t', d'. split; [exact Hrun |].
    assert (Hcut : firstn (Z.to_nat (bytes - read)) (queue (net t))
                   = bs ++ firstn (Z.to_nat (bytes - read - st)) (queue w)).
    { rewrite Hqueue, firstn_app.
      rewrite firstn_all2 by (unfold len in *; lia).
      f_equal. f_equal. unfold len in *. lia. }
    assert (Hskip : skipn (Z.to_nat (bytes - read)) (queue (net t))
                    = skipn (Z.to_nat (bytes - read - st)) (queue w)).
    { rewrite Hqueue, skipn_app.
      rewrite skipn_all2 by (unfold len in *; lia).
      cbn [app]. f_equal. unfold len in *. lia. }
    rewrite Hcut, Hskip, Happ by lia.
    repeat split; try assumption; congruence.
Qed.

(** The blocking loop with less than the count pending and the peer
    gone: it reads what there is and returns the error of the read that
    finds nothing. *)
Lemma queue_loop_gone (fuel : nat) :
  forall (t : rdpTransport W) (d : list Z) (off bytes read status : Z),
    blocking t = true -> layer t <> TRANSPORT_LAYER_CLOSED ->
    0 <= off -> 0 <= read -> off + bytes <= len d ->
    len (queue (net t)) < bytes - read -> fault (net t) < 0 ->
    (length (queue (net t)) < fuel)%nat ->
    exists t' d',
      transport_read_layer_loop fuel t d off bytes read status
      = Done (fault (net t), t', d') /\
      poke d (off + read) (queue (net t)) = Some d' /\
      queue (net t') = [] /\
      exists evs,
        log t' = log t ++ evs
                 ++ [EvRead (layer t) (bytes - read - len (queue (net t)))
                            (fault (net t))].
Proof.
  induction fuel as [| fuel IH];
    intros t d off bytes read status Hblk Hopen Hoff Hread Hfit Hshort
           Hgone Hfuel; [lia |].
  pose proof (len_nonneg (queue (net t))) as Hlen.
  cbn [transport_read_layer_loop].
  replace (read <? bytes) with true by (symmetry; apply Z.ltb_lt; lia).
  destruct (layer_read_delivers t status (bytes - read) Hopen)
    as (st & bs & w & Hrd & Hqueue & Hfault & Hsome & Hnone); [lia |].
  rewrite Hrd.
  set (t1 := emit (set_net t w) [EvRead (layer t) (bytes - read) st]).
  assert (Hb1 : blocking t1 = true) by exact Hblk.
  assert (Hl1 : layer t1 = layer t) by reflexivity.
  assert (Hn1 : net t1 = w) by reflexivity.
  assert (Hlog1 : log t1 = log t ++ [EvRead (layer t) (bytes - read) st])
    by reflexivity.
  destruct (queue (net t)) as [| b0 q0] eqn:Hqt.
  - destruct Hnone as [Hst Hbs]; [reflexivity |]. subst st bs.
    cbn [poke]. rewrite Hb1. cbn [negb].
    replace (fault (net t) <? 0) with true
      by (symmetry; apply Z.ltb_lt; exact Hgone).
    exists t1, d. split; [reflexivity |]. split; [reflexivity |].
    split; [rewrite Hn1; cbn [app] in Hqueue; congruence |].
    exists []. rewrite Hlog1. cbn [app]. unfold len. cbn [length].
    rewrite Z.sub_0_r. reflexivity.
  - destruct Hsome as [Hst Hbs]; [discriminate |].
    pose proof (len_nonneg (queue w)) as Hw.
    assert (Hlenq : len (b0 :: q0) = st + len (queue w))
      by (rewrite Hqueue, len_app; lia).
    pose proof (poke_app d (off + read) bs (queue w)) as Happ.
    rewrite Hbs in Happ.
    rewrite (poke_spec d (off + read) bs) in * by lia.
    set (d1 := firstn (Z.to_nat (off + read)) d ++ bs
               ++ skipn (Z.to_nat (off + read) + length bs) d) in *.
    assert (Hd1 : len d1 = len d).
    { subst d1. unfold len in *.
      rewrite !length_app, length_firstn, length_skipn. lia. }
    rewrite Hb1. cbn [negb].
    replace (st <? 0) with false by (symmetry; apply Z.ltb_ge; lia).
    replace (st =? 0) with false by (symmetry; apply Z.eqb_neq; lia).
    destruct (IH t1 d1 off bytes (read + st) st)
      as (t' & d' & Hrun & Hpoke & Hqueue' & evs & Hlog');
      [exact Hb1 | congruence | lia | lia | lia | rewrite Hn1; lia
      | rewrite Hn1, Hfault; exact Hgone
      | rewrite Hn1; unfold len in *; cbn [length] in *; lia |].
    rewrite Hn1, Hfault in *.
    replace (off + (read + st)) with (off + read + st) in Hpoke by lia.
    exists t', d'. split; [exact Hrun |].
    split; [rewrite Hqueue, Happ by lia; exact Hpoke |].
    split; [exact Hqueue' |].
    exists (EvRead (layer t) (bytes - read) st :: evs).
    rewrite Hlog', Hlog1, Hl1, <- app_assoc. cbn [app].
    replace (bytes - (read + st) - len (queue w))
      with (bytes - read - len (b0 :: q0)) by lia.
    reflexivity.
Qed.

(** The blocking loop with less than the count pending and the peer
    there: it reads what there is, then waits and asks again, round
    after round. *)
Lemma queue_loop_waits (fuel : nat) :
  forall (t : rdpTransport W) (d : list Z) (off bytes read status : Z),
    blocking t = true -> layer t <> TRANSPORT_LAYER_CLOSED ->
    0 <= off -> 0 <= read -> off + bytes <= len d ->
    len (queue (net t)) < bytes - read -> fault (net t) = 0 ->
    transport_read_layer_loop fuel t d off bytes read status = Spin.
Proof.
  induction fuel as [| fuel IH];
    intros t d off bytes read status Hblk Hopen Hoff Hread Hfit Hshort Hup;
    pose proof (len_nonneg (queue (net t))) as Hlen;
    cbn [transport_read_layer_loop];
    replace (read <? bytes) with true by (symmetry; apply Z.ltb_lt; lia);
    [reflexivity |].
  destruct (layer_read_delivers t status (bytes - read) Hopen)
    as (st & bs & w & Hrd & Hqueue & Hfault & Hsome & Hnone); [lia |].
  rewrite Hrd.
  set (t1 := emit (set_net t w) [EvRead (layer t) (bytes - read) st]).
  assert (Hb1 : blocking t1 = true) by exact Hblk.
  assert (Hl1 : layer t1 = layer t) by reflexivity.
  assert (Hn1 : net t1 = w) by reflexivity.
  destruct (queue (net t)) as [| b0 q0] eqn:Hqt.
  - destruct Hnone as [Hst Hbs]; [reflexivity |]. subst st bs.
    cbn [poke]. rewrite Hb1, Hup. cbn [negb].
    change (0 <? 0) with false. change (0 =? 0) with true. cbv iota.
    destruct Hq as (_ & _ & _ & Hwait).
    destruct (Hwait w 100) as [Hwq Hwf].
    cbn [app] in Hqueue.
    apply IH.
    + unfold idle_wait. rewrite Hl1. destruct (layer t); exact Hb1.
    + unfold idle_wait. rewrite Hl1.
      destruct (layer t) eqn:Hl; cbn [emit set_net layer]; congruence.
    + exact Hoff.
    + lia.
    + exact Hfit.
    + unfold idle_wait. rewrite Hl1.
      destruct (layer t) eqn:Hl; [| | congruence];
        cbn [emit set_net net]; rewrite Hn1, Hwq, <- Hqueue;
        unfold len; cbn [length]; lia.
    + unfold idle_wait. rewrite Hl1.
      destruct (layer t) eqn:Hl; [| | congruence];
        cbn [emit set_net net]; rewrite Hn1, Hwf, Hfault; exact Hup.
  - destruct Hsome as [Hst Hbs]; [discriminate |].
    pose proof (len_nonneg (queue w)) as Hw.
    assert (Hlenq : len (b0 :: q0) = st + len (queue w))
      by (rewrite Hqueue, len_app; lia).
    rewrite (poke_spec d (off + read) bs) by lia.
    rewrite Hb1. cbn [negb].
    replace (st <? 0) with false by (symmetry; apply Z.ltb_ge; lia).
    replace (st =? 0) with false by (symmetry; apply Z.eqb_neq; lia).
    apply IH; try assumption; try lia.
    + unfold len in *.
      rewrite !length_app, length_firstn, length_skipn. lia.
    + rewrite Hn1. lia.
    + rewrite Hn1, Hfault. exact Hup.
Qed.


End QueueReads.

Lemma drip_delivers : delivers_queue pending drip_fault.
Proof.
  assert (Hrd : read_delivers pending drip_fault drip_read).
  { intros w n Hn. unfold drip_read.
    destruct (pending w) as [| b r] eqn:Hp; cbn [fst snd pending].
    - rewrite Hp. repeat split; try reflexivity; congruence.
    - repeat split; try reflexivity; try lia; discriminate. }
  split; [exact Hrd |]. split; [exact Hrd |]. split.
  - intros w. unfold drip_fault. destruct (hung_up w); lia.
  - intros w k. split; reflexivity.
Qed.




(** What a read of the socket gives while the peer is there. *)
Lemma sock_read_up (w : Sock) (n : Z) :
  peer_up w = true ->
  exists w',
    sock_read w n
    = (len (firstn (Z.to_nat n) (rx w)), firstn (Z.to_nat n) (rx w), w') /\
    rx w' = skipn (Z.to_nat n) (rx w) /\ peer_up w' = true.
Proof.
  intros Hup. unfold sock_read. destruct (rx w) as [| b r] eqn:Hrx.
  - exists w. rewrite Hup, firstn_nil, skipn_nil. auto.
  - eexists. split; [reflexivity |]. split; [reflexivity | exact Hup].
Qed.

(** One non-blocking [transport_read_layer] on the socket: whatever is
    there, up to [n] bytes, moves from the socket into the buffer. *)
Lemma sock_read_layer (fuel : nat) (t : rdpTransport Sock) (d : list Z)
    (off n : Z) :
  layer t <> TRANSPORT_LAYER_CLOSED -> blocking t = false ->
  peer_up (net t) = true ->
  0 < n -> 0 <= off -> off + n <= len d ->
  exists t1 d1,
    transport_read_layer (S fuel) t d off n
    = Done (len (firstn (Z.to_nat n) (rx (net t))), t1, d1) /\
    len d1 = len d /\
    firstn (Z.to_nat (off + len (firstn (Z.to_nat n) (rx (net t))))) d1
    = firstn (Z.to_nat off) d ++ firstn (Z.to_nat n) (rx (net t)) /\
    quiet_frame t t1 (skipn (Z.to_nat n) (rx (net t))).
Proof.
  intros Hopen Hnb Hup Hn Hoff Hfit.
  destruct (layer_read_open t (-1) n Hopen)
    as (st & bs & w & Hrd & Htcp & Htls).
  assert (Hs : sock_read (net t) n = (st, bs, w)).
  { destruct (layer t); [apply Htcp | apply Htls | congruence]; reflexivity. }
  destruct (sock_read_up (net t) n Hup) as (w' & Hs' & Hrx & Hup').
  rewrite Hs in Hs'. inversion Hs'; subst st bs w'. clear Hs'.
  destruct (poke_inside d off (firstn (Z.to_nat n) (rx (net t))) Hoff)
    as (d1 & Hpoke & Hlen & Hfirst).
  { rewrite len_firstn by lia. pose proof (len_nonneg (rx (net t))). lia. }
  exists (emit (set_net t w)
            [EvRead (layer t) n (len (firstn (Z.to_nat n) (rx (net t))))]), d1.
  split; [| split; [exact Hlen | split; [exact Hfirst |]]].
  - unfold transport_read_layer. cbn [transport_read_layer_loop].
    replace (0 <? n) with true by (symmetry; apply Z.ltb_lt; exact Hn).
    rewrite Z.sub_0_r, Z.add_0_r, Hrd, Hpoke.
    replace (blocking (emit (set_net t w)
               [EvRead (layer t) n (len (firstn (Z.to_nat n) (rx (net t))))]))
      with false by (symmetry; exact Hnb).
    reflexivity.
  - unfold quiet_frame. cbn.
    repeat split; try reflexivity; try assumption.
    + congruence.
    + rewrite flat_map_app. cbn. apply app_nil_r.
Qed.

Lemma byte_at_firstn (k i : nat) (d u : list Z) :
  firstn k d = firstn k u -> (i < k)%nat -> byte_at d i = byte_at u i.
Proof.
  intros Heq Hi. unfold byte_at.
  assert (H : forall l : list Z, nth i l 0 = nth i (firstn k l) 0).
  { intros l. rewrite nth_firstn.
    replace (i <? k)%nat with true by (symmetry; apply Nat.ltb_lt; exact Hi).
    reflexivity. }
  rewrite (H d), (H u), Heq. reflexivity.
Qed.

(** Two buffers that begin alike, as far as the shorter reach. *)
Lemma prefix_agree (a : Z) (k : nat) (d u x y : list Z) :
  firstn (Z.to_nat a) d ++ x = u ++ y ->
  Z.of_nat k <= a -> a <= len d -> Z.of_nat k <= len u ->
  firstn k d = firstn k u.
Proof.
  unfold len. intros Heq Hka Had Hku.
  assert (H : firstn k (firstn (Z.to_nat a) d ++ x) = firstn k (u ++ y))
    by (rewrite Heq; reflexivity).
  rewrite !firstn_app in H.
  rewrite length_firstn in H.
  replace (k - Nat.min (Z.to_nat a) (length d))%nat with 0%nat in H by lia.
  replace (k - length u)%nat with 0%nat in H by lia.
  rewrite !firstn_O, !app_nil_r, firstn_firstn in H.
  replace (Nat.min k (Z.to_nat a)) with k in H by lia.
  exact H.
Qed.

(** The recognizer looks at the first four bytes only. *)
Lemma pdu_bytes_of_header (d u : list Z) :
  firstn 4 d = firstn 4 u ->
  transport_read_pdu_bytes d = transport_read_pdu_bytes u.
Proof.
  intros H. unfold transport_read_pdu_bytes.
  rewrite (byte_at_firstn 4 0 d u H), (byte_at_firstn 4 1 d u H),
    (byte_at_firstn 4 2 d u H), (byte_at_firstn 4 3 d u H) by lia.
  reflexivity.
Qed.

Lemma dispatchable_bytes (u : list Z) :
  dispatchable u = true -> forallb is_byte u = true.
Proof.
  unfold dispatchable. intros H. apply andb_true_iff in H. tauto.
Qed.

Lemma dispatchable_size (u : list Z) :
  dispatchable u = true -> 4 <= len u <= 32768.
Proof.
  unfold dispatchable. intros H.
  apply andb_true_iff in H. destruct H as [Hb H].
  pose proof (byte_at_range u 1 Hb) as R1.
  pose proof (byte_at_range u 2 Hb) as R2.
  destruct (byte_at u 0 =? 3).
  - repeat (apply andb_true_iff in H; destruct H as [H ?]).
    repeat match goal with
           | G : (_ <=? _) = true |- _ => apply Z.leb_le in G
           end. lia.
  - repeat (apply andb_true_iff in H; destruct H as [H ?]).
    repeat match goal with
           | G : (_ <=? _) = true |- _ => apply Z.leb_le in G
           | G : (_ =? _) = true |- _ => apply Z.eqb_eq in G
           end.
    split; [lia |].
    match goal with G : len u = fastpath_length u |- _ => rewrite G end.
    unfold fastpath_length.
    destruct (Z.testbit (byte_at u 1) 7); [| lia].
    pose proof (Z.mod_pos_bound (byte_at u 1) 128). lia.
Qed.

(** On a dispatchable PDU the recognizer of [transport_read] finds the
    PDU's own length and prints nothing. *)
Lemma pdu_bytes_dispatchable (u : list Z) :
  dispatchable u = true -> transport_read_pdu_bytes u = (len u, []).
Proof.
  intros H. pose proof (dispatchable_bytes u H) as Hb.
  pose proof (byte_at_range u 1 Hb) as R1.
  pose proof (byte_at_range u 2 Hb) as R2.
  pose proof (byte_at_range u 3 Hb) as R3.
  unfold dispatchable in H. apply andb_true_iff in H. destruct H as [_ H].
  unfold transport_read_pdu_bytes.
  change 0x03 with 3. destruct (byte_at u 0 =? 3) eqn:H0.
  - repeat (apply andb_true_iff in H; destruct H as [H ?]).
    match goal with G : (len u =? tpkt_length u) = true |- _ =>
      apply Z.eqb_eq in G; rewrite G end.
    unfold tpkt_length. rewrite lor_shiftl8 by lia. reflexivity.
  - repeat (apply andb_true_iff in H; destruct H as [H ?]).
    apply negb_true_iff in H. rewrite H.
    match goal with G : (len u =? fastpath_length u) = true |- _ =>
      apply Z.eqb_eq in G; rewrite G end.
    unfold fastpath_length.
    destruct (Z.testbit (byte_at u 1) 7) eqn:H7.
    + destruct (bit7_set _ R1 H7) as (Hnz & _ & _ & H7f & _).
      apply Z.eqb_neq in Hnz. rewrite Hnz. cbn [negb].
      rewrite H7f, lor_shiftl8; [reflexivity | | lia].
      pose proof (Z.mod_pos_bound (byte_at u 1) 128). lia.
    + destruct (bit7_clear _ R1 H7) as [Hz _]. rewrite Hz. reflexivity.
Qed.

Lemma quiet_frame_trans (t t1 t2 : rdpTransport Sock) (q1 q2 : list Z) :
  quiet_frame t t1 q1 -> quiet_frame t1 t2 q2 -> quiet_frame t t2 q2.
Proof.
  unfold quiet_frame. intros (A1 & A2 & A3 & A4 & A5 & A6 & A7)
                             (B1 & B2 & B3 & B4 & B5 & B6 & B7).
  repeat split; congruence.
Qed.

(** A chunk of the byte stream moves from the socket to the buffer. *)
Lemma sock_read_chunk (fuel : nat) (t : rdpTransport Sock) (d : list Z)
    (pos n : Z) (future whole : list Z) :
  layer t <> TRANSPORT_LAYER_CLOSED -> blocking t = false ->
  peer_up (net t) = true ->
  0 < n -> 0 <= pos -> pos + n <= len d ->
  firstn (Z.to_nat pos) d ++ rx (net t) ++ future = whole ->
  exists t1 d1,
    transport_read_layer (S fuel) t d pos n
    = Done (Z.min n (len (rx (net t))), t1, d1) /\
    len d1 = len d /\
    firstn (Z.to_nat (pos + Z.min n (len (rx (net t))))) d1
    ++ skipn (Z.to_nat (Z.min n (len (rx (net t))))) (rx (net t)) ++ future
    = whole /\
    quiet_frame t t1 (skipn (Z.to_nat (Z.min n (len (rx (net t)))))
                            (rx (net t))).
Proof.
  intros Hopen Hnb Hup Hn Hpos Hfit Hwhole.
  destruct (sock_read_layer fuel t d pos n Hopen Hnb Hup Hn Hpos Hfit)
    as (t1 & d1 & Hrun & Hlen & Hfirst & Hframe).
  assert (Hm : len (firstn (Z.to_nat n) (rx (net t)))
               = Z.min n (len (rx (net t)))) by (apply len_firstn; lia).
  assert (Hsk : skipn (Z.to_nat n) (rx (net t))
                = skipn (Z.to_nat (Z.min n (len (rx (net t)))))
                        (rx (net t))).
  { unfold len. destruct (Z.le_ge_cases n (Z.of_nat (length (rx (net t))))).
    - rewrite Z.min_l by lia. reflexivity.
    - rewrite Z.min_r by lia. rewrite Nat2Z.id.
      rewrite skipn_all. apply skipn_all2. lia. }
  rewrite Hm in Hrun, Hfirst. rewrite Hsk in Hframe.
  exists t1, d1. split; [exact Hrun |]. split; [exact Hlen |].
  split; [| exact Hframe].
  rewrite Hfirst, <- Hsk, <- Hwhole, <- !app_assoc.
  f_equal. rewrite app_assoc, firstn_skipn. reflexivity.
Qed.

Lemma quiet_frame_refl (t : rdpTransport Sock) : quiet_frame t t (rx (net t)).
Proof. unfold quiet_frame. repeat split; reflexivity. Qed.

(** The body read of [transport_read], the header being in: it pulls in
    what the socket has of the rest of the PDU, and no more. *)
Lemma sock_read_pdu (fuel : nat) (t : rdpTransport Sock) (s : STREAM)
    (u tail future : list Z) (sb ts : Z) :
  layer t <> TRANSPORT_LAYER_CLOSED -> blocking t = false ->
  peer_up (net t) = true ->
  dispatchable u = true ->
  4 <= sb <= len u -> len u <= len (data s) ->
  firstn (Z.to_nat sb) (data s) ++ rx (net t) ++ future = u ++ tail ->
  exists t1 d1,
    transport_read_pdu (S fuel) t s sb ts
    = Done (ts + Z.min (len u - sb) (len (rx (net t))), t1, with_data s d1) /\
    len d1 = len (data s) /\
    firstn (Z.to_nat (sb + Z.min (len u - sb) (len (rx (net t))))) d1
    ++ skipn (Z.to_nat (Z.min (len u - sb) (len (rx (net t))))) (rx (net t))
    ++ future = u ++ tail /\
    quiet_frame t t1
      (skipn (Z.to_nat (Z.min (len u - sb) (len (rx (net t))))) (rx (net t))).
Proof.
  intros Hopen Hnb Hup Hu Hsb Hcap Hwhole.
  pose proof (len_nonneg (rx (net t))) as Hrx.
  assert (Hhdr : transport_read_pdu_bytes (data s) = (len u, [])).
  { rewrite (pdu_bytes_of_header (data s) u).
    - apply pdu_bytes_dispatchable, Hu.
    - apply (prefix_agree sb 4 _ _ _ _ Hwhole); lia. }
  unfold transport_read_pdu. rewrite Hhdr. cbn [emit].
  destruct (Z.eq_dec sb (len u)) as [Hfull | Hpart].
  - rewrite read_layer_nothing_asked by lia.
    replace (Z.min (len u - sb) (len (rx (net t)))) with 0 by lia.
    exists t, (data s). cbn [Z.ltb Z.compare Z.to_nat skipn].
    rewrite !Z.add_0_r.
    split; [reflexivity |]. split; [reflexivity |].
    split; [exact Hwhole | apply quiet_frame_refl].
  - destruct (sock_read_chunk fuel t (data s) sb (len u - sb) future
                (u ++ tail) Hopen Hnb Hup) as (t1 & d1 & Hrun & Hlen & Hw & Hf);
      [lia | lia | lia | exact Hwhole |].
    exists t1, d1. rewrite Hrun.
    replace (Z.min (len u - sb) (len (rx (net t))) <? 0) with false
      by (symmetry; apply Z.ltb_ge; lia).
    auto.
Qed.

(** [transport_read] in non-blocking mode, the receive buffer holding
    [p s] bytes of the PDU [u]: it pulls in what the socket has of the
    rest of [u], and no more. *)
Lemma sock_transport_read (fuel : nat) (t : rdpTransport Sock) (s : STREAM)
    (u tail future : list Z) :
  layer t <> TRANSPORT_LAYER_CLOSED -> blocking t = false ->
  peer_up (net t) = true ->
  dispatchable u = true ->
  0 <= p s < len u -> len u <= len (data s) ->
  held s ++ rx (net t) ++ future = u ++ tail ->
  exists t1 d1,
    transport_read (S fuel) t s
    = Done (Z.min (len u - p s) (len (rx (net t))), t1, with_data s d1) /\
    len d1 = len (data s) /\
    firstn (Z.to_nat (p s + Z.min (len u - p s) (len (rx (net t))))) d1
    ++ skipn (Z.to_nat (Z.min (len u - p s) (len (rx (net t))))) (rx (net t))
    ++ future = u ++ tail /\
    quiet_frame t t1
      (skipn (Z.to_nat (Z.min (len u - p s) (len (rx (net t))))) (rx (net t))).
Proof.
  intros Hopen Hnb Hup Hu Hpos Hcap Hwhole. unfold held in Hwhole.
  pose proof (len_nonneg (rx (net t))) as Hrx.
  pose proof (dispatchable_size u Hu) as Hsize.
  unfold transport_read, stream_get_length.
  destruct (p s <? 4) eqn:Hshort.
  - apply Z.ltb_lt in Hshort.
    destruct (sock_read_chunk fuel t (data s) (p s) (4 - p s) future
                (u ++ tail) Hopen Hnb Hup) as (t1 & d1 & Hrun & Hlen & Hw & Hf);
      [lia | lia | lia | exact Hwhole |].
    rewrite Hrun.
    replace (Z.min (4 - p s) (len (rx (net t))) <? 0) with false
      by (symmetry; apply Z.ltb_ge; lia).
    destruct (Z.min (4 - p s) (len (rx (net t))) + p s <? 4) eqn:Hhdr.
    + (* the header is still short: the socket is drained *)
      apply Z.ltb_lt in Hhdr.
      replace (Z.min (len u - p s) (len (rx (net t))))
        with (Z.min (4 - p s) (len (rx (net t)))) by lia.
      exists t1, d1. rewrite Z.add_0_l. auto.
    + (* the header is in: on to the body *)
      apply Z.ltb_ge in Hhdr.
      assert (Hm1 : Z.min (4 - p s) (len (rx (net t))) = 4 - p s) by lia.
      rewrite Hm1 in *.
      replace (p s + (4 - p s)) with 4 in * by lia.
      destruct Hf as (F1 & F2 & F3 & F4 & F5 & F6 & F7).
      destruct (sock_read_pdu fuel t1 (with_data s d1) u tail future 4
                  (0 + (4 - p s)))
        as (t2 & d2 & Hrun2 & Hlen2 & Hw2 & Hf2);
        [congruence | congruence | congruence | exact Hu | lia
        | cbn [with_data data]; lia
        | cbn [with_data data]; rewrite F6; exact Hw |].
      rewrite Hrun2. cbn [with_data data size p] in *.
      rewrite F6 in *.
      assert (Hq : len (skipn (Z.to_nat (4 - p s)) (rx (net t)))
                   = len (rx (net t)) - (4 - p s))
        by (rewrite len_skipn by lia; lia).
      rewrite Hq in *.
      set (m2 := Z.min (len u - 4) (len (rx (net t)) - (4 - p s))) in *.
      assert (Hm : Z.min (len u - p s) (len (rx (net t)))
                   = (4 - p s) + m2) by (subst m2; lia).
      assert (Hsk : skipn (Z.to_nat m2)
                      (skipn (Z.to_nat (4 - p s)) (rx (net t)))
                    = skipn (Z.to_nat (4 - p s + m2)) (rx (net t))).
      { rewrite skipn_skipn. f_equal. subst m2. lia. }
      rewrite Hsk in *. rewrite Hm.
      replace (p s + (4 - p s + m2)) with (4 + m2) by lia.
      exists t2, d2. rewrite Z.add_0_l.
      split; [reflexivity |]. split; [congruence |]. split; [exact Hw2 |].
      apply (quiet_frame_trans t t1 t2
               (skipn (Z.to_nat (4 - p s)) (rx (net t)))).
      * unfold quiet_frame. repeat split; assumption.
      * exact Hf2.
  - apply Z.ltb_ge in Hshort.
    destruct (sock_read_pdu fuel t s u tail future (p s) 0)
      as (t1 & d1 & Hrun & Hlen & Hw & Hf); try assumption; [lia |].
    rewrite Hrun. rewrite Z.add_0_l. exists t1, d1. auto.
Qed.

(** What the header codecs of [transport_check_fds] read off a
    dispatchable PDU. *)
Lemma dispatchable_decode (u : list Z) :
  dispatchable u = true ->
  (byte_at u 0 = 3 /\ 5 <= len u /\
   len u = byte_at u 2 * 256 + byte_at u 3) \/
  (byte_at u 0 <> 3 /\ 4 <= len u /\
   len u = if Z.testbit (byte_at u 1) 7
           then Z.lor (Z.shiftl (Z.land (byte_at u 1) 0x7f) 8) (byte_at u 2)
           else byte_at u 1).
Proof.
  intros H. pose proof (dispatchable_bytes u H) as Hb.
  pose proof (byte_at_range u 1 Hb) as R1.
  pose proof (byte_at_range u 2 Hb) as R2.
  unfold dispatchable in H. apply andb_true_iff in H. destruct H as [_ H].
  change 0x03 with 3 in H. destruct (byte_at u 0 =? 3) eqn:H0.
  - left. apply Z.eqb_eq in H0.
    repeat (apply andb_true_iff in H; destruct H as [H ?]).
    repeat match goal with
           | G : (_ <=? _) = true |- _ => apply Z.leb_le in G
           | G : (_ =? _) = true |- _ => apply Z.eqb_eq in G
           end.
    auto.
  - right. apply Z.eqb_neq in H0.
    repeat (apply andb_true_iff in H; destruct H as [H ?]).
    repeat match goal with
           | G : (_ <=? _) = true |- _ => apply Z.leb_le in G
           | G : (_ =? _) = true |- _ => apply Z.eqb_eq in G
           end.
    split; [exact H0 |]. split; [assumption |].
    match goal with G : len u = fastpath_length u |- _ => rewrite G end.
    unfold fastpath_length.
    destruct (Z.testbit (byte_at u 1) 7) eqn:H7; [| reflexivity].
    destruct (bit7_set _ R1 H7) as (_ & _ & _ & H7f & _).
    rewrite H7f, lor_shiftl8; [reflexivity | | lia].
    pose proof (Z.mod_pos_bound (byte_at u 1) 128). lia.
Qed.

Lemma app_same_length (A : Type) (a b x y : list A) :
  length a = length b -> a ++ x = b ++ y -> a = b /\ x = y.
Proof.
  revert b. induction a as [| h a IH]; intros [| k b] Hl He;
    try discriminate.
  - split; [reflexivity | exact He].
  - cbn in Hl, He. injection He as -> He. injection Hl as Hl.
    destruct (IH b Hl He) as [-> ->]. split; reflexivity.
Qed.

Lemma callbacks_app (l m : list Event) :
  callbacks (l ++ m) = callbacks l ++ callbacks m.
Proof. apply flat_map_app. Qed.

(** The framing step of [transport_check_fds] on a receive buffer that
    holds the first [p] bytes of the dispatchable PDU [u]: it waits
    while [u] is incomplete; once [u] is all there it hands it to the
    handler, whatever the handler is, returns the handler's verdict and
    resumes from the transport the handler returned. *)
Lemma frame_decision (cb : rdpTransport Sock -> bool * rdpTransport Sock)
    (t1 : rdpTransport Sock) (st : Z) (u x y : list Z) :
  dispatchable u = true ->
  0 <= p (recv_buffer t1) <= len u ->
  p (recv_buffer t1) <= len (data (recv_buffer t1)) ->
  held (recv_buffer t1) ++ x = u ++ y ->
  (p (recv_buffer t1) < len u ->
   transport_check_fds_frame cb t1 st = (0, t1)) /\
  (p (recv_buffer t1) = len u -> 0 <= st ->
   transport_check_fds_frame cb t1 st
   = (if fst (cb (handed t1 u)) then 0 else -1,
      resumed (snd (cb (handed t1 u))))).
Proof.
  intros Hu Hpos Hcap Hwhole. unfold held in Hwhole.
  pose proof (dispatchable_size u Hu) as Hsize.
  destruct (recv_buffer t1) as [sz pos d1] eqn:Hb1. cbn [p data size] in *.
  assert (Hag : firstn (Z.to_nat pos) d1 = firstn (Z.to_nat pos) u)
    by (apply (prefix_agree pos _ _ _ _ _ Hwhole); lia).
  assert (Hbyte : forall i : nat, Z.of_nat i < pos ->
                                  byte_at d1 i = byte_at u i)
    by (intros i Hi; apply (byte_at_firstn _ i _ _ Hag); lia).
  assert (Hidle : set_recv_buffer t1 (mkStream sz pos d1) = t1).
  { clear - Hb1. destruct t1. cbn in *. subst. reflexivity. }
  (* what the dispatch does once the declared length is known *)
  assert (Hdisp : forall k,
    (pos < len u ->
     transport_check_fds_dispatch cb t1 (mkStream sz k d1) pos st (len u)
     = (0, t1)) /\
    (pos = len u -> 0 <= st ->
     transport_check_fds_dispatch cb t1 (mkStream sz k d1) pos st (len u)
     = (if fst (cb (handed t1 u)) then 0 else -1,
        resumed (snd (cb (handed t1 u)))))).
  { intros k. unfold transport_check_fds_dispatch.
    replace (len u =? 0) with false by (symmetry; apply Z.eqb_neq; lia).
    split.
    - intros Hlt.
      replace (pos <? len u) with true by (symmetry; apply Z.ltb_lt; lia).
      unfold stream_set_pos. cbn [size data]. rewrite Hidle. reflexivity.
    - intros Heq Hst.
      replace (pos <? len u) with false by (symmetry; apply Z.ltb_ge; lia).
      assert (Hall : firstn (Z.to_nat (len u)) d1 = u).
      { rewrite <- Heq, Hag, Heq. unfold len. rewrite Nat2Z.id.
        apply firstn_all. }
      unfold sealed_bytes, stream_set_pos, stream_seal.
      cbn [size p data]. rewrite Hall.
      unfold handed. rewrite Hb1. cbn [data].
      destruct (cb _) as [okv t2]. cbn [fst snd].
      unfold resumed. destruct okv; cbn [negb]; [| reflexivity].
      replace (st <? 0) with false by (symmetry; apply Z.ltb_ge; lia).
      reflexivity. }
  unfold transport_check_fds_frame, stream_get_pos. rewrite Hb1.
  cbn [p size data].
  destruct (pos >? 0) eqn:Hgt.
  2:{ rewrite Z.gtb_ltb in Hgt. apply Z.ltb_ge in Hgt.
      split; [intros _; reflexivity | intros; lia]. }
  apply Z.gtb_lt in Hgt.
  unfold tpkt_verify_header, tpkt_read_header, fastpath_header_length,
    fastpath_read_header, stream_peek_uint8, stream_seek, stream_set_pos.
  cbn [p size data].
  change (Z.to_nat 0) with 0%nat. change (Z.to_nat (0 + 1)) with 1%nat.
  change (Z.to_nat (0 + 2)) with 2%nat. change (Z.to_nat (0 + 3)) with 3%nat.
  fold (byte_at d1 0). fold (byte_at d1 1). fold (byte_at d1 2).
  fold (byte_at d1 3).
  rewrite (Hbyte 0%nat) by lia.
  destruct (dispatchable_decode u Hu) as [(H0 & H5 & Hlen) | (H0 & H4 & Hlen)].
  - (* TPKT *)
    rewrite H0. change (3 =? 3) with true. cbv iota.
    destruct (pos <=? 4) eqn:Hle.
    + apply Z.leb_le in Hle. rewrite Hidle.
      split; [intros _; reflexivity | intros; lia].
    + apply Z.leb_gt in Hle.
      rewrite (Hbyte 2%nat), (Hbyte 3%nat), <- Hlen by lia.
      apply Hdisp.
  - (* Fast-Path *)
    replace (byte_at u 0 =? 3) with false
      by (symmetry; apply Z.eqb_neq; exact H0).
    destruct (pos <=? 2) eqn:Hle.
    + apply Z.leb_le in Hle. rewrite Hidle.
      split; [intros _; reflexivity | intros; lia].
    + apply Z.leb_gt in Hle.
      rewrite (Hbyte 1%nat), (Hbyte 2%nat) by lia.
      destruct (Z.testbit (byte_at u 1) 7) eqn:H7.
      * replace (pos <? 3) with false by (symmetry; apply Z.ltb_ge; lia).
        rewrite <- Hlen. apply Hdisp.
      * replace (pos <? 2) with false by (symmetry; apply Z.ltb_ge; lia).
        rewrite <- Hlen. apply Hdisp.
Qed.

(** The headroom [transport_read_nonblocking] asks for: what the buffer
    holds stays, and 32 KiB can follow it. *)
Lemma check_size_room (b : STREAM) :
  0 <= p b <= size b -> size b <= len (data b) ->
  p (stream_check_size b (32 * 1024)) = p b /\
  held (stream_check_size b (32 * 1024)) = held b /\
  p b + 32768 <= size (stream_check_size b (32 * 1024)) /\
  size (stream_check_size b (32 * 1024))
  <= len (data (stream_check_size b (32 * 1024))).
Proof.
  intros Hp Hcap. unfold stream_check_size, held.
  change (32 * 1024) with 32768.
  destruct (p b + 32768 >? size b) eqn:Hgrow.
  - cbn [p size data]. unfold len in *.
    split; [reflexivity |]. split; [| split; [lia |]].
    + rewrite firstn_app, firstn_firstn, length_firstn.
      replace (Z.to_nat (p b) - Nat.min (Z.to_nat (size b)) (length (data b)))%nat
        with 0%nat by lia.
      rewrite firstn_O, app_nil_r. f_equal. lia.
    + rewrite length_app, length_firstn, repeat_length. lia.
  - rewrite Z.gtb_ltb in Hgrow. apply Z.ltb_ge in Hgrow.
    repeat split; [lia | exact Hcap].
Qed.

(** The read of a poll while the PDU [u] is under way. *)
Lemma sock_read_nonblocking (fuel : nat) (t : rdpTransport Sock)
    (u tail future : list Z) :
  pollable t ->
  0 <= p (recv_buffer t) <= size (recv_buffer t) ->
  size (recv_buffer t) <= len (data (recv_buffer t)) ->
  dispatchable u = true -> p (recv_buffer t) < len u ->
  held (recv_buffer t) ++ rx (net t) ++ future = u ++ tail ->
  exists t1,
    transport_read_nonblocking (S fuel) t
    = Done (Z.min (len u - p (recv_buffer t)) (len (rx (net t))), t1) /\
    pollable t1 /\ callbacks (log t1) = callbacks (log t) /\
    rx (net t1)
    = skipn (Z.to_nat (Z.min (len u - p (recv_buffer t)) (len (rx (net t)))))
            (rx (net t)) /\
    p (recv_buffer t1)
    = p (recv_buffer t) + Z.min (len u - p (recv_buffer t)) (len (rx (net t)))
    /\
    32768 <= size (recv_buffer t1) /\
    size (recv_buffer t1) <= len (data (recv_buffer t1)) /\
    held (recv_buffer t1) ++ rx (net t1) ++ future = u ++ tail.
Proof.
  intros (Hopen & Hnb & Hlevel & Hup) Hp Hcap Hu Hlt Hwhole.
  pose proof (len_nonneg (rx (net t))) as Hrx.
  pose proof (dispatchable_size u Hu) as Hsize.
  destruct (check_size_room (recv_buffer t) Hp Hcap) as (Cp & Cheld & Croom & Ccap).
  unfold transport_read_nonblocking.
  set (b := stream_check_size (recv_buffer t) (32 * 1024)) in *.
  destruct (sock_transport_read fuel (set_recv_buffer t b) b u tail future)
    as (t1 & d1 & Hrun & Hlen & Hw & Hf);
    [exact Hopen | exact Hnb | exact Hup | exact Hu | lia | lia
    | rewrite Cheld; exact Hwhole |].
  cbn [set_recv_buffer net] in Hrun, Hlen, Hw, Hf.
  rewrite Cp in Hrun, Hw, Hf. rewrite Hrun.
  set (m := Z.min (len u - p (recv_buffer t)) (len (rx (net t)))) in *.
  destruct Hf as (F1 & F2 & F3 & F4 & F5 & F6 & F7).
  cbn [set_recv_buffer layer blocking level recv_buffer net log] in *.
  assert (Hpoll : forall b', pollable (set_recv_buffer t1 b')).
  { intros b'. unfold pollable. cbn. repeat split; congruence. }
  destruct (m <=? 0) eqn:Hm0.
  - apply Z.leb_le in Hm0. assert (Hm : m = 0) by (subst m; lia).
    eexists. split; [reflexivity |]. split; [apply Hpoll |].
    cbn [set_recv_buffer recv_buffer net log with_data size p data].
    unfold held. cbn [with_data p data size]. rewrite Cp.
    rewrite Hm in *. rewrite Z.add_0_r in *.
    repeat split; try assumption; try lia.
    rewrite F6. exact Hw.
  - eexists. split; [reflexivity |]. split; [apply Hpoll |].
    cbn [set_recv_buffer recv_buffer net log].
    unfold held, stream_seek. cbn [with_data p data size]. rewrite Cp.
    repeat split; try assumption; try lia.
    rewrite F6. exact Hw.
Qed.

(** The read of a poll on an idle session: nothing held, nothing in
    the socket. *)
Lemma sock_read_nonblocking_idle (fuel : nat) (t : rdpTransport Sock) :
  pollable t ->
  p (recv_buffer t) = 0 -> 0 <= size (recv_buffer t) ->
  size (recv_buffer t) <= len (data (recv_buffer t)) ->
  rx (net t) = [] ->
  exists t1,
    transport_read_nonblocking (S fuel) t = Done (0, t1) /\
    pollable t1 /\ callbacks (log t1) = callbacks (log t) /\
    rx (net t1) = [] /\ p (recv_buffer t1) = 0 /\
    0 <= size (recv_buffer t1) /\
    size (recv_buffer t1) <= len (data (recv_buffer t1)).
Proof.
  intros (Hopen & Hnb & Hlevel & Hup) Hp Hsz Hcap Hrx.
  destruct (check_size_room (recv_buffer t)) as (Cp & Cheld & Croom & Ccap);
    [lia | exact Hcap |].
  unfold transport_read_nonblocking.
  set (b := stream_check_size (recv_buffer t) (32 * 1024)) in *.
  unfold transport_read, stream_get_length. rewrite Cp, Hp.
  change (0 <? 4) with true. cbv iota.
  destruct (sock_read_chunk fuel (set_recv_buffer t b) (data b) 0 (4 - 0) []
              (firstn (Z.to_nat 0) (data b)
               ++ rx (net (set_recv_buffer t b)) ++ []))
    as (t1 & d1 & Hrun & Hlen & Hw & Hf);
    [exact Hopen | exact Hnb | exact Hup | lia | lia | lia | reflexivity |].
  cbn [set_recv_buffer net] in Hrun, Hf. rewrite Hrx in Hrun, Hf.
  change (Z.min (4 - 0) (len [])) with 0 in Hrun, Hf.
  rewrite Hrun. cbn [Z.ltb Z.compare Z.add Z.leb].
  destruct Hf as (F1 & F2 & F3 & F4 & F5 & F6 & F7).
  cbn [set_recv_buffer layer blocking level recv_buffer net log] in *.
  eexists. split; [reflexivity |].
  unfold pollable.
  cbn [set_recv_buffer recv_buffer net log with_data size p data layer
       blocking level].
  repeat split; try congruence; try lia.
  rewrite F6. reflexivity.
Qed.

Lemma held_length (b : STREAM) :
  0 <= p b <= len (data b) -> len (held b) = p b.
Proof. intros H. unfold held. rewrite len_firstn by lia. lia. Qed.

(** Bytes reaching the socket. *)
Lemma arrive_in_step (t : rdpTransport Sock) (rest : list (list Z))
    (bs future : list Z) :
  in_step t rest (bs ++ future) ->
  in_step (set_net t (sock_arrive (net t) bs)) rest future /\
  callbacks (log (set_net t (sock_arrive (net t) bs))) = callbacks (log t).
Proof.
  intros ((Hopen & Hnb & Hlevel & Hup) & Hp & Hcap & Hrest & Hwhole & Hfirst).
  split; [| reflexivity].
  unfold in_step, pollable. cbn.
  repeat split; try assumption; try lia.
  rewrite <- app_assoc. exact Hwhole.
Qed.

(** What the handler is handed, and what the dispatch resumes from. *)
Lemma handed_frame (t1 : rdpTransport Sock) (u : list Z) :
  layer (handed t1 u) = layer t1 /\ blocking (handed t1 u) = blocking t1 /\
  level (handed t1 u) = level t1 + 1 /\ net (handed t1 u) = net t1 /\
  recv_buffer (handed t1 u) = mkStream (len u) 0 (data (recv_buffer t1)) /\
  log (handed t1 u) = log t1 ++ [EvCallback u].
Proof. unfold handed. cbn. repeat split; reflexivity. Qed.

Lemma resumed_frame (t2 : rdpTransport Sock) :
  layer (resumed t2) = layer t2 /\ blocking (resumed t2) = blocking t2 /\
  level (resumed t2) = level t2 - 1 /\ net (resumed t2) = net t2 /\
  recv_buffer (resumed t2)
  = mkStream (size (recv_buffer t2)) 0 (data (recv_buffer t2)) /\
  log (resumed t2) = log t2.
Proof. unfold resumed. cbn. repeat split; reflexivity. Qed.

(** A poll while the PDU [u] is under way: [u] is handed over if the
    socket has the rest of it, and the session waits otherwise. *)
Lemma poll_under_way (fuel : nat)
    (cb : rdpTransport Sock -> bool * rdpTransport Sock)
    (t : rdpTransport Sock) (u : list Z) (rest : list (list Z))
    (future : list Z) :
  keeps_session cb ->
  in_step t (u :: rest) future ->
  exists t',
    step (S fuel) cb t Poll = Done t' /\
    (len (rx (net t)) < len u - p (recv_buffer t) ->
     in_step t' (u :: rest) future /\
     callbacks (log t') = callbacks (log t)) /\
    (len u - p (recv_buffer t) <= len (rx (net t)) ->
     in_step t' rest future /\
     callbacks (log t') = callbacks (log t) ++ [u]).
Proof.
  intros Hcb (Hpoll & Hp & Hcap & Hrest & Hwhole & Hfirst).
  cbn [forallb] in Hrest. apply andb_true_iff in Hrest.
  destruct Hrest as [Hu Hrest]. cbn [concat] in Hwhole.
  pose proof (len_nonneg (rx (net t))) as Hrx.
  pose proof (dispatchable_size u Hu) as Hsize.
  destruct (sock_read_nonblocking fuel t u (concat rest) future
              Hpoll Hp Hcap Hu Hfirst Hwhole)
    as (t1 & Hrun & Hpoll1 & Hcb1 & Hrx1 & Hp1 & Hsz1 & Hcap1 & Hw1).
  set (m := Z.min (len u - p (recv_buffer t)) (len (rx (net t)))) in *.
  destruct Hpoll as (Hopen & Hnb & Hlevel & Hup).
  destruct Hpoll1 as (Hopen1 & Hnb1 & Hlevel1 & Hup1).
  destruct (frame_decision cb t1 m u (rx (net t1) ++ future) (concat rest) Hu)
    as [Hwait Hgive]; [lia | lia | exact Hw1 |].
  assert (Hstep : step (S fuel) cb t Poll
                  = Done (snd (transport_check_fds_frame cb t1 m))).
  { unfold step, transport_check_fds. rewrite Hlevel.
    change (negb (0 =? 0)) with false. cbv iota. rewrite Hrun.
    replace (m <? 0) with false by (symmetry; apply Z.ltb_ge; lia).
    destruct (transport_check_fds_frame cb t1 m). reflexivity. }
  exists (snd (transport_check_fds_frame cb t1 m)).
  split; [exact Hstep |]. split.
  - intros Hshort. rewrite Hwait by lia. cbn [snd].
    split; [| exact Hcb1].
    unfold in_step, pollable. cbn [forallb concat]. rewrite Hu, Hrest.
    repeat split; try assumption; try lia.
  - intros Hfull.
    assert (Hp1' : p (recv_buffer t1) = len u) by lia.
    rewrite Hgive by lia. cbn [snd].
    assert (Hall : held (recv_buffer t1) = u
                   /\ rx (net t1) ++ future = concat rest).
    { apply app_same_length; [| exact Hw1].
      unfold held. rewrite length_firstn. unfold len in *. lia. }
    destruct Hall as [_ Hrest1].
    destruct (handed_frame t1 u) as (X1 & X2 & X3 & X4 & X5 & X6).
    destruct (Hcb (handed t1 u)) as (K1 & K2 & K3 & K4 & K5 & K6 & K7).
    destruct (resumed_frame (snd (cb (handed t1 u))))
      as (R1 & R2 & R3 & R4 & R5 & R6).
    rewrite X5 in K6. cbn [size data] in K6.
    assert (Hfit : 0 <= size (recv_buffer (snd (cb (handed t1 u))))
                   <= len (data (recv_buffer (snd (cb (handed t1 u))))))
      by (apply K6; lia).
    split.
    + unfold in_step, pollable, held.
      rewrite R1, R2, R3, R4, R5. cbn [size p data].
      rewrite K2, K3, K4, K5, X2, X3, X4.
      change (Z.to_nat 0) with 0%nat. cbn [firstn app].
      split; [split; [apply K1; rewrite X1; exact Hopen1
                     | split; [exact Hnb1 | split; [lia | exact Hup1]]] |].
      split; [lia |]. split; [lia |]. split; [exact Hrest |].
      split; [exact Hrest1 |].
      destruct rest as [| u' rest']; [exact I |].
      cbn [forallb] in Hrest. apply andb_true_iff in Hrest.
      pose proof (dispatchable_size u' (proj1 Hrest)). lia.
    + rewrite R6, K7, X6, callbacks_app, Hcb1. reflexivity.
Qed.

(** A poll when every PDU has been handed over. *)
Lemma poll_idle (fuel : nat)
    (cb : rdpTransport Sock -> bool * rdpTransport Sock)
    (t : rdpTransport Sock) (future : list Z) :
  in_step t [] future ->
  exists t',
    step (S fuel) cb t Poll = Done t' /\
    in_step t' [] future /\ callbacks (log t') = callbacks (log t).
Proof.
  intros (Hpoll & Hp & Hcap & _ & Hwhole & _). cbn [concat] in Hwhole.
  apply app_eq_nil in Hwhole. destruct Hwhole as [Hheld Hwhole].
  apply app_eq_nil in Hwhole. destruct Hwhole as [Hrx Hfuture].
  assert (Hp0 : p (recv_buffer t) = 0).
  { rewrite <- (held_length (recv_buffer t)) by lia. rewrite Hheld.
    reflexivity. }
  destruct (sock_read_nonblocking_idle fuel t Hpoll Hp0)
    as (t1 & Hrun & Hpoll1 & Hcb1 & Hrx1 & Hp1 & Hsz1 & Hcap1);
    [lia | exact Hcap | exact Hrx |].
  exists t1. split; [| split; [| exact Hcb1]].
  - destruct Hpoll as (_ & _ & Hlevel & _).
    unfold step, transport_check_fds. rewrite Hlevel.
    change (negb (0 =? 0)) with false. cbv iota. rewrite Hrun.
    change (0 <? 0) with false. cbv iota.
    unfold transport_check_fds_frame, stream_get_pos. rewrite Hp1.
    reflexivity.
  - unfold in_step, held. rewrite Hp1, Hrx1, Hfuture.
    split; [exact Hpoll1 |].
    repeat split; try assumption; try lia.
Qed.

Lemma run_app (fuel : nat) (cb : rdpTransport Sock -> bool * rdpTransport Sock)
    (s1 s2 : list Action) :
  forall t,
    run fuel cb (s1 ++ s2) t
    = match run fuel cb s1 t with
      | Done t' => run fuel cb s2 t'
      | Spin => Spin
      | Overrun => Overrun
      end.
Proof.
  induction s1 as [| a s1 IH]; intros t; cbn [run app].
  - reflexivity.
  - destruct (step fuel cb t a); [apply IH | reflexivity | reflexivity].
Qed.

(** Any schedule keeps the session in step: what has been handed over
    and what is still owed are, together, the PDUs sent. *)
Lemma run_in_step (fuel : nat)
    (cb : rdpTransport Sock -> bool * rdpTransport Sock)
    (sched : list Action) :
  keeps_session cb ->
  forall (t : rdpTransport Sock) (rest : list (list Z)) (future : list Z),
    in_step t rest (arrivals sched ++ future) ->
    exists t' rest',
      run (S fuel) cb sched t = Done t' /\
      in_step t' rest' future /\
      callbacks (log t') ++ rest' = callbacks (log t) ++ rest.
Proof.
  intros Hkeep. induction sched as [| a sched IH]; intros t rest future Hin.
  - exists t, rest. cbn in *. auto.
  - destruct a as [bs |].
    + cbn [arrivals flat_map] in Hin. rewrite <- app_assoc in Hin.
      destruct (arrive_in_step t rest bs _ Hin) as [Hin1 Hcb1].
      destruct (IH _ rest future Hin1) as (t' & rest' & Hrun & Hin' & Hcb).
      exists t', rest'. cbn [run step]. rewrite Hrun.
      split; [reflexivity |]. split; [exact Hin' |]. congruence.
    + cbn [arrivals flat_map app] in Hin.
      fold (arrivals sched) in Hin.
      destruct rest as [| u rest].
      * destruct (poll_idle fuel cb t _ Hin) as (t1 & Hstep & Hin1 & Hcb1).
        destruct (IH _ [] future Hin1) as (t' & rest' & Hrun & Hin' & Hcb).
        exists t', rest'. cbn [run]. rewrite Hstep, Hrun.
        split; [reflexivity |]. split; [exact Hin' |]. congruence.
      * destruct (poll_under_way fuel cb t u rest _ Hkeep Hin)
          as (t1 & Hstep & Hwait & Hgive).
        destruct (Z_lt_le_dec (len (rx (net t)))
                              (len u - p (recv_buffer t))) as [Hlt | Hle].
        -- destruct (Hwait Hlt) as [Hin1 Hcb1].
           destruct (IH _ (u :: rest) future Hin1)
             as (t' & rest' & Hrun & Hin' & Hcb).
           exists t', rest'. cbn [run]. rewrite Hstep, Hrun.
           split; [reflexivity |]. split; [exact Hin' |]. congruence.
        -- destruct (Hgive Hle) as [Hin1 Hcb1].
           destruct (IH _ rest future Hin1)
             as (t' & rest' & Hrun & Hin' & Hcb).
           exists t', rest'. cbn [run]. rewrite Hstep, Hrun.
           split; [reflexivity |]. split; [exact Hin' |].
           rewrite Hcb, Hcb1, <- app_assoc. reflexivity.
Qed.

(** Once every byte has reached the socket, each poll hands over one of
    the PDUs still owed, and polls beyond that hand over nothing. *)
Lemma drain_in_step (fuel : nat)
    (cb : rdpTransport Sock -> bool * rdpTransport Sock) (k : nat) :
  keeps_session cb ->
  forall (t : rdpTransport Sock) (rest : list (list Z)),
    in_step t rest [] -> (length rest <= k)%nat ->
    exists t',
      run (S fuel) cb (repeat Poll k) t = Done t' /\
      callbacks (log t') = callbacks (log t) ++ rest.
Proof.
  intros Hkeep. induction k as [| k IH]; intros t rest Hin Hk.
  - destruct rest; [| cbn in Hk; lia].
    exists t. split; [reflexivity | symmetry; apply app_nil_r].
  - cbn [repeat run]. destruct rest as [| u rest].
    + destruct (poll_idle fuel cb t _ Hin) as (t1 & Hstep & Hin1 & Hcb1).
      destruct (IH t1 [] Hin1) as (t' & Hrun & Hcb); [cbn; lia |].
      exists t'. rewrite Hstep, Hrun. split; [reflexivity | congruence].
    + destruct (poll_under_way fuel cb t u rest _ Hkeep Hin)
        as (t1 & Hstep & _ & Hgive).
      destruct Hgive as [Hin1 Hcb1].
      { destruct Hin as (_ & Hp & Hcap & _ & Hwhole & _).
        cbn [concat] in Hwhole.
        assert (Hl : len (held (recv_buffer t) ++ rx (net t) ++ [])
                     = len (u ++ concat rest)) by (rewrite Hwhole; reflexivity).
        rewrite !len_app, held_length in Hl by lia.
        pose proof (len_nonneg (concat rest)). cbn in Hl. lia. }
      destruct (IH t1 rest Hin1) as (t' & Hrun & Hcb); [cbn in Hk; lia |].
      exists t'. rewrite Hstep, Hrun. split; [reflexivity |].
      rewrite Hcb, Hcb1, <- app_assoc. reflexivity.
Qed.

Lemma session0_in_step (pdus : list (list Z)) :
  forallb dispatchable pdus = true ->
  in_step session0 pdus (concat pdus) /\ callbacks (log session0) = [].
Proof.
  intros Hp. split; [| reflexivity].
  assert (Hb : recv_buffer session0 = stream_new BUFFER_SIZE) by reflexivity.
  assert (Hn : net session0 = quiet) by reflexivity.
  assert (Hl : layer session0 = TRANSPORT_LAYER_TCP) by reflexivity.
  assert (Hnb : blocking session0 = false) by reflexivity.
  assert (Hlv : level session0 = 0) by reflexivity.
  unfold in_step, pollable, held. rewrite Hb, Hn, Hl, Hnb, Hlv.
  unfold stream_new, BUFFER_SIZE, len. cbn [size p data quiet rx peer_up].
  rewrite repeat_length. change (Z.to_nat 0) with 0%nat. cbn [firstn app].
  split; [split; [discriminate | split; [reflexivity | split; reflexivity]] |].
  split; [lia |]. split; [lia |]. split; [exact Hp |].
  split; [reflexivity |].
  destruct pdus as [| u pdus]; [exact I |].
  cbn [forallb] in Hp. apply andb_true_iff in Hp.
  pose proof (dispatchable_size u (proj1 Hp)). unfold len in *. lia.
Qed.

(** The two Fast-Path frames of the spec's scenario, arrived at once. *)
Lemma two_frames_arrived :
  in_step (arrived [0x04; 0x04; 0x11; 0x22; 0x04; 0x04; 0x33; 0x44])
          [[0x04; 0x04; 0x11; 0x22]; [0x04; 0x04; 0x33; 0x44]] [] /\
  callbacks (log (arrived [0x04; 0x04; 0x11; 0x22; 0x04; 0x04; 0x33; 0x44]))
  = [].
Proof.
  assert (Htwo : forallb dispatchable
                   [[0x04; 0x04; 0x11; 0x22]; [0x04; 0x04; 0x33; 0x44]]
                 = true) by reflexivity.
  destruct (session0_in_step _ Htwo) as [Hin2 Hcb0].
  change (concat [[0x04; 0x04; 0x11; 0x22]; [0x04; 0x04; 0x33; 0x44]])
    with ([0x04; 0x04; 0x11; 0x22; 0x04; 0x04; 0x33; 0x44] ++ []) in Hin2.
  destruct (arrive_in_step _ _ _ _ Hin2) as [Hina Hcba].
  rewrite Hcb0 in Hcba. split; [exact Hina | exact Hcba].
Qed.

(** C1, as the code has it.  Let the bytes that arrive, in whatever
    pieces and with whatever polls in between, make up N PDUs, each a
    TPKT PDU [03 00 ..] of declared length 5 to 32768 or a Fast-Path PDU
    (first byte neither 0x03 nor 0x30) of declared length at least 4,
    and let the handler be any handler that keeps the session going: it
    may read the stream it is handed to any position, overwrite it and
    send, and returns the transport open, in the mode and at the level
    it got it, without having taken bytes off the socket.  Then at every
    moment ([sched] done, [later] still to come) the handler has been
    handed a prefix of those PDUs, each with exactly its own bytes, and
    once the bytes are all in, N further calls of [transport_check_fds]
    (or more) bring the PDUs handed over to exactly the N, in arrival
    order.  The two Fast-Path frames 04 04 11 22 04 04 33 44 arriving at
    once are handed over one per call, the second on the next call with
    no byte arriving. *)
Theorem dispatch_in_arrival_order (fuel : nat)
    (cb : rdpTransport Sock -> bool * rdpTransport Sock)
    (pdus : list (list Z)) (sched later : list Action) (k : nat) :
  keeps_session cb ->
  forallb dispatchable pdus = true ->
  arrivals (sched ++ later) = concat pdus ->
  (length pdus <= k)%nat ->
  (exists n,
      delivered (run (S fuel) cb sched session0)
      = Some (firstn n pdus)) /\
  delivered (run (S fuel) cb (sched ++ later ++ repeat Poll k) session0)
  = Some pdus /\
  delivered (run (S fuel) cb
               [Arrive [0x04; 0x04; 0x11; 0x22; 0x04; 0x04; 0x33; 0x44]; Poll]
               session0)
  = Some [[0x04; 0x04; 0x11; 0x22]] /\
  delivered (run (S fuel) cb
               [Arrive [0x04; 0x04; 0x11; 0x22; 0x04; 0x04; 0x33; 0x44];
                Poll; Poll] session0)
  = Some [[0x04; 0x04; 0x11; 0x22]; [0x04; 0x04; 0x33; 0x44]].
Proof.
  intros Hcb Hp Harr Hk.
  destruct (session0_in_step pdus Hp) as [Hin Hcb0].
  destruct two_frames_arrived as [Hina Hcba].
  split; [| split; [| split]].
  - assert (Hin' : in_step session0 pdus (arrivals sched ++ arrivals later)).
    { unfold arrivals in *. rewrite <- flat_map_app, Harr. exact Hin. }
    destruct (run_in_step fuel cb sched Hcb session0 pdus _ Hin')
      as (t1 & rest & Hrun & Hin1 & Hcb1).
    rewrite Hcb0 in Hcb1. cbn [app] in Hcb1.
    exists (length (callbacks (log t1))). rewrite Hrun. cbn [delivered].
    rewrite <- Hcb1, firstn_app, firstn_all, Nat.sub_diag, firstn_O.
    rewrite app_nil_r. reflexivity.
  - assert (Hin' : in_step session0 pdus (arrivals (sched ++ later) ++ []))
      by (rewrite app_nil_r, Harr; exact Hin).
    destruct (run_in_step fuel cb (sched ++ later) Hcb session0 pdus [] Hin')
      as (t1 & rest & Hrun & Hin1 & Hcb1).
    rewrite Hcb0 in Hcb1. cbn [app] in Hcb1.
    destruct (drain_in_step fuel cb k Hcb t1 rest Hin1) as (t2 & Hrun2 & Hcb2).
    { assert (Hl : length (callbacks (log t1) ++ rest) = length pdus)
        by (rewrite Hcb1; reflexivity).
      rewrite length_app in Hl. lia. }
    rewrite app_assoc, run_app, Hrun, Hrun2. cbn [delivered]. congruence.
  - destruct (poll_under_way fuel cb _ _ _ _ Hcb Hina)
      as (t1 & Hstep & _ & Hgive).
    destruct Hgive as [_ Hcb1]; [vm_compute; discriminate |].
    cbn [run].
    change (step (S fuel) cb session0
              (Arrive [0x04; 0x04; 0x11; 0x22; 0x04; 0x04; 0x33; 0x44]))
      with (Done (arrived [0x04; 0x04; 0x11; 0x22; 0x04; 0x04; 0x33; 0x44])).
    cbv iota. rewrite Hstep. cbn [delivered].
    rewrite Hcb1, Hcba. reflexivity.
  - destruct (drain_in_step fuel cb 2 Hcb _ _ Hina) as (t2 & Hrun2 & Hcb2);
      [cbn; lia |].
    change [Arrive [0x04; 0x04; 0x11; 0x22; 0x04; 0x04; 0x33; 0x44];
            Poll; Poll]
      with ([Arrive [0x04; 0x04; 0x11; 0x22; 0x04; 0x04; 0x33; 0x44]]
            ++ repeat Poll 2).
    rewrite run_app.
    change (run (S fuel) cb
              [Arrive [0x04; 0x04; 0x11; 0x22; 0x04; 0x04; 0x33; 0x44]]
              session0)
      with (Done (arrived [0x04; 0x04; 0x11; 0x22; 0x04; 0x04; 0x33; 0x44])).
    cbv iota. rewrite Hrun2. cbn [delivered].
    rewrite Hcb2, Hcba. reflexivity.
Qed.

Lemma dispatch_in_arrival_order_witness :
  delivered
    (run 1 (read_through (fun _ => true))
       ([Arrive [0x03; 0x00; 0x00]; Poll;
         Arrive [0x08; 0xAA; 0xBB; 0xCC; 0xDD; 0x04]; Poll]
        ++ [Arrive [0x04; 0x11; 0x22]] ++ repeat Poll 2) session0)
  = Some [[0x03; 0x00; 0x00; 0x08; 0xAA; 0xBB; 0xCC; 0xDD];
          [0x04; 0x04; 0x11; 0x22]].
Proof.
  assert (Hcb : keeps_session (read_through (fun _ => true)))
    by (intros x; unfold read_through; cbn;
        repeat match goal with |- _ /\ _ => split end;
        try reflexivity; intros H; exact H).
  assert (Hp : forallb dispatchable
                 [[0x03; 0x00; 0x00; 0x08; 0xAA; 0xBB; 0xCC; 0xDD];
                  [0x04; 0x04; 0x11; 0x22]] = true) by reflexivity.
  assert (Ha : arrivals ([Arrive [0x03; 0x00; 0x00]; Poll;
                          Arrive [0x08; 0xAA; 0xBB; 0xCC; 0xDD; 0x04]; Poll]
                         ++ [Arrive [0x04; 0x11; 0x22]])
               = concat [[0x03; 0x00; 0x00; 0x08; 0xAA; 0xBB; 0xCC; 0xDD];
                         [0x04; 0x04; 0x11; 0x22]]) by reflexivity.
  assert (Hk : (length [[0x03; 0x00; 0x00; 0x08; 0xAA; 0xBB; 0xCC; 0xDD];
                        [0x04; 0x04; 0x11; 0x22]] <= 2)%nat)
    by (cbn; lia).
  exact (proj1 (proj2
           (dispatch_in_arrival_order 0 (read_through (fun _ => true))
              [[0x03; 0x00; 0x00; 0x08; 0xAA; 0xBB; 0xCC; 0xDD];
               [0x04; 0x04; 0x11; 0x22]]
              [Arrive [0x03; 0x00; 0x00]; Poll;
               Arrive [0x08; 0xAA; 0xBB; 0xCC; 0xDD; 0x04]; Poll]
              [Arrive [0x04; 0x11; 0x22]] 2%nat Hcb Hp Ha Hk))).
Defined.

(** The condition on the level cannot be dropped: a handler that leaves
    the level raised is handed the first of the two frames, and every
    later call is refused as nested, the second frame staying in the
    socket. *)
Lemma raised_level_stops_the_dispatch :
  delivered
    (run 1 (fun t => (true, set_level t 2))
       [Arrive [0x04; 0x04; 0x11; 0x22; 0x04; 0x04; 0x33; 0x44];
        Poll; Poll; Poll] session0)
  = Some [[0x04; 0x04; 0x11; 0x22]].
Proof. vm_compute. reflexivity. Qed.

(** A session that a poll leaves as it is stays so under any number of
    polls. *)
Lemma stalled_for_good (fuel : nat)
    (cb : rdpTransport Sock -> bool * rdpTransport Sock)
    (t : rdpTransport Sock) :
  step fuel cb t Poll = Done t ->
  forall k, run fuel cb (repeat Poll k) t = Done t.
Proof.
  intros Hstep k. induction k as [| k IH]; cbn [repeat run].
  - reflexivity.
  - rewrite Hstep. exact IH.
Qed.


Lemma ends_in_eq (o : outcome (rdpTransport Sock)) (t : rdpTransport Sock) :
  ends_in o t = true -> o = Done t.
Proof.
  destruct o as [t' | |]; cbn; try discriminate.
  destruct (transport_eq_dec t' t); [congruence | discriminate].
Qed.

(** A PDU that the first poll after its arrival leaves in a session
    that a further poll does not change is never handed over. *)
Lemma held_back_for_good (cb : rdpTransport Sock -> bool * rdpTransport Sock)
    (bs : list Z) :
  ends_in (run 1 cb [Arrive bs; Poll] session0)
          (final (run 1 cb [Arrive bs; Poll] session0)) = true ->
  ends_in (step 1 cb (final (run 1 cb [Arrive bs; Poll] session0)) Poll)
          (final (run 1 cb [Arrive bs; Poll] session0)) = true ->
  forall k,
    run 1 cb (Arrive bs :: Poll :: repeat Poll k) session0
    = Done (final (run 1 cb [Arrive bs; Poll] session0)).
Proof.
  intros H1 H2 k. apply ends_in_eq in H1, H2.
  change (Arrive bs :: Poll :: repeat Poll k)
    with ([Arrive bs; Poll] ++ repeat Poll k).
  rewrite run_app, H1. apply stalled_for_good, H2.
Qed.

(** A poll on a drained socket while the header is short: the read
    returns 0, and the framing step waits when the buffer begins a TPKT
    header ([pos <= 4]) or holds at most two bytes ([pos <= 2]); the
    callback is not reached. *)
Lemma poll_short_of_header (fuel : nat)
    (cb : rdpTransport Sock -> bool * rdpTransport Sock)
    (t : rdpTransport Sock) (n : Z) :
  short_of_header t n ->
  byte_at (data (recv_buffer t)) 0 = 3 \/ n <= 2 ->
  exists t',
    step (S fuel) cb t Poll = Done t' /\
    short_of_header t' n /\
    held (recv_buffer t') = held (recv_buffer t) /\
    callbacks (log t') = callbacks (log t).
Proof.
  intros (Hpoll & Hrx & Hp & Hn & Hsz & Hcap) Hwait.
  destruct Hpoll as (Hopen & Hnb & Hlevel & Hup).
  destruct (check_size_room (recv_buffer t)) as (Cp & Cheld & Croom & Ccap);
    [lia | exact Hcap |].
  set (b := stream_check_size (recv_buffer t) (32 * 1024)) in *.
  destruct (sock_read_chunk fuel (set_recv_buffer t b) (data b) n (4 - n) []
              (firstn (Z.to_nat n) (data b)
               ++ rx (net (set_recv_buffer t b)) ++ []))
    as (t1 & d1 & Hrun & Hlen & Hw & Hf);
    [exact Hopen | exact Hnb | exact Hup | lia | lia | lia | reflexivity |].
  cbn [set_recv_buffer net] in Hrun, Hw, Hf. rewrite Hrx in Hrun, Hw, Hf.
  change (len []) with 0 in Hrun, Hw, Hf.
  replace (Z.min (4 - n) 0) with 0 in Hrun, Hw, Hf by lia.
  rewrite Z.add_0_r in Hw. cbn [Z.to_nat skipn app] in Hw.
  rewrite !app_nil_r in Hw.
  destruct Hf as (F1 & F2 & F3 & F4 & F5 & F6 & F7).
  cbn [set_recv_buffer layer blocking level recv_buffer net log Z.to_nat
       skipn] in *.
  assert (Hheld : firstn (Z.to_nat n) d1
                  = firstn (Z.to_nat n) (data (recv_buffer t))).
  { rewrite Hw. unfold held in Cheld. rewrite Cp, Hp in Cheld. exact Cheld. }
  assert (Hb0 : byte_at d1 0 = byte_at (data (recv_buffer t)) 0)
    by (apply (byte_at_firstn _ 0 _ _ Hheld); lia).
  exists (set_recv_buffer t1 (mkStream (size b) n d1)).
  split; [| split; [| split]].
  - unfold step, transport_check_fds. rewrite Hlevel.
    change (negb (0 =? 0)) with false. cbv iota.
    unfold transport_read_nonblocking, transport_read, stream_get_length.
    fold b. rewrite Cp, Hp.
    replace (n <? 4) with true by (symmetry; apply Z.ltb_lt; lia).
    rewrite Hrun. change (0 <? 0) with false. cbv iota.
    replace (0 + n <? 4) with true by (symmetry; apply Z.ltb_lt; lia).
    change (0 + 0 <=? 0) with true. change (0 + 0 <? 0) with false. cbv iota.
    unfold transport_check_fds_frame, stream_get_pos, tpkt_verify_header,
      stream_peek_uint8, stream_set_pos, with_data.
    cbn [set_recv_buffer recv_buffer size p data]. rewrite Cp, Hp.
    replace (n >? 0) with true by (symmetry; apply Z.gtb_lt; lia).
    change (Z.to_nat 0) with 0%nat. fold (byte_at d1 0). rewrite Hb0.
    destruct (byte_at (data (recv_buffer t)) 0 =? 3) eqn:H3.
    + replace (n <=? 4) with true by (symmetry; apply Z.leb_le; lia).
      reflexivity.
    + apply Z.eqb_neq in H3.
      replace (n <=? 2) with true
        by (symmetry; apply Z.leb_le; destruct Hwait; [contradiction | lia]).
      reflexivity.
  - unfold short_of_header, pollable. cbn.
    repeat split; try congruence; try lia.
  - unfold held. cbn [set_recv_buffer recv_buffer p data].
    rewrite Hheld, Hp. reflexivity.
  - exact F7.
Qed.

(** So a session short of its header on a drained socket hands
    nothing over, however often it is polled. *)
Lemma short_of_header_for_good (fuel : nat)
    (cb : rdpTransport Sock -> bool * rdpTransport Sock) (n : Z) (k : nat) :
  forall t,
    short_of_header t n ->
    byte_at (held (recv_buffer t)) 0 = 3 \/ n <= 2 ->
    exists t',
      run (S fuel) cb (repeat Poll k) t = Done t' /\
      callbacks (log t') = callbacks (log t).
Proof.
  induction k as [| k IH]; intros t Hs Hwait.
  - exists t. split; reflexivity.
  - assert (Hb0 : forall t0, short_of_header t0 n ->
                             byte_at (held (recv_buffer t0)) 0
                             = byte_at (data (recv_buffer t0)) 0).
    { intros t0 (_ & _ & Hp0 & Hn0 & _). unfold held.
      apply (byte_at_firstn (Z.to_nat (p (recv_buffer t0))) 0); [| lia].
      rewrite firstn_firstn. f_equal. lia. }
    destruct (poll_short_of_header fuel cb t n Hs)
      as (t1 & Hstep & Hs1 & Hheld1 & Hcb1).
    { rewrite <- (Hb0 t Hs). exact Hwait. }
    destruct (IH t1 Hs1) as (t' & Hrun & Hcb).
    { rewrite Hheld1. exact Hwait. }
    exists t'. cbn [repeat run]. rewrite Hstep, Hrun.
    split; [reflexivity | congruence].
Qed.

(** C1, as the spec words it, fails: the TSRequest PDU 30 81 04 01 02 03
    04 is complete, [transport_read] pulls in its 7 bytes, and
    [transport_check_fds], which knows TPKT and Fast-Path only, reads
    its header as a Fast-Path length of 260 and waits for ever. *)
Lemma tsrequest_is_never_dispatched :
  complete_pdu [0x30; 0x81; 0x04; 0x01; 0x02; 0x03; 0x04] = true /\
  poll_report (transport_check_fds 1 (consume (fun _ => true))
                 (arrived [0x30; 0x81; 0x04; 0x01; 0x02; 0x03; 0x04]))
  = Some (0, [0x30; 0x81; 0x04; 0x01; 0x02; 0x03; 0x04], []) /\
  forall k,
    delivered (run 1 (consume (fun _ => true))
                 (Arrive [0x30; 0x81; 0x04; 0x01; 0x02; 0x03; 0x04]
                  :: Poll :: repeat Poll k) session0)
    = Some [].
Proof.
  split; [reflexivity |]. split; [vm_compute; reflexivity |].
  intros k. rewrite held_back_for_good; vm_compute; reflexivity.
Qed.

(** C3, at the bounds.  A header-only TPKT PDU 03 00 00 04 is complete
    with its 4 bytes in the receive buffer, and a Fast-Path PDU 00 02
    with its 2 bytes; [transport_check_fds] returns 0 on each and hands
    nothing over, under any number of further calls: the guards wait at
    [pos <= 4] and [pos <= 2]. *)
Theorem header_only_pdu_is_held_back :
  complete_pdu [0x03; 0x00; 0x00; 0x04] = true /\
  poll_report (transport_check_fds 1 (consume (fun _ => true))
                 (arrived [0x03; 0x00; 0x00; 0x04]))
  = Some (0, [0x03; 0x00; 0x00; 0x04], []) /\
  (forall k,
      delivered (run 1 (consume (fun _ => true))
                   (Arrive [0x03; 0x00; 0x00; 0x04] :: Poll :: repeat Poll k)
                   session0) = Some []) /\
  complete_pdu [0x00; 0x02] = true /\
  poll_report (transport_check_fds 1 (consume (fun _ => true))
                 (arrived [0x00; 0x02]))
  = Some (0, [0x00; 0x02], []) /\
  (forall k,
      delivered (run 1 (consume (fun _ => true))
                   (Arrive [0x00; 0x02] :: Poll :: repeat Poll k)
                   session0) = Some []).
Proof.
  split; [reflexivity |]. split; [vm_compute; reflexivity |].
  split; [intros k; rewrite held_back_for_good; vm_compute; reflexivity |].
  split; [reflexivity |]. split; [vm_compute; reflexivity |].
  intros k.
  set (cb := consume (fun _ => true)).
  set (t2 := final (run 1 cb [Arrive [0x00; 0x02]; Poll] session0)).
  assert (H1 : run 1 cb [Arrive [0x00; 0x02]; Poll] session0 = Done t2)
    by (apply ends_in_eq; vm_compute; reflexivity).
  assert (Hs : short_of_header t2 2).
  { unfold short_of_header, pollable.
    repeat split; try (vm_compute; reflexivity); try lia.
    - vm_compute. discriminate.
    - apply Z.leb_le. vm_compute. reflexivity.
    - apply Z.leb_le. vm_compute. reflexivity. }
  destruct (short_of_header_for_good 0 cb 2 k t2 Hs) as (t' & Hrun & Hcb);
    [right; lia |].
  change (Arrive [0x00; 0x02] :: Poll :: repeat Poll k)
    with ([Arrive [0x00; 0x02]; Poll] ++ repeat Poll k).
  rewrite run_app, H1, Hrun. cbn [delivered]. rewrite Hcb.
  vm_compute. reflexivity.
Qed.

(** * More of the transport *)

(** ** The write path when it succeeds *)

Section Writes.

Context {W : Type} {E : Endpoint W}.

(** The write to an open layer is one endpoint write, logged. *)
Lemma layer_write_open (t : rdpTransport W) (status : Z) (bs : list Z)
    (n : Z) :
  layer t <> TRANSPORT_LAYER_CLOSED ->
  exists st w,
    layer_write t status bs n
    = (st, emit (set_net t w) [EvWrite (layer t) n st]) /\
    (layer t = TRANSPORT_LAYER_TCP -> tcp_write (net t) bs = (st, w)) /\
    (layer t = TRANSPORT_LAYER_TLS -> tls_write (net t) bs = (st, w)).
Proof.
  intros Hopen. unfold layer_write.
  destruct (layer t) eqn:Hl; [| | congruence].
  - destruct (tcp_write (net t) bs) as [st w].
    exists st, w. split; [reflexivity | split; [reflexivity | discriminate]].
  - destruct (tls_write (net t) bs) as [st w].
    exists st, w. split; [reflexivity | split; [discriminate | reflexivity]].
Qed.

Lemma write_statuses_app (l m : list Event) :
  write_statuses (l ++ m) = write_statuses l ++ write_statuses m.
Proof. apply flat_map_app. Qed.

Lemma total_app (l m : list Z) : total (l ++ m) = total l + total m.
Proof.
  unfold total. induction l as [| x l IH]; cbn [app fold_right]; lia.
Qed.

Lemma stream_tail_bytes_len (s : STREAM) (n : Z) :
  0 <= n -> 0 <= p s -> p s + n <= len (data s) ->
  len (stream_tail_bytes s n) = n.
Proof.
  intros Hn Hp Hfit. unfold stream_tail_bytes, len in *.
  rewrite length_firstn, length_skipn. lia.
Qed.

(** The loop of [transport_write] on an open layer, when it ends well:
    the statuses of its writes add up to the count it was to send. *)
Lemma write_loop_complete (fuel : nat) :
  forall (t : rdpTransport W) (s : STREAM) (status n st : Z)
         (t' : rdpTransport W) (s' : STREAM),
    write_contract -> layer t <> TRANSPORT_LAYER_CLOSED ->
    0 <= n -> 0 <= p s -> p s + n <= len (data s) ->
    transport_write_loop fuel t s status n = Done (st, t', s') ->
    0 <= st ->
    layer t' = layer t /\ p s' = p s + n /\
    exists evs,
      log t' = log t ++ evs /\ total (write_statuses evs) = n /\
      Forall (fun x => 0 <= x) (write_statuses evs).
Proof.
  induction fuel as [| fuel IH];
    intros t s status n st t' s' Hc Hopen Hn Hp Hfit Hrun Hst;
    cbn [transport_write_loop] in Hrun.
  - destruct (n >? 0) eqn:Hpos; [discriminate |].
    rewrite Z.gtb_ltb in Hpos. apply Z.ltb_ge in Hpos.
    inversion Hrun; subst. split; [reflexivity |]. split; [lia |].
    exists []. rewrite app_nil_r. cbn. repeat split; [lia | constructor].
  - destruct (n >? 0) eqn:Hpos.
    + apply Z.gtb_lt in Hpos.
      destruct (layer_write_open t status (stream_tail_bytes s n) n Hopen)
        as (st1 & w & Hwr & Htcp & Htls).
      rewrite Hwr in Hrun.
      assert (Hle : st1 <= n).
      { rewrite <- (stream_tail_bytes_len s n) by lia.
        destruct (Hc (net t) (stream_tail_bytes s n)) as [H1 H2].
        destruct (layer t) eqn:Hl; [| | congruence].
        - rewrite (Htcp eq_refl) in H1. exact H1.
        - rewrite (Htls eq_refl) in H2. exact H2. }
      set (t1 := emit (set_net t w) [EvWrite (layer t) n st1]) in *.
      destruct (st1 <? 0) eqn:Hneg.
      * inversion Hrun; subst. apply Z.ltb_lt in Hneg. lia.
      * apply Z.ltb_ge in Hneg.
        set (t2 := if st1 =? 0
                   then emit (set_net t1 (freerdp_usleep (net t1)
                                            (usleep_interval t1)))
                             [EvUsleep (usleep_interval t1)]
                   else t1) in *.
        assert (Hf : layer t2 = layer t /\
                     exists evs, log t2 = log t ++ evs /\
                                 write_statuses evs = [st1]).
        { subst t2. destruct (st1 =? 0).
          - split; [reflexivity |].
            exists [EvWrite (layer t) n st1; EvUsleep (usleep_interval t1)].
            split; [| reflexivity].
            subst t1. cbn. rewrite <- app_assoc. reflexivity.
          - split; [reflexivity |].
            exists [EvWrite (layer t) n st1]. split; reflexivity. }
        destruct Hf as (Hl2 & evs2 & Hlog2 & Hws2).
        apply IH in Hrun; try assumption;
          [| congruence | lia | cbn; lia | cbn; lia].
        destruct Hrun as (Hl & Hps & evs & Hlog & Htot & Hall).
        split; [congruence |]. split; [cbn in Hps; lia |].
        exists (evs2 ++ evs).
        rewrite Hlog, Hlog2, app_assoc, write_statuses_app, Hws2.
        split; [reflexivity |]. split.
        -- rewrite total_app. cbn. lia.
        -- cbn. constructor; assumption.
    + rewrite Z.gtb_ltb in Hpos. apply Z.ltb_ge in Hpos.
      inversion Hrun; subst. split; [reflexivity |]. split; [lia |].
      exists []. rewrite app_nil_r. cbn. repeat split; [lia | constructor].
Qed.

(** X1. A [transport_write] that returns a non-negative status has
    sent the whole stream: the statuses of the endpoint writes it made,
    none of them negative, add up to the stream's length, the stream's
    position is back at that length, and the layer is as it was. *)
Theorem write_success_is_complete (fuel : nat) (t t' : rdpTransport W)
    (s s' : STREAM) (st : Z) :
  write_contract ->
  0 <= p s <= len (data s) ->
  transport_write fuel t s = Done (st, t', s') ->
  0 <= st ->
  layer t' = layer t /\ layer t <> TRANSPORT_LAYER_CLOSED /\
  p s' = p s /\ 0 < p s /\
  exists evs,
    log t' = log t ++ evs /\ total (write_statuses evs) = p s /\
    Forall (fun x => 0 <= x) (write_statuses evs).
Proof.
  intros Hc Hp Hrun Hst. unfold transport_write, stream_get_length in Hrun.
  destruct (transport_write_loop fuel t (stream_set_pos s 0) (-1) (p s))
    as [[[st1 t1] s1] | |] eqn:Hloop; try discriminate.
  destruct (st1 <? 0) eqn:Hneg.
  { inversion Hrun; subst. apply Z.ltb_lt in Hneg. lia. }
  apply Z.ltb_ge in Hneg. inversion Hrun; subst st1 t1 s1. clear Hrun.
  assert (Hpos : 0 < p s).
  { destruct (Z_lt_le_dec 0 (p s)) as [H | H]; [exact H |].
    destruct fuel; cbn [transport_write_loop] in Hloop;
      replace (p s >? 0) with false in Hloop
        by (symmetry; rewrite Z.gtb_ltb; apply Z.ltb_ge; lia);
      inversion Hloop; lia. }
  assert (Hopen : layer t <> TRANSPORT_LAYER_CLOSED).
  { intros Hl. destruct fuel; cbn [transport_write_loop] in Hloop;
      replace (p s >? 0) with true in Hloop
        by (symmetry; apply Z.gtb_lt; lia); [discriminate |].
    unfold layer_write in Hloop. rewrite Hl in Hloop.
    cbn in Hloop. inversion Hloop. lia. }
  apply write_loop_complete in Hloop; try assumption;
    [| lia | cbn; lia | cbn; lia].
  destruct Hloop as (Hl & Hps & evs & Hlog & Htot & Hall).
  cbn in Hps.
  split; [exact Hl |]. split; [exact Hopen |]. split; [lia |].
  split; [exact Hpos |]. exists evs. auto.
Qed.

End Writes.

Lemma firstn_then_more (a b : nat) (l : list Z) :
  firstn a l ++ firstn b (skipn a l) = firstn (a + b) l.
Proof.
  revert l. induction a as [| a IH]; intros l.
  - reflexivity.
  - destruct l as [| x l]; [cbn; rewrite firstn_nil; reflexivity |].
    cbn. f_equal. apply IH.
Qed.

(** The loop of [transport_write] over a wire that takes at most [mtu]
    bytes at a time: it goes on until the last byte is out. *)
Lemma pipe_write_loop (fuel : nat) :
  forall (t : rdpTransport Pipe) (s : STREAM) (status n : Z),
    layer t <> TRANSPORT_LAYER_CLOSED -> 0 < mtu (net t) ->
    0 <= n -> 0 <= p s -> p s + n <= len (data s) ->
    (Z.to_nat n <= fuel)%nat ->
    exists st t' s',
      transport_write_loop fuel t s status n = Done (st, t', s') /\
      sent (net t')
      = sent (net t) ++ firstn (Z.to_nat n) (skipn (Z.to_nat (p s)) (data s))
      /\ mtu (net t') = mtu (net t) /\ layer t' = layer t /\
      p s' = p s + n /\
      (0 < n -> 0 < st <= mtu (net t)) /\ (n = 0 -> st = status).
Proof.
  induction fuel as [| fuel IH];
    intros t s status n Hopen Hmtu Hn Hp Hfit Hfuel;
    cbn [transport_write_loop].
  - assert (n = 0) by lia. subst n. change (0 >? 0) with false. cbv iota.
    exists status, t, s. cbn [Z.to_nat firstn].
    rewrite app_nil_r, Z.add_0_r. repeat split; try reflexivity; lia.
  - destruct (n >? 0) eqn:Hpos.
    + apply Z.gtb_lt in Hpos.
      destruct (layer_write_open t status (stream_tail_bytes s n) n Hopen)
        as (st1 & w & Hwr & Htcp & Htls).
      assert (Hw : pipe_write (net t) (stream_tail_bytes s n) = (st1, w)).
      { destruct (layer t); [apply Htcp | apply Htls | congruence];
          reflexivity. }
      unfold pipe_write in Hw. inversion Hw as [[Hst1 Hw']]. clear Hw.
      assert (Hst : st1 = Z.min (mtu (net t)) n).
      { rewrite <- Hst1, len_firstn by lia.
        rewrite stream_tail_bytes_len by lia. reflexivity. }
      rewrite Hwr, <- Hst1, Hst1.
      replace (st1 <? 0) with false by (symmetry; apply Z.ltb_ge; lia).
      replace (st1 =? 0) with false by (symmetry; apply Z.eqb_neq; lia).
      set (t1 := emit (set_net t w) [EvWrite (layer t) n st1]).
      destruct (IH t1 (stream_seek s st1) st1 (n - st1))
        as (st & t' & s' & Hrun & Hsent & Hm & Hl & Hps & Hbig & Hzero);
        try (subst t1 w; cbn; lia); [exact Hopen |].
      exists st, t', s'. split; [exact Hrun |].
      assert (Hsent1 : sent (net t1)
                = sent (net t)
                  ++ firstn (Z.to_nat st1)
                       (skipn (Z.to_nat (p s)) (data s))).
      { subst t1 w. cbn [emit set_net net sent]. f_equal.
        unfold stream_tail_bytes. rewrite firstn_firstn. f_equal. lia. }
      split; [| split; [| split; [| split; [| split]]]].
      * rewrite Hsent, Hsent1, <- app_assoc. f_equal.
        cbn [stream_seek p data].
        replace (Z.to_nat (p s + st1))
          with (Z.to_nat st1 + Z.to_nat (p s))%nat by lia.
        rewrite <- skipn_skipn, firstn_then_more. f_equal. lia.
      * rewrite Hm. subst t1 w. reflexivity.
      * rewrite Hl. reflexivity.
      * cbn in Hps. lia.
      * intros _. destruct (Z.eq_dec (n - st1) 0) as [Hz | Hnz].
        -- rewrite (Hzero Hz). lia.
        -- assert (Hmt : mtu (net t1) = mtu (net t))
             by (subst t1 w; reflexivity).
           rewrite Hmt in Hbig. apply Hbig. lia.
      * intros; lia.
    + rewrite Z.gtb_ltb in Hpos. apply Z.ltb_ge in Hpos.
      assert (n = 0) by lia. subst n.
      exists status, t, s. cbn [Z.to_nat firstn].
      rewrite app_nil_r, Z.add_0_r. repeat split; try reflexivity; lia.
Qed.

(** X2. Over a wire that accepts at most [mtu] bytes per write,
    [transport_write] keeps writing until the whole stream is out: what
    reaches the wire is the stream's bytes up to its position, in order
    and once each; the status returned is that of the last write, and
    the layer stays open. *)
Theorem write_sends_stream_in_order (fuel : nat) (t : rdpTransport Pipe)
    (s : STREAM) :
  layer t <> TRANSPORT_LAYER_CLOSED -> 0 < mtu (net t) ->
  0 < p s <= len (data s) ->
  (Z.to_nat (p s) <= fuel)%nat ->
  exists st t' s',
    transport_write fuel t s = Done (st, t', s') /\
    0 < st <= mtu (net t) /\
    sent (net t') = sent (net t) ++ firstn (Z.to_nat (p s)) (data s) /\
    layer t' = layer t /\ p s' = p s.
Proof.
  intros Hopen Hmtu Hp Hfuel.
  destruct (pipe_write_loop fuel t (stream_set_pos s 0) (-1) (p s))
    as (st & t' & s' & Hrun & Hsent & Hm & Hl & Hps & Hbig & _);
    try assumption; try (cbn; lia).
  specialize (Hbig (proj1 Hp)).
  exists st, t', s'. unfold transport_write, stream_get_length.
  rewrite Hrun.
  replace (st <? 0) with false by (symmetry; apply Z.ltb_ge; lia).
  cbn in Hsent, Hps. auto.
Qed.

Lemma write_sends_stream_in_order_witness :
  let t := transport_new (mkPipe [9] 2) in
  let s := mkStream 8 5 [1; 2; 3; 4; 5; 0; 0; 0] in
  layer t <> TRANSPORT_LAYER_CLOSED /\ 0 < mtu (net t) /\
  0 < p s <= len (data s) /\ (Z.to_nat (p s) <= 5)%nat /\
  exists st t' s',
    transport_write 5 t s = Done (st, t', s') /\
    0 < st <= 2 /\
    sent (net t') = [9] ++ [1; 2; 3; 4; 5] /\
    layer t' = layer t /\ p s' = 5.
Proof.
  cbv zeta.
  assert (H1 : layer (transport_new (mkPipe [9] 2))
               <> TRANSPORT_LAYER_CLOSED) by discriminate.
  assert (H2 : 0 < mtu (net (transport_new (mkPipe [9] 2)))) by (cbn; lia).
  assert (H3 : 0 < p (mkStream 8 5 [1; 2; 3; 4; 5; 0; 0; 0])
               <= len (data (mkStream 8 5 [1; 2; 3; 4; 5; 0; 0; 0])))
    by (cbn; lia).
  assert (H4 : Nat.le (Z.to_nat (p (mkStream 8 5 [1; 2; 3; 4; 5; 0; 0; 0])))
                      5%nat)
    by (cbn; lia).
  split; [exact H1 |]. split; [exact H2 |]. split; [exact H3 |].
  split; [exact H4 |].
  exact (write_sends_stream_in_order 5 _ _ H1 H2 H3 H4).
Defined.

Lemma sock_write_contract : write_contract (W := Sock).
Proof.
  intros w bs. cbn. unfold sock_write.
  destruct (peer_up w); cbn [fst]; unfold len; split; lia.
Qed.

Lemma write_success_is_complete_witness :
  let t := transport_new quiet in
  let s := mkStream 8 3 [1; 2; 3; 0; 0; 0; 0; 0] in
  let t' := emit (set_net t (mkSock [] [1; 2; 3] true true))
                 [EvWrite TRANSPORT_LAYER_TCP 3 3] in
  0 <= p s <= len (data s) /\
  transport_write 1 t s = Done (3, t', mkStream 8 3 [1; 2; 3; 0; 0; 0; 0; 0])
  /\ 0 <= 3 /\
  layer t' = layer t /\
  exists evs,
    log t' = log t ++ evs /\ total (write_statuses evs) = 3.
Proof.
  cbv zeta.
  assert (Hp : 0 <= p (mkStream 8 3 [1; 2; 3; 0; 0; 0; 0; 0])
               <= len (data (mkStream 8 3 [1; 2; 3; 0; 0; 0; 0; 0])))
    by (cbn; lia).
  assert (Hrun : transport_write 1 (transport_new quiet)
                   (mkStream 8 3 [1; 2; 3; 0; 0; 0; 0; 0])
                 = Done (3, emit (set_net (transport_new quiet)
                                    (mkSock [] [1; 2; 3] true true))
                              [EvWrite TRANSPORT_LAYER_TCP 3 3],
                         mkStream 8 3 [1; 2; 3; 0; 0; 0; 0; 0]))
    by reflexivity.
  assert (H3 : 0 <= 3) by lia.
  split; [exact Hp |]. split; [exact Hrun |]. split; [exact H3 |].
  destruct (write_success_is_complete 1 _ _ _ _ 3 sock_write_contract
              Hp Hrun H3) as (Hl & _ & _ & _ & evs & Hlog & Htot & _).
  split; [exact Hl |]. exists evs. split; assumption.
Defined.

(** ** What the read path leaves alone *)

Section ReadFrames.

Context {W : Type} {E : Endpoint W}.

Lemma untouched_refl (t : rdpTransport W) : untouched t t.
Proof.
  unfold untouched. repeat split; try reflexivity.
  exists []. rewrite app_nil_r. repeat split; reflexivity.
Qed.

Lemma untouched_trans (t t1 t2 : rdpTransport W) :
  untouched t t1 -> untouched t1 t2 -> untouched t t2.
Proof.
  intros (A1 & A2 & A3 & A4 & A5 & A6 & e1 & A7 & A8 & A9)
         (B1 & B2 & B3 & B4 & B5 & B6 & e2 & B7 & B8 & B9).
  unfold untouched. repeat split; try congruence.
  exists (e1 ++ e2). rewrite B7, A7, app_assoc.
  rewrite callbacks_app, write_statuses_app, A8, A9, B8, B9.
  repeat split; reflexivity.
Qed.

(** Moving the endpoints on and logging an event that is neither a
    callback nor a write. *)
Lemma untouched_io (t : rdpTransport W) (w : W) (e : Event) :
  callbacks [e] = [] -> write_statuses [e] = [] ->
  untouched t (emit (set_net t w) [e]).
Proof.
  intros Hc Hw. unfold untouched. cbn [emit set_net layer blocking level tls
    usleep_interval recv_buffer log net].
  repeat split; try reflexivity. exists [e]. auto.
Qed.

Lemma layer_read_untouched (t t1 : rdpTransport W) (status n st : Z)
    (bs : list Z) :
  layer_read t status n = (st, bs, t1) -> untouched t t1.
Proof.
  unfold layer_read. intros H. destruct (layer t).
  - destruct (tcp_read (net t) n) as [[st' bs'] w]. inversion H; subst.
    apply untouched_io; reflexivity.
  - destruct (tls_read (net t) n) as [[st' bs'] w]. inversion H; subst.
    apply untouched_io; reflexivity.
  - inversion H; subst. apply untouched_refl.
Qed.

Lemma idle_wait_untouched (t : rdpTransport W) : untouched t (idle_wait t).
Proof.
  unfold idle_wait. destruct (layer t); apply untouched_io; reflexivity.
Qed.

Lemma poke_len (d d1 : list Z) (off : Z) (bs : list Z) :
  poke d off bs = Some d1 -> len d1 = len d.
Proof.
  unfold poke. destruct bs as [| b bs]; [intros H; inversion H; reflexivity |].
  destruct ((0 <=? off)
            && (off + Z.of_nat (length (b :: bs)) <=? Z.of_nat (length d)))
    eqn:Hin; [| discriminate].
  apply andb_true_iff in Hin. destruct Hin as [H0 H1].
  apply Z.leb_le in H0, H1. intros H. injection H as <-. unfold len.
  rewrite length_app. cbn [app length] in *.
  rewrite length_app, length_firstn, length_skipn. lia.
Qed.

Lemma read_layer_loop_untouched (fuel : nat) :
  forall (t : rdpTransport W) (d : list Z) (off bytes read status r : Z)
         (t' : rdpTransport W) (d' : list Z),
    transport_read_layer_loop fuel t d off bytes read status
    = Done (r, t', d') ->
    untouched t t' /\ len d' = len d.
Proof.
  induction fuel as [| fuel IH];
    intros t d off bytes read status r t' d' Hrun;
    cbn [transport_read_layer_loop] in Hrun.
  - destruct (read <? bytes); [discriminate |]. inversion Hrun; subst.
    split; [apply untouched_refl | reflexivity].
  - destruct (read <? bytes).
    + destruct (layer_read t status (bytes - read)) as [[st bs] t1] eqn:Hrd.
      apply layer_read_untouched in Hrd.
      destruct (poke d (off + read) bs) as [d1 |] eqn:Hpoke; [| discriminate].
      apply poke_len in Hpoke.
      destruct (negb (blocking t1)).
      { inversion Hrun; subst. split; assumption. }
      destruct (st <? 0).
      { inversion Hrun; subst. split; assumption. }
      apply IH in Hrun. destruct Hrun as [Hu Hl].
      split; [| congruence].
      apply (untouched_trans t t1 t' Hrd).
      refine (untouched_trans _ _ _ _ Hu).
      destruct (st =? 0); [apply idle_wait_untouched | apply untouched_refl].
    + inversion Hrun; subst. split; [apply untouched_refl | reflexivity].
Qed.

Lemma read_pdu_untouched (fuel : nat) (t t' : rdpTransport W)
    (s s' : STREAM) (sb ts st : Z) :
  transport_read_pdu fuel t s sb ts = Done (st, t', s') ->
  untouched t t' /\ p s' = p s /\ size s' = size s /\
  len (data s') = len (data s).
Proof.
  unfold transport_read_pdu.
  destruct (transport_read_pdu_bytes (data s)) as [pdu msgs] eqn:Hpdu.
  assert (Hmsgs : untouched t (emit t msgs)).
  { unfold transport_read_pdu_bytes in Hpdu.
    repeat match type of Hpdu with
           | (if ?c then _ else _) = _ => destruct c
           end; inversion Hpdu; subst;
      try apply untouched_refl.
    unfold untouched. cbn. repeat split; try reflexivity.
    eexists. split; [reflexivity |]. split; reflexivity. }
  destruct (transport_read_layer fuel (emit t msgs) (data s) sb (pdu - sb))
    as [[[st1 t1] d1] | |] eqn:Hrun; try discriminate.
  apply read_layer_loop_untouched in Hrun. destruct Hrun as [Hu Hl].
  intros H. destruct (st1 <? 0); inversion H; subst;
    (split; [exact (untouched_trans _ _ _ Hmsgs Hu) |]);
    cbn; auto.
Qed.

Lemma transport_read_untouched (fuel : nat) (t t' : rdpTransport W)
    (s s' : STREAM) (st : Z) :
  transport_read fuel t s = Done (st, t', s') ->
  untouched t t' /\ p s' = p s /\ size s' = size s /\
  len (data s') = len (data s).
Proof.
  unfold transport_read.
  destruct (stream_get_length s <? 4).
  - destruct (transport_read_layer fuel t (data s) (stream_get_length s)
                (4 - stream_get_length s)) as [[[st1 t1] d1] | |] eqn:Hrun;
      try discriminate.
    apply read_layer_loop_untouched in Hrun. destruct Hrun as [Hu Hl].
    destruct (st1 <? 0).
    { intros H; inversion H; subst. cbn. auto. }
    destruct (st1 + stream_get_length s <? 4).
    { intros H; inversion H; subst. cbn. auto. }
    intros H. apply read_pdu_untouched in H.
    destruct H as (Hu2 & H1 & H2 & H3). cbn in H1, H2, H3.
    split; [exact (untouched_trans _ _ _ Hu Hu2) |].
    repeat split; congruence.
  - apply read_pdu_untouched.
Qed.

Lemma poke_keeps_prefix (d d1 : list Z) (off : Z) (bs : list Z) (k : nat) :
  poke d off bs = Some d1 -> (k <= Z.to_nat off)%nat ->
  firstn k d1 = firstn k d.
Proof.
  unfold poke. destruct bs as [| b bs]; [intros H _; congruence |].
  destruct ((0 <=? off)
            && (off + Z.of_nat (length (b :: bs)) <=? Z.of_nat (length d)))
    eqn:Hin; [| discriminate].
  apply andb_true_iff in Hin. destruct Hin as [H0 H1].
  apply Z.leb_le in H0, H1. intros H Hk. injection H as <-.
  rewrite firstn_app, length_firstn, firstn_firstn.
  cbn [length] in H1.
  replace (k - Nat.min (Z.to_nat off) (length d))%nat with 0%nat by lia.
  rewrite firstn_O, app_nil_r. f_equal. lia.
Qed.

(** The read loop stores at or after the offset it is given. *)
Lemma read_layer_loop_keeps_prefix (fuel : nat) :
  forall (t : rdpTransport W) (d : list Z) (off bytes read status r : Z)
         (t' : rdpTransport W) (d' : list Z) (k : nat),
    transport_read_layer_loop fuel t d off bytes read status
    = Done (r, t', d') ->
    0 <= off -> 0 <= read -> (k <= Z.to_nat off)%nat ->
    firstn k d' = firstn k d.
Proof.
  induction fuel as [| fuel IH];
    intros t d off bytes read status r t' d' k Hrun Hoff Hread Hk;
    cbn [transport_read_layer_loop] in Hrun.
  - destruct (read <? bytes); [discriminate |]. inversion Hrun; subst.
    reflexivity.
  - destruct (read <? bytes); [| inversion Hrun; subst; reflexivity].
    destruct (layer_read t status (bytes - read)) as [[st bs] t1].
    destruct (poke d (off + read) bs) as [d1 |] eqn:Hpoke; [| discriminate].
    apply (poke_keeps_prefix _ _ _ _ k) in Hpoke; [| lia].
    destruct (negb (blocking t1)).
    { inversion Hrun; subst. exact Hpoke. }
    destruct (st <? 0) eqn:Hneg.
    { inversion Hrun; subst. exact Hpoke. }
    apply Z.ltb_ge in Hneg.
    apply (IH _ _ _ _ _ _ _ _ _ k) in Hrun; [congruence | lia | lia | lia].
Qed.

Lemma read_pdu_keeps_prefix (fuel : nat) (t t' : rdpTransport W)
    (s s' : STREAM) (sb ts st : Z) (k : nat) :
  transport_read_pdu fuel t s sb ts = Done (st, t', s') ->
  0 <= sb -> (k <= Z.to_nat sb)%nat ->
  firstn k (data s') = firstn k (data s).
Proof.
  unfold transport_read_pdu.
  destruct (transport_read_pdu_bytes (data s)) as [pdu msgs].
  destruct (transport_read_layer fuel (emit t msgs) (data s) sb (pdu - sb))
    as [[[st1 t1] d1] | |] eqn:Hrun; try discriminate.
  intros H Hsb Hk. unfold transport_read_layer in Hrun.
  apply (read_layer_loop_keeps_prefix _ _ _ _ _ _ _ _ _ _ k) in Hrun;
    [| lia | lia | lia].
  destruct (st1 <? 0); inversion H; subst; exact Hrun.
Qed.

(** [transport_read] stores at or after the position of the stream. *)
Lemma transport_read_keeps_prefix (fuel : nat) (t t' : rdpTransport W)
    (s s' : STREAM) (st : Z) :
  transport_read fuel t s = Done (st, t', s') -> 0 <= p s ->
  firstn (Z.to_nat (p s)) (data s') = firstn (Z.to_nat (p s)) (data s).
Proof.
  unfold transport_read, stream_get_length. intros H Hp.
  destruct (p s <? 4).
  - destruct (transport_read_layer fuel t (data s) (p s) (4 - p s))
      as [[[st1 t1] d1] | |] eqn:Hrun; try discriminate.
    unfold transport_read_layer in Hrun.
    apply (read_layer_loop_keeps_prefix _ _ _ _ _ _ _ _ _ _
             (Z.to_nat (p s))) in Hrun; [| lia | lia | lia].
    destruct (st1 <? 0) eqn:Hneg.
    { inversion H; subst. exact Hrun. }
    apply Z.ltb_ge in Hneg.
    destruct (st1 + p s <? 4).
    { inversion H; subst. exact Hrun. }
    apply (read_pdu_keeps_prefix _ _ _ _ _ _ _ _ (Z.to_nat (p s))) in H;
      [| lia | lia].
    cbn [with_data data] in H. congruence.
  - apply (read_pdu_keeps_prefix _ _ _ _ _ _ _ _ (Z.to_nat (p s))) in H;
      [exact H | lia | lia].
Qed.

(** X3. [transport_read_nonblocking] reads into the receive buffer of
    the transport itself.  Whatever it returns, an error included, the
    bytes the buffer held before its position are still there, the
    position has moved on by the count returned when that is positive
    and not at all otherwise, and 32 KiB of room follow the old
    position; the layer tag, the blocking flag, the nesting level, the
    tls flag and the sleep interval are as before, nothing was written
    and nothing was handed to the callback. *)
Theorem nonblocking_read_appends (fuel : nat) (t t' : rdpTransport W)
    (st : Z) :
  0 <= p (recv_buffer t) <= size (recv_buffer t) ->
  size (recv_buffer t) <= len (data (recv_buffer t)) ->
  transport_read_nonblocking fuel t = Done (st, t') ->
  (layer t' = layer t /\ blocking t' = blocking t /\ level t' = level t /\
   tls t' = tls t /\ usleep_interval t' = usleep_interval t) /\
  (exists evs,
      log t' = log t ++ evs /\ callbacks evs = [] /\
      write_statuses evs = []) /\
  p (recv_buffer t') = p (recv_buffer t) + Z.max 0 st /\
  firstn (Z.to_nat (p (recv_buffer t))) (data (recv_buffer t'))
  = held (recv_buffer t) /\
  p (recv_buffer t) + 32768 <= size (recv_buffer t') /\
  size (recv_buffer t') <= len (data (recv_buffer t')).
Proof.
  intros Hp Hcap.
  destruct (check_size_room (recv_buffer t) Hp Hcap)
    as (Cp & Cheld & Croom & Ccap).
  unfold transport_read_nonblocking.
  set (b := stream_check_size (recv_buffer t) (32 * 1024)) in *.
  destruct (transport_read fuel (set_recv_buffer t b) b)
    as [[[st1 t2] b1] | |] eqn:Hrun; try discriminate.
  pose proof (transport_read_keeps_prefix _ _ _ _ _ _ Hrun) as Hkeep.
  apply transport_read_untouched in Hrun.
  destruct Hrun as ((U1 & U2 & U3 & U4 & U5 & _ & evs & U6 & U7 & U8)
                    & Hpb & Hsb & Hlb).
  cbn [set_recv_buffer layer blocking level tls usleep_interval log]
    in U1, U2, U3, U4, U5, U6.
  rewrite Cp in Hkeep, Hpb. specialize (Hkeep (proj1 Hp)).
  unfold held in Cheld. rewrite Cp in Cheld. rewrite Cheld in Hkeep.
  intros H.
  destruct (st1 <=? 0) eqn:Hle; inversion H; subst st t';
    cbn [set_recv_buffer layer blocking level tls usleep_interval log
         recv_buffer stream_seek p size data].
  - apply Z.leb_le in Hle.
    split; [repeat split; assumption |].
    split; [exists evs; auto |].
    split; [lia |]. split; [exact Hkeep |]. split; lia.
  - apply Z.leb_gt in Hle.
    split; [repeat split; assumption |].
    split; [exists evs; auto |].
    split; [lia |]. split; [exact Hkeep |]. split; lia.
Qed.

End ReadFrames.

Lemma nonblocking_read_appends_witness :
  exists t',
    transport_read_nonblocking 1 (arrived [0x04; 0x04; 0x11; 0x22; 0x03])
    = Done (4, t') /\
    p (recv_buffer t') = 4 /\ level t' = 0.
Proof.
  set (t := arrived [0x04; 0x04; 0x11; 0x22; 0x03]).
  assert (H1 : pollable t)
    by (repeat split; [discriminate | reflexivity ..]).
  assert (H2 : 0 <= p (recv_buffer t) <= size (recv_buffer t))
    by (split; vm_compute; discriminate).
  assert (H3 : size (recv_buffer t) <= len (data (recv_buffer t)))
    by (vm_compute; discriminate).
  assert (H4 : dispatchable [0x04; 0x04; 0x11; 0x22] = true) by reflexivity.
  assert (H5 : p (recv_buffer t) < len [0x04; 0x04; 0x11; 0x22])
    by (vm_compute; reflexivity).
  assert (H6 : held (recv_buffer t) ++ rx (net t) ++ []
               = [0x04; 0x04; 0x11; 0x22] ++ [0x03]) by reflexivity.
  destruct (sock_read_nonblocking 0 t [0x04; 0x04; 0x11; 0x22] [0x03] []
              H1 H2 H3 H4 H5 H6) as (t' & Hrun & _).
  assert (Hst : Z.min (len [0x04; 0x04; 0x11; 0x22] - p (recv_buffer t))
                      (len (rx (net t))) = 4) by (vm_compute; reflexivity).
  rewrite Hst in Hrun.
  destruct (nonblocking_read_appends 1 t t' 4 H2 H3 Hrun)
    as ((_ & _ & Hl & _) & _ & Hp & _).
  exists t'. split; [exact Hrun |]. split; [exact Hp | exact Hl].
Defined.

(** ** The handler and the nesting level *)

Section Dispatch.

Context {W : Type} {E : Endpoint W}.

Lemma check_size_frame (b : STREAM) (n : Z) :
  p (stream_check_size b n) = p b.
Proof. unfold stream_check_size. destruct (p b + n >? size b); reflexivity. Qed.

(** [transport_read_nonblocking] leaves the transport alone but for the
    endpoints and the receive buffer, whose position it advances by the
    count it returns when that is positive. *)
Lemma read_nonblocking_frame (fuel : nat) (t t1 : rdpTransport W) (st : Z) :
  transport_read_nonblocking fuel t = Done (st, t1) ->
  layer t1 = layer t /\ blocking t1 = blocking t /\ level t1 = level t /\
  p (recv_buffer t1) = p (recv_buffer t) + Z.max 0 st /\
  exists evs,
    log t1 = log t ++ evs /\ callbacks evs = [] /\ write_statuses evs = [].
Proof.
  unfold transport_read_nonblocking.
  destruct (transport_read fuel
              (set_recv_buffer t (stream_check_size (recv_buffer t) (32 * 1024)))
              (stream_check_size (recv_buffer t) (32 * 1024)))
    as [[[st1 t2] b1] | |] eqn:Hrun; try discriminate.
  apply transport_read_untouched in Hrun.
  destruct Hrun as ((U1 & U2 & U3 & _ & _ & _ & evs & U4 & U5 & U6)
                    & Hp & _ & _).
  rewrite check_size_frame in Hp. cbn in U1, U2, U3, U4.
  intros H. destruct (st1 <=? 0) eqn:Hle; inversion H; subst; cbn.
  - apply Z.leb_le in Hle.
    repeat split; try assumption; [lia | exists evs; auto].
  - apply Z.leb_gt in Hle.
    repeat split; try assumption; [lia | exists evs; auto].
Qed.

Lemma dispatch_level (cb : recv_callback_t) (t1 : rdpTransport W)
    (b : STREAM) (pos st n : Z) :
  (forall x, level (snd (cb x)) = level x) ->
  level (snd (transport_check_fds_dispatch cb t1 b pos st n)) = level t1.
Proof.
  intros Hcb. unfold transport_check_fds_dispatch.
  destruct (n =? 0); [reflexivity |].
  destruct (pos <? n); [reflexivity |].
  match goal with
  | |- context [cb ?x] =>
      pose proof (Hcb x) as Hx; destruct (cb x) as [ok t2]
  end.
  cbn in *. lia.
Qed.

Lemma frame_level (cb : recv_callback_t) (t1 : rdpTransport W) (st : Z) :
  (forall x, level (snd (cb x)) = level x) ->
  level (snd (transport_check_fds_frame cb t1 st)) = level t1.
Proof.
  intros Hcb. unfold transport_check_fds_frame.
  destruct (stream_get_pos (recv_buffer t1) >? 0); [| reflexivity].
  destruct (tpkt_verify_header _).
  - destruct (_ <=? 4); [reflexivity |].
    destruct (tpkt_read_header _) as [n b1]. apply dispatch_level, Hcb.
  - destruct (_ <=? 2); [reflexivity |].
    destruct (_ <? fastpath_header_length _); [reflexivity |].
    destruct (fastpath_read_header _) as [n b1]. apply dispatch_level, Hcb.
Qed.

(** X5. With a handler that hands the transport back at the level it
    got it, [transport_check_fds] always leaves [level] as it found it,
    whether it dispatched, waited, met a protocol error, was refused as
    nested, or saw the handler fail: the guard is never left armed. *)
Theorem check_fds_restores_level (fuel : nat) (cb : recv_callback_t)
    (t t' : rdpTransport W) (st : Z) :
  (forall x, level (snd (cb x)) = level x) ->
  transport_check_fds fuel cb t = Done (st, t') ->
  level t' = level t.
Proof.
  intros Hcb. unfold transport_check_fds.
  destruct (negb (level t =? 0)).
  { intros H; inversion H; subst. reflexivity. }
  destruct (transport_read_nonblocking fuel t) as [[st1 t1] | |] eqn:Hrun;
    try discriminate.
  apply read_nonblocking_frame in Hrun. destruct Hrun as (_ & _ & Hl & _).
  destruct (st1 <? 0).
  { intros H; inversion H; subst. exact Hl. }
  intros H. inversion H as [Hf]. rewrite <- Hl.
  replace t' with (snd (transport_check_fds_frame cb t1 st1))
    by (rewrite Hf; reflexivity).
  apply frame_level, Hcb.
Qed.

Lemma dispatch_ext (cb cb' : recv_callback_t) (t1 : rdpTransport W)
    (b : STREAM) (pos st n : Z) :
  level t1 = 0 ->
  (forall x, level x = 1 -> p (recv_buffer x) = 0 ->
             size (recv_buffer x) <> 0 -> cb x = cb' x) ->
  transport_check_fds_dispatch cb t1 b pos st n
  = transport_check_fds_dispatch cb' t1 b pos st n.
Proof.
  intros Hl Hext. unfold transport_check_fds_dispatch.
  destruct (n =? 0) eqn:Hn; [reflexivity |].
  destruct (pos <? n); [reflexivity |].
  apply Z.eqb_neq in Hn.
  rewrite Hext; [reflexivity | cbn; lia | reflexivity | exact Hn].
Qed.

(** X4. [transport_check_fds] calls the handler only on a transport
    whose [level] is 1 (the guard is armed) and whose receive buffer is
    rewound to position 0 and sealed at a non-zero length: handlers that
    agree on such transports make it behave the same. *)
Theorem handler_is_entered_armed (fuel : nat) (cb cb' : recv_callback_t)
    (t : rdpTransport W) :
  level t = 0 ->
  (forall x, level x = 1 -> p (recv_buffer x) = 0 ->
             size (recv_buffer x) <> 0 -> cb x = cb' x) ->
  transport_check_fds fuel cb t = transport_check_fds fuel cb' t.
Proof.
  intros Hl Hext. unfold transport_check_fds.
  destruct (negb (level t =? 0)); [reflexivity |].
  destruct (transport_read_nonblocking fuel t) as [[st1 t1] | |] eqn:Hrun;
    try reflexivity.
  apply read_nonblocking_frame in Hrun. destruct Hrun as (_ & _ & Hl1 & _).
  destruct (st1 <? 0); [reflexivity |]. f_equal.
  unfold transport_check_fds_frame.
  destruct (stream_get_pos (recv_buffer t1) >? 0); [| reflexivity].
  destruct (tpkt_verify_header _).
  - destruct (_ <=? 4); [reflexivity |].
    destruct (tpkt_read_header _) as [n b1].
    apply dispatch_ext; [congruence | exact Hext].
  - destruct (_ <=? 2); [reflexivity |].
    destruct (_ <? fastpath_header_length _); [reflexivity |].
    destruct (fastpath_read_header _) as [n b1].
    apply dispatch_ext; [congruence | exact Hext].
Qed.

End Dispatch.

Lemma returns_eq (o : outcome (Z * rdpTransport Sock)) (st : Z)
    (t : rdpTransport Sock) :
  returns o st t = true -> o = Done (st, t).
Proof.
  destruct o as [[st' t'] | |]; cbn; try discriminate.
  intros H. apply andb_true_iff in H. destruct H as [H1 H2].
  apply Z.eqb_eq in H1. destruct (transport_eq_dec t' t); [| discriminate].
  congruence.
Qed.

Lemma check_fds_restores_level_witness :
  (forall x, level (snd (consume (fun _ => false) x)) = level x) /\
  level (landed (transport_check_fds 1 (consume (fun _ => false))
                   (arrived [0x04; 0x04; 0x11; 0x22]))) = 0 /\
  poll_report (transport_check_fds 1 (consume (fun _ => false))
                 (arrived [0x04; 0x04; 0x11; 0x22]))
  = Some (-1, [], [[0x04; 0x04; 0x11; 0x22]]).
Proof.
  assert (Hcb : forall x, level (snd (consume (fun _ => false) x)) = level x)
    by (intros x; reflexivity).
  assert (Hrun : transport_check_fds 1 (consume (fun _ => false))
                   (arrived [0x04; 0x04; 0x11; 0x22])
                 = Done (-1, landed (transport_check_fds 1
                                       (consume (fun _ => false))
                                       (arrived [0x04; 0x04; 0x11; 0x22]))))
    by (apply returns_eq; vm_compute; reflexivity).
  split; [exact Hcb |]. split; [| vm_compute; reflexivity].
  rewrite (check_fds_restores_level 1 _ _ _ (-1) Hcb Hrun).
  reflexivity.
Defined.

Lemma handler_is_entered_armed_witness :
  level (arrived [0x04; 0x04; 0x11; 0x22]) = 0 /\
  (forall x, level x = 1 -> p (recv_buffer x) = 0 ->
             size (recv_buffer x) <> 0 ->
             consume (fun _ => true) x = guarded (consume (fun _ => true)) x)
  /\
  transport_check_fds 1 (consume (fun _ => true))
    (arrived [0x04; 0x04; 0x11; 0x22])
  = transport_check_fds 1 (guarded (consume (fun _ => true)))
      (arrived [0x04; 0x04; 0x11; 0x22]).
Proof.
  assert (Hl : level (arrived [0x04; 0x04; 0x11; 0x22]) = 0) by reflexivity.
  assert (Hext : forall x, level x = 1 -> p (recv_buffer x) = 0 ->
                           size (recv_buffer x) <> 0 ->
                           consume (fun _ => true) x
                           = guarded (consume (fun _ => true)) x).
  { intros x Hx _ _. unfold guarded. rewrite Hx. reflexivity. }
  split; [exact Hl |]. split; [exact Hext |].
  exact (handler_is_entered_armed 1 _ _ _ Hl Hext).
Defined.

(** ** More of the dispatch loop on a socket *)

(** A read of a socket whose peer is gone and which holds nothing. *)
Lemma sock_read_layer_gone (fuel : nat) (t : rdpTransport Sock) (d : list Z)
    (off n : Z) :
  layer t <> TRANSPORT_LAYER_CLOSED -> peer_up (net t) = false ->
  rx (net t) = [] -> 0 < n ->
  transport_read_layer (S fuel) t d off n
  = Done (-1, emit t [EvRead (layer t) n (-1)], d).
Proof.
  intros Hopen Hup Hrx Hn.
  destruct (layer_read_open t (-1) n Hopen)
    as (st & bs & w & Hrd & Htcp & Htls).
  assert (Hs : sock_read (net t) n = (st, bs, w)).
  { destruct (layer t); [apply Htcp | apply Htls | congruence]; reflexivity. }
  unfold sock_read in Hs. rewrite Hrx, Hup in Hs.
  inversion Hs; subst st bs w. clear Hs.
  unfold transport_read_layer. cbn [transport_read_layer_loop].
  replace (0 <? n) with true by (symmetry; apply Z.ltb_lt; exact Hn).
  rewrite Z.sub_0_r, Hrd. cbn [poke].
  assert (Ht : emit (set_net t (net t)) [EvRead (layer t) n (-1)]
               = emit t [EvRead (layer t) n (-1)])
    by (destruct t; reflexivity).
  rewrite Ht.
  destruct (negb (blocking (emit t [EvRead (layer t) n (-1)])));
    reflexivity.
Qed.

(** X6. With the peer gone and no byte pending, a
    [transport_check_fds] that still needs header bytes returns -1
    without calling the handler, in either mode, and leaves the layer
    open and the receive buffer where it was: a failed read does not
    close the layer as a failed write does, so the next call finds the
    same situation and fails the same way. *)
Theorem lost_peer_fails_every_poll (fuel : nat)
    (cb : rdpTransport Sock -> bool * rdpTransport Sock)
    (t : rdpTransport Sock) :
  level t = 0 -> layer t <> TRANSPORT_LAYER_CLOSED ->
  peer_up (net t) = false -> rx (net t) = [] ->
  p (recv_buffer t) < 4 ->
  exists t',
    transport_check_fds (S fuel) cb t = Done (-1, t') /\
    (level t' = 0 /\ layer t' = layer t /\ peer_up (net t') = false /\
     rx (net t') = [] /\ p (recv_buffer t') = p (recv_buffer t)) /\
    blocking t' = blocking t /\
    callbacks (log t') = callbacks (log t) /\
    write_statuses (log t') = write_statuses (log t).
Proof.
  intros Hlevel Hopen Hup Hrx Hp.
  unfold transport_check_fds. rewrite Hlevel.
  change (negb (0 =? 0)) with false. cbv iota.
  unfold transport_read_nonblocking, transport_read, stream_get_length.
  set (b := stream_check_size (recv_buffer t) (32 * 1024)).
  assert (Hpb : p b = p (recv_buffer t))
    by (unfold b, stream_check_size;
        destruct (p (recv_buffer t) + 32 * 1024 >? size (recv_buffer t));
        reflexivity).
  rewrite Hpb.
  replace (p (recv_buffer t) <? 4) with true
    by (symmetry; apply Z.ltb_lt; exact Hp).
  rewrite (sock_read_layer_gone fuel (set_recv_buffer t b)) by
    (try assumption; lia).
  change (-1 <? 0) with true. change (-1 <=? 0) with true. cbv iota.
  eexists. split; [reflexivity |].
  cbn [emit set_recv_buffer with_data level layer net recv_buffer blocking
       log p size data].
  rewrite callbacks_app, write_statuses_app. cbn [callbacks write_statuses
    flat_map app].
  rewrite !app_nil_r. repeat split; try assumption; reflexivity.
Qed.

Lemma lost_peer_fails_every_poll_witness :
  exists t',
    transport_check_fds 1 (consume (fun _ => true))
      (set_net session0 (mkSock [] [] false true))
    = Done (-1, t') /\
    layer t' = TRANSPORT_LAYER_TCP.
Proof.
  assert (H1 : level (set_net session0 (mkSock [] [] false true)) = 0)
    by reflexivity.
  assert (H2 : layer (set_net session0 (mkSock [] [] false true))
               <> TRANSPORT_LAYER_CLOSED) by discriminate.
  assert (H3 : peer_up (net (set_net session0 (mkSock [] [] false true)))
               = false) by reflexivity.
  assert (H4 : rx (net (set_net session0 (mkSock [] [] false true))) = [])
    by reflexivity.
  assert (H5 : p (recv_buffer (set_net session0 (mkSock [] [] false true)))
               < 4) by (vm_compute; reflexivity).
  destruct (lost_peer_fails_every_poll 0 (consume (fun _ => true)) _
              H1 H2 H3 H4 H5) as (t' & Hrun & (_ & Hl & _) & _).
  exists t'. split; [exact Hrun | exact Hl].
Defined.

(** A blocking [transport_read_layer] on a socket that already holds
    what is asked for: one read, no waiting. *)
Lemma sock_read_layer_blocking (fuel : nat) (t : rdpTransport Sock)
    (d : list Z) (off n : Z) :
  layer t <> TRANSPORT_LAYER_CLOSED -> blocking t = true ->
  peer_up (net t) = true ->
  0 < n <= len (rx (net t)) -> 0 <= off -> off + n <= len d ->
  exists t1 d1,
    transport_read_layer (S fuel) t d off n = Done (n, t1, d1) /\
    len d1 = len d /\
    firstn (Z.to_nat (off + n)) d1
    = firstn (Z.to_nat off) d ++ firstn (Z.to_nat n) (rx (net t)) /\
    rx (net t1) = skipn (Z.to_nat n) (rx (net t)) /\
    layer t1 = layer t /\ blocking t1 = true /\ peer_up (net t1) = true.
Proof.
  intros Hopen Hblk Hup Hn Hoff Hfit.
  destruct (layer_read_open t (-1) n Hopen)
    as (st & bs & w & Hrd & Htcp & Htls).
  assert (Hs : sock_read (net t) n = (st, bs, w)).
  { destruct (layer t); [apply Htcp | apply Htls | congruence]; reflexivity. }
  destruct (sock_read_up (net t) n Hup) as (w' & Hs' & Hrx & Hup').
  rewrite Hs in Hs'. inversion Hs'; subst st bs w'. clear Hs'.
  assert (Hm : len (firstn (Z.to_nat n) (rx (net t))) = n)
    by (rewrite len_firstn by lia; lia).
  destruct (poke_inside d off (firstn (Z.to_nat n) (rx (net t))) Hoff)
    as (d1 & Hpoke & Hlen & Hfirst); [lia |].
  rewrite Hm in *.
  exists (emit (set_net t w) [EvRead (layer t) n n]), d1.
  split; [| repeat split; assumption].
  unfold transport_read_layer. cbn [transport_read_layer_loop].
  replace (0 <? n) with true by (symmetry; apply Z.ltb_lt; lia).
  rewrite Z.sub_0_r, Z.add_0_r, Hrd, Hpoke.
  replace (blocking (emit (set_net t w) [EvRead (layer t) n n]))
    with true by (symmetry; exact Hblk).
  cbn [negb].
  replace (n <? 0) with false by (symmetry; apply Z.ltb_ge; lia).
  replace (n =? 0) with false by (symmetry; apply Z.eqb_neq; lia).
  destruct fuel; cbn [transport_read_layer_loop];
    replace (0 + n <? n) with false by (symmetry; apply Z.ltb_ge; lia);
    rewrite Z.add_0_l; reflexivity.
Qed.

Lemma low_byte_bit7 (b : Z) : 0 <= b < 128 -> Z.land b 0x80 = 0.
Proof.
  intros Hb.
  assert (G : implb (b <? 128) (Z.land b 0x80 =? 0) = true).
  { apply (byte_cases (fun b => implb (b <? 128) (Z.land b 0x80 =? 0)));
      [vm_compute; reflexivity | lia]. }
  replace (b <? 128) with true in G by (symmetry; apply Z.ltb_lt; lia).
  apply Z.eqb_eq. exact G.
Qed.

(** On a complete PDU of any of the three framings the recognizer of
    [transport_read] finds the PDU's own length and prints nothing. *)
Lemma pdu_bytes_complete (u : list Z) :
  complete_pdu u = true -> transport_read_pdu_bytes u = (len u, []).
Proof.
  unfold complete_pdu. intros H.
  apply andb_true_iff in H. destruct H as [Hb H].
  pose proof (byte_at_range u 1 Hb) as R1.
  pose proof (byte_at_range u 2 Hb) as R2.
  pose proof (byte_at_range u 3 Hb) as R3.
  unfold transport_read_pdu_bytes.
  change 0x03 with 3 in *. destruct (byte_at u 0 =? 3).
  - repeat (apply andb_true_iff in H; destruct H as [H ?]).
    match goal with G : (len u =? tpkt_length u) = true |- _ =>
      apply Z.eqb_eq in G; rewrite G end.
    unfold tpkt_length. rewrite lor_shiftl8 by lia. reflexivity.
  - destruct (byte_at u 0 =? 0x30).
    + unfold tsrequest_length in H.
      destruct (byte_at u 1 <? 0x80) eqn:Hlow.
      * apply Z.ltb_lt in Hlow.
        apply andb_true_iff in H. destruct H as [_ H].
        apply Z.eqb_eq in H. rewrite H.
        rewrite low_byte_bit7 by lia. reflexivity.
      * destruct (byte_at u 1 =? 0x81) eqn:H81.
        { apply Z.eqb_eq in H81. rewrite H81.
          apply andb_true_iff in H. destruct H as [_ H].
          apply Z.eqb_eq in H. rewrite H. reflexivity. }
        destruct (byte_at u 1 =? 0x82) eqn:H82; [| discriminate].
        apply Z.eqb_eq in H82. rewrite H82.
        apply andb_true_iff in H. destruct H as [_ H].
        apply Z.eqb_eq in H. rewrite H.
        change (negb (Z.land 0x82 0x80 =? 0)) with true.
        change (Z.land 0x82 (Z.lnot 0x80) =? 1) with false.
        change (Z.land 0x82 (Z.lnot 0x80) =? 2) with true.
        cbv iota. rewrite lor_shiftl8 by lia. reflexivity.
    + apply andb_true_iff in H. destruct H as [_ H].
      apply Z.eqb_eq in H. rewrite H.
      unfold fastpath_length.
      destruct (Z.testbit (byte_at u 1) 7) eqn:H7.
      * destruct (bit7_set _ R1 H7) as (Hnz & _ & _ & H7f & _).
        apply Z.eqb_neq in Hnz. rewrite Hnz. cbn [negb].
        rewrite H7f, lor_shiftl8; [reflexivity | | lia].
        pose proof (Z.mod_pos_bound (byte_at u 1) 128). lia.
      * destruct (bit7_clear _ R1 H7) as [Hz _]. rewrite Hz. reflexivity.
Qed.

(** A chunk of the byte stream moves from the socket to the buffer, in
    blocking mode, the socket holding the whole chunk. *)
Lemma sock_read_chunk_blocking (fuel : nat) (t : rdpTransport Sock)
    (d : list Z) (pos n : Z) (whole : list Z) :
  layer t <> TRANSPORT_LAYER_CLOSED -> blocking t = true ->
  peer_up (net t) = true ->
  0 < n -> 0 <= pos -> pos + n <= len d ->
  firstn (Z.to_nat pos) d ++ rx (net t) = whole -> pos + n <= len whole ->
  exists t1 d1,
    transport_read_layer (S fuel) t d pos n = Done (n, t1, d1) /\
    len d1 = len d /\
    firstn (Z.to_nat (pos + n)) d1 ++ rx (net t1) = whole /\
    layer t1 = layer t /\ blocking t1 = true /\ peer_up (net t1) = true.
Proof.
  intros Hopen Hblk Hup Hn Hpos Hfit Hwhole Hhas.
  assert (Hrx : n <= len (rx (net t))).
  { rewrite <- Hwhole, len_app, len_firstn in Hhas by lia. lia. }
  destruct (sock_read_layer_blocking fuel t d pos n Hopen Hblk Hup)
    as (t1 & d1 & Hrun & Hlen & Hfirst & Hrest & Hl & Hb & Hu);
    [lia | lia | lia |].
  exists t1, d1. repeat split; try assumption.
  rewrite Hfirst, Hrest, <- app_assoc, firstn_skipn. exact Hwhole.
Qed.

(** The body read of [transport_read] in blocking mode. *)
Lemma sock_read_pdu_blocking (fuel : nat) (t : rdpTransport Sock)
    (s : STREAM) (u tail : list Z) (sb ts : Z) :
  layer t <> TRANSPORT_LAYER_CLOSED -> blocking t = true ->
  peer_up (net t) = true ->
  complete_pdu u = true ->
  4 <= sb <= len u -> len u <= len (data s) ->
  firstn (Z.to_nat sb) (data s) ++ rx (net t) = u ++ tail ->
  exists t1 d1,
    transport_read_pdu (S fuel) t s sb ts
    = Done (ts + (len u - sb), t1, with_data s d1) /\
    len d1 = len (data s) /\
    firstn (Z.to_nat (len u)) d1 ++ rx (net t1) = u ++ tail /\
    layer t1 = layer t /\ blocking t1 = true /\ peer_up (net t1) = true.
Proof.
  intros Hopen Hblk Hup Hu Hsb Hcap Hwhole.
  assert (Hhdr : transport_read_pdu_bytes (data s) = (len u, [])).
  { rewrite (pdu_bytes_of_header (data s) u).
    - apply pdu_bytes_complete, Hu.
    - apply (prefix_agree sb 4 _ _ _ _ Hwhole); lia. }
  unfold transport_read_pdu. rewrite Hhdr. cbn [emit].
  destruct (Z.eq_dec sb (len u)) as [Hfull | Hpart].
  - rewrite read_layer_nothing_asked by lia.
    exists t, (data s). cbn [Z.ltb Z.compare].
    replace (len u - sb) with 0 by lia.
    split; [reflexivity |]. split; [reflexivity |].
    rewrite <- Hfull. repeat split; assumption.
  - pose proof (len_nonneg tail) as Htail.
    destruct (sock_read_chunk_blocking fuel t (data s) sb (len u - sb)
                (u ++ tail) Hopen Hblk Hup)
      as (t1 & d1 & Hrun & Hlen & Hw & Hrest);
      [lia | lia | lia | exact Hwhole | rewrite len_app; lia |].
    exists t1, d1. rewrite Hrun.
    replace (len u - sb <? 0) with false by (symmetry; apply Z.ltb_ge; lia).
    replace (sb + (len u - sb)) with (len u) in Hw by lia.
    auto.
Qed.

(** X7. A blocking [transport_read] takes exactly one PDU off the
    socket. The stream holds the first [p s] bytes of a complete PDU [u]
    (TPKT, Fast-Path or TSRequest, of at least 4 bytes) and the socket
    the rest of [u] followed by [tail]: the call returns the number of
    bytes it added, [len u - p s], the buffer then begins with [u], and
    [tail] is still unread in the socket. *)
Theorem blocking_read_takes_one_pdu (fuel : nat) (t : rdpTransport Sock)
    (s : STREAM) (u tail : list Z) :
  layer t <> TRANSPORT_LAYER_CLOSED -> blocking t = true ->
  peer_up (net t) = true ->
  complete_pdu u = true -> 4 <= len u ->
  0 <= p s <= len u -> len u <= len (data s) ->
  held s ++ rx (net t) = u ++ tail ->
  exists t' d',
    transport_read (S fuel) t s = Done (len u - p s, t', with_data s d') /\
    firstn (Z.to_nat (len u)) d' = u /\ len d' = len (data s) /\
    rx (net t') = tail /\ layer t' = layer t.
Proof.
  intros Hopen Hblk Hup Hu Hmin Hpos Hcap Hwhole. unfold held in Hwhole.
  pose proof (len_nonneg tail) as Htail.
  assert (Hend : forall (t' : rdpTransport Sock) d',
             len d' = len (data s) ->
             firstn (Z.to_nat (len u)) d' ++ rx (net t') = u ++ tail ->
             firstn (Z.to_nat (len u)) d' = u /\ rx (net t') = tail).
  { intros t' d' Hlen He. apply app_same_length; [| exact He].
    rewrite length_firstn. unfold len in *. lia. }
  unfold transport_read, stream_get_length.
  destruct (p s <? 4) eqn:Hshort.
  - apply Z.ltb_lt in Hshort.
    destruct (sock_read_chunk_blocking fuel t (data s) (p s) (4 - p s)
                (u ++ tail) Hopen Hblk Hup)
      as (t1 & d1 & Hrun & Hlen & Hw & Hl1 & Hb1 & Hu1);
      [lia | lia | lia | exact Hwhole | rewrite len_app; lia |].
    rewrite Hrun.
    replace (4 - p s <? 0) with false by (symmetry; apply Z.ltb_ge; lia).
    replace (4 - p s + p s <? 4) with false
      by (symmetry; apply Z.ltb_ge; lia).
    replace (p s + (4 - p s)) with 4 in * by lia.
    destruct (sock_read_pdu_blocking fuel t1 (with_data s d1) u tail 4
                (0 + (4 - p s)))
      as (t2 & d2 & Hrun2 & Hlen2 & Hw2 & Hl2 & _);
      [congruence | exact Hb1 | exact Hu1 | exact Hu | lia
      | cbn [with_data data]; lia | cbn [with_data data]; exact Hw |].
    rewrite Hrun2. cbn [with_data data size p] in *.
    replace (0 + (4 - p s) + (len u - 4)) with (len u - p s) by lia.
    exists t2, d2. split; [reflexivity |].
    destruct (Hend t2 d2) as [E1 E2]; [congruence | exact Hw2 |].
    repeat split; congruence.
  - apply Z.ltb_ge in Hshort.
    destruct (sock_read_pdu_blocking fuel t s u tail (p s) 0)
      as (t1 & d1 & Hrun & Hlen & Hw & Hl1 & _); try assumption; [lia |].
    rewrite Hrun, Z.add_0_l. exists t1, d1. split; [reflexivity |].
    destruct (Hend t1 d1 Hlen Hw) as [E1 E2].
    repeat split; assumption.
Qed.

(** X8. One [transport_check_fds] on a session whose buffer and socket
    together hold the whole of a dispatchable PDU [u], followed by
    [tail], with any handler that keeps the session going.  The call
    takes the rest of [u] and nothing of [tail] off the socket and hands
    [u] to the handler once: the handler gets the transport at level 1,
    its receive buffer sealed at the length of [u] and rewound, its
    socket holding [tail].  The call returns 0 if the handler accepts
    and -1 if it refuses, and in both cases, wherever the handler left
    the stream, the receive buffer is back at position 0 and the level
    at 0. *)
Theorem whole_pdu_is_taken_alone (fuel : nat)
    (cb : rdpTransport Sock -> bool * rdpTransport Sock)
    (t : rdpTransport Sock) (u tail : list Z) :
  keeps_session cb ->
  pollable t ->
  0 <= p (recv_buffer t) <= size (recv_buffer t) ->
  size (recv_buffer t) <= len (data (recv_buffer t)) ->
  dispatchable u = true -> p (recv_buffer t) < len u ->
  held (recv_buffer t) ++ rx (net t) = u ++ tail ->
  exists x t',
    (level x = 1 /\ p (recv_buffer x) = 0 /\
     size (recv_buffer x) = len u /\ sealed_bytes (recv_buffer x) = u /\
     rx (net x) = tail) /\
    transport_check_fds (S fuel) cb t
    = Done ((if fst (cb x) then 0 else -1), t') /\
    callbacks (log t') = callbacks (log t) ++ [u] /\
    rx (net t') = tail /\ p (recv_buffer t') = 0 /\ level t' = 0 /\
    layer t' <> TRANSPORT_LAYER_CLOSED.
Proof.
  intros Hcb Hpoll Hp Hcap Hu Hfirst Hwhole.
  pose proof (len_nonneg (rx (net t))) as Hrx.
  pose proof (len_nonneg tail) as Htail.
  pose proof (dispatchable_size u Hu) as Hsize.
  assert (Hhas : len u - p (recv_buffer t) <= len (rx (net t))).
  { assert (E : len (held (recv_buffer t) ++ rx (net t)) = len (u ++ tail))
      by (rewrite Hwhole; reflexivity).
    rewrite !len_app in E. unfold held in E.
    rewrite len_firstn in E by lia. lia. }
  assert (Hwhole' : held (recv_buffer t) ++ rx (net t) ++ [] = u ++ tail)
    by (rewrite app_nil_r; exact Hwhole).
  destruct (sock_read_nonblocking fuel t u tail [] Hpoll Hp Hcap Hu Hfirst
              Hwhole')
    as (t1 & Hrun & Hpoll1 & Hcb1 & Hrx1 & Hp1 & Hsz1 & Hcap1 & Hw1).
  replace (Z.min (len u - p (recv_buffer t)) (len (rx (net t))))
    with (len u - p (recv_buffer t)) in * by lia.
  set (m := len u - p (recv_buffer t)) in *.
  destruct Hpoll as (Hopen & Hnb & Hlevel & Hup).
  destruct Hpoll1 as (Hopen1 & Hnb1 & Hlevel1 & Hup1).
  assert (Hfull : p (recv_buffer t1) = len u) by (subst m; lia).
  destruct (frame_decision cb t1 m u (rx (net t1) ++ []) tail Hu)
    as [_ Hgive]; [lia | lia | exact Hw1 |].
  assert (Hall : held (recv_buffer t1) = u /\ rx (net t1) ++ [] = tail).
  { apply app_same_length; [| exact Hw1].
    unfold held. rewrite length_firstn. unfold len in *. lia. }
  destruct Hall as [Hheld Hrest]. rewrite app_nil_r in Hrest.
  destruct (handed_frame t1 u) as (X1 & X2 & X3 & X4 & X5 & X6).
  destruct (Hcb (handed t1 u)) as (K1 & K2 & K3 & K4 & K5 & K6 & K7).
  destruct (resumed_frame (snd (cb (handed t1 u))))
    as (R1 & R2 & R3 & R4 & R5 & R6).
  exists (handed t1 u), (resumed (snd (cb (handed t1 u)))).
  split; [| split].
  - rewrite X3, X4, X5. unfold sealed_bytes. cbn [size p data].
    unfold held in Hheld. rewrite Hfull in Hheld.
    repeat split; try assumption; lia.
  - unfold transport_check_fds. rewrite Hlevel.
    change (negb (0 =? 0)) with false. cbv iota. rewrite Hrun.
    replace (m <? 0) with false by (symmetry; apply Z.ltb_ge; subst m; lia).
    rewrite Hgive by (subst m; lia). reflexivity.
  - rewrite R1, R3, R4, R5, R6. cbn [p].
    rewrite K3, K4, K7, X3, X4, X6, callbacks_app, Hcb1.
    repeat split; try assumption; try reflexivity; try lia.
    apply K1. rewrite X1. exact Hopen1.
Qed.

(** X9. A frame that opens with a byte other than 3 followed by a zero
    length byte is a protocol error: [transport_check_fds] takes its
    first four bytes off the socket, prints the error, dumps those four
    bytes, returns -1 and never calls the handler, whatever the handler
    is; what followed the four bytes stays in the socket and the layer
    stays open. *)
Theorem zero_length_frame_is_protocol_error (fuel : nat)
    (cb : rdpTransport Sock -> bool * rdpTransport Sock)
    (t : rdpTransport Sock) (b0 b2 b3 : Z) (tail : list Z) :
  pollable t ->
  p (recv_buffer t) = 0 -> 0 <= size (recv_buffer t) ->
  size (recv_buffer t) <= len (data (recv_buffer t)) ->
  b0 <> 3 -> rx (net t) = b0 :: 0 :: b2 :: b3 :: tail ->
  exists t',
    transport_check_fds (S fuel) cb t = Done (-1, t') /\
    callbacks (log t') = callbacks (log t) /\
    rx (net t') = tail /\ layer t' = layer t /\ level t' = 0 /\
    exists evs,
      log t' = log t ++ evs ++
        [EvPrintf "transport_check_fds: protocol error, not a TPKT or Fast Path header."%string;
         EvHexdump [b0; 0; b2; b3]].
Proof.
  intros (Hopen & Hnb & Hlevel & Hup) Hp0 Hsz Hcap Hb0 Hrx.
  pose proof (len_nonneg tail) as Htail.
  destruct (check_size_room (recv_buffer t)) as (Cp & _ & Croom & Ccap);
    [lia | exact Hcap |].
  unfold transport_check_fds. rewrite Hlevel.
  change (negb (0 =? 0)) with false. cbv iota.
  unfold transport_read_nonblocking.
  set (b := stream_check_size (recv_buffer t) (32 * 1024)) in *.
  unfold transport_read, stream_get_length. rewrite Cp, Hp0.
  change (0 <? 4) with true. change (4 - 0) with 4. cbv iota.
  destruct (sock_read_chunk fuel (set_recv_buffer t b) (data b) 0 4 []
              (rx (net t)))
    as (t1 & d1 & Hrun & Hlen & Hw & Hf);
    [exact Hopen | exact Hnb | exact Hup | lia | lia | lia
    | cbn [set_recv_buffer net Z.to_nat firstn app]; apply app_nil_r |].
  cbn [set_recv_buffer net] in Hrun, Hw, Hf.
  assert (Hfour : Z.min 4 (len (rx (net t))) = 4).
  { rewrite Hrx. unfold len in *. cbn [length]. lia. }
  rewrite Hfour in Hrun, Hw, Hf. rewrite Hrun.
  change (4 <? 0) with false. change (4 + 0 <? 4) with false. cbv iota.
  assert (Hhead : firstn 4 d1 = [b0; 0; b2; b3]).
  { rewrite Hrx in Hw.
    change (Z.to_nat (0 + 4)) with 4%nat in Hw.
    change (Z.to_nat 4) with 4%nat in Hw.
    cbn [skipn] in Hw. rewrite app_nil_r in Hw.
    change (b0 :: 0 :: b2 :: b3 :: tail)
      with ([b0; 0; b2; b3] ++ tail) in Hw.
    apply (app_same_length _ _ _ _ _) in Hw; [tauto |].
    rewrite length_firstn. unfold len in *. cbn [length]. lia. }
  assert (B0 : byte_at d1 0 = b0)
    by (apply (byte_at_firstn 4 0 d1 [b0; 0; b2; b3]); [exact Hhead | lia]).
  assert (B1 : byte_at d1 1 = 0)
    by (apply (byte_at_firstn 4 1 d1 [b0; 0; b2; b3]); [exact Hhead | lia]).
  assert (Hpdu : exists n, transport_read_pdu_bytes d1 = (n, []) /\ n <= 2).
  { unfold transport_read_pdu_bytes. rewrite B0, B1.
    replace (b0 =? 3) with false by (symmetry; apply Z.eqb_neq; exact Hb0).
    change (negb (Z.land 0 128 =? 0)) with false.
    destruct (b0 =? 48); cbv iota; eexists; (split; [reflexivity | lia]). }
  destruct Hpdu as (n & Hpdu & Hn).
  unfold transport_read_pdu. cbn [with_data data]. rewrite Hpdu.
  cbn [emit]. rewrite read_layer_nothing_asked by lia.
  change (0 <? 0) with false. cbv iota.
  change (0 + 4 + 0 <=? 0) with false. cbv iota.
  change (0 + 4 + 0 <? 0) with false. cbv iota.
  destruct Hf as (F1 & F2 & F3 & F4 & F5 & F6 & F7).
  cbn [set_recv_buffer layer blocking level recv_buffer net log] in *.
  unfold transport_check_fds_frame, stream_get_pos, stream_seek, with_data.
  cbn [set_recv_buffer recv_buffer p size data].
  rewrite Cp, Hp0. change (0 + (0 + 4 + 0) >? 0) with true.
  change (0 + (0 + 4 + 0) <=? 2) with false. cbv iota.
  unfold tpkt_verify_header, fastpath_header_length, fastpath_read_header,
    stream_peek_uint8, stream_seek, stream_set_pos.
  cbn [p size data].
  change (Z.to_nat 0) with 0%nat. change (Z.to_nat (0 + 1)) with 1%nat.
  fold (byte_at d1 0). fold (byte_at d1 1). rewrite B0, B1.
  replace (b0 =? 3) with false by (symmetry; apply Z.eqb_neq; exact Hb0).
  change (Z.testbit 0 7) with false. cbv iota.
  change (0 + (0 + 4 + 0) <? 2) with false. cbv iota.
  unfold transport_check_fds_dispatch.
  change (0 =? 0) with true. cbv iota.
  cbn [data]. change (Z.to_nat (0 + (0 + 4 + 0))) with 4%nat.
  rewrite Hhead.
  eexists. split; [reflexivity |].
  unfold emit, set_recv_buffer.
  cbn [log net layer level recv_buffer].
  rewrite callbacks_app. cbn [callbacks flat_map app].
  rewrite app_nil_r, F7, F6, Hrx.
  repeat split; try assumption.
  - rewrite F3. exact Hlevel.
  - clear - Hrun. unfold transport_read_layer in Hrun.
    destruct (read_layer_loop_untouched _ _ _ _ _ _ _ _ _ _ Hrun)
      as ((_ & _ & _ & _ & _ & _ & evs & Hlog & _) & _).
    exists evs. cbn [set_recv_buffer log] in Hlog. rewrite Hlog.
    rewrite <- app_assoc. reflexivity.
Qed.

Lemma blocking_read_takes_one_pdu_witness :
  exists t' d',
    transport_read 1
      (snd (transport_set_blocking_mode
              (arrived [0x30; 0x02; 0xAA; 0xBB; 0x99]) true))
      (stream_new 8)
    = Done (4, t', with_data (stream_new 8) d') /\
    firstn 4 d' = [0x30; 0x02; 0xAA; 0xBB] /\ rx (net t') = [0x99].
Proof.
  set (t := snd (transport_set_blocking_mode
                   (arrived [0x30; 0x02; 0xAA; 0xBB; 0x99]) true)).
  assert (H1 : layer t <> TRANSPORT_LAYER_CLOSED) by discriminate.
  assert (H2 : blocking t = true) by reflexivity.
  assert (H3 : peer_up (net t) = true) by reflexivity.
  assert (H4 : complete_pdu [0x30; 0x02; 0xAA; 0xBB] = true) by reflexivity.
  assert (H5 : 4 <= len [0x30; 0x02; 0xAA; 0xBB])
    by (vm_compute; discriminate).
  assert (H6 : 0 <= p (stream_new 8) <= len [0x30; 0x02; 0xAA; 0xBB])
    by (split; vm_compute; discriminate).
  assert (H7 : len [0x30; 0x02; 0xAA; 0xBB] <= len (data (stream_new 8)))
    by (vm_compute; discriminate).
  assert (H8 : held (stream_new 8) ++ rx (net t)
               = [0x30; 0x02; 0xAA; 0xBB] ++ [0x99]) by reflexivity.
  destruct (blocking_read_takes_one_pdu 0 t (stream_new 8)
              [0x30; 0x02; 0xAA; 0xBB] [0x99] H1 H2 H3 H4 H5 H6 H7 H8)
    as (t' & d' & Hrun & Hd & _ & Hrx & _).
  exists t', d'. split; [exact Hrun | split; [exact Hd | exact Hrx]].
Defined.

Lemma whole_pdu_is_taken_alone_witness :
  exists x t',
    transport_check_fds 1 (read_through (fun _ => false))
      (arrived [0x04; 0x04; 0x11; 0x22; 0x03])
    = Done ((if fst (read_through (fun _ => false) x) then 0 else -1), t') /\
    callbacks (log t') = [[0x04; 0x04; 0x11; 0x22]] /\
    rx (net t') = [0x03] /\ p (recv_buffer t') = 0.
Proof.
  set (t := arrived [0x04; 0x04; 0x11; 0x22; 0x03]).
  assert (H0 : keeps_session (read_through (fun _ => false)))
    by (intros x; unfold read_through; cbn;
        repeat match goal with |- _ /\ _ => split end;
        try reflexivity; intros H; exact H).
  assert (H1 : pollable t)
    by (repeat split; [discriminate | reflexivity ..]).
  assert (H2 : 0 <= p (recv_buffer t) <= size (recv_buffer t))
    by (split; vm_compute; discriminate).
  assert (H3 : size (recv_buffer t) <= len (data (recv_buffer t)))
    by (vm_compute; discriminate).
  assert (H4 : dispatchable [0x04; 0x04; 0x11; 0x22] = true) by reflexivity.
  assert (H5 : p (recv_buffer t) < len [0x04; 0x04; 0x11; 0x22])
    by (vm_compute; reflexivity).
  assert (H6 : held (recv_buffer t) ++ rx (net t)
               = [0x04; 0x04; 0x11; 0x22] ++ [0x03]) by reflexivity.
  destruct (whole_pdu_is_taken_alone 0 (read_through (fun _ => false)) t
              [0x04; 0x04; 0x11; 0x22] [0x03] H0 H1 H2 H3 H4 H5 H6)
    as (x & t' & _ & Hrun & Hcb & Hrx & Hp & _).
  exists x, t'. split; [exact Hrun |].
  split; [exact Hcb | split; [exact Hrx | exact Hp]].
Defined.

Lemma zero_length_frame_is_protocol_error_witness :
  exists t',
    transport_check_fds 1 (consume (fun _ => true))
      (arrived [0x30; 0x00; 0x11; 0x22; 0x03])
    = Done (-1, t') /\
    callbacks (log t') = [] /\ rx (net t') = [0x03].
Proof.
  set (t := arrived [0x30; 0x00; 0x11; 0x22; 0x03]).
  assert (H1 : pollable t)
    by (repeat split; [discriminate | reflexivity ..]).
  assert (H2 : p (recv_buffer t) = 0) by reflexivity.
  assert (H3 : 0 <= size (recv_buffer t)) by (vm_compute; discriminate).
  assert (H4 : size (recv_buffer t) <= len (data (recv_buffer t)))
    by (vm_compute; discriminate).
  assert (H5 : 0x30 <> 3) by discriminate.
  assert (H6 : rx (net t) = [0x30; 0x00; 0x11; 0x22; 0x03]) by reflexivity.
  destruct (zero_length_frame_is_protocol_error 0 (consume (fun _ => true))
              t 0x30 0x11 0x22 [0x03] H1 H2 H3 H4 H5 H6)
    as (t' & Hrun & Hcb & Hrx & _).
  exists t'. split; [exact Hrun | split; [exact Hcb | exact Hrx]].
Defined.

(** ** Connection set-up and teardown *)

Section Teardowns.

Context {W : Type} {E : Endpoint W} {T : Teardown W}.

Lemma write_failure_closes (fuel : nat) (t t' : rdpTransport W)
    (s s' : STREAM) (st : Z) :
  transport_write fuel t s = Done (st, t', s') -> st < 0 ->
  layer t' = TRANSPORT_LAYER_CLOSED.
Proof.
  intros Hw Hneg. unfold transport_write in Hw.
  destruct (transport_write_loop fuel t (stream_set_pos s 0) (-1)
              (stream_get_length s)) as [[[st1 t1] s1] | |];
    try discriminate.
  destruct (st1 <? 0) eqn:Hst; inversion Hw; subst.
  - reflexivity.
  - apply Z.ltb_ge in Hst. lia.
Qed.

(** X10. [transport_disconnect] on a TLS layer closes the TLS session
    and then the TCP endpoint, and returns what [tcp_disconnect]
    returned.  After a [transport_write] that failed, though, the layer
    is CLOSED, so the same call closes the TCP endpoint only: the TLS
    session of a transport that was on TLS is never closed. *)
Theorem failed_write_skips_tls_teardown (fuel : nat) (t t' : rdpTransport W)
    (s s' : STREAM) (st : Z) :
  layer t = TRANSPORT_LAYER_TLS ->
  transport_write fuel t s = Done (st, t', s') -> st < 0 ->
  (snd (transport_disconnect t) = [ClosedTls; ClosedTcp] /\
   net (snd (fst (transport_disconnect t)))
   = snd (tcp_disconnect (tls_disconnect (net t))) /\
   fst (fst (transport_disconnect t))
   = fst (tcp_disconnect (tls_disconnect (net t)))) /\
  (snd (transport_disconnect t') = [ClosedTcp] /\
   net (snd (fst (transport_disconnect t')))
   = snd (tcp_disconnect (net t')) /\
   fst (fst (transport_disconnect t')) = fst (tcp_disconnect (net t'))).
Proof.
  intros Htls Hw Hneg.
  pose proof (write_failure_closes fuel t t' s s' st Hw Hneg) as Hclosed.
  unfold transport_disconnect. rewrite Htls, Hclosed.
  cbn [set_net net].
  destruct (tcp_disconnect (tls_disconnect (net t))) as [r1 w1].
  destruct (tcp_disconnect (net t')) as [r2 w2].
  cbn. repeat split; reflexivity.
Qed.

(** X11. The server side of NLA authenticates nothing: whatever
    [settings->authentication] is, [transport_accept_nla] does what
    [transport_accept_tls] does, which is to set the layer to TLS, run
    [tls_accept] and return its result, with no read and no write of
    its own. *)
Theorem accept_nla_is_accept_tls (authentication : bool)
    (t : rdpTransport W) :
  transport_accept_nla authentication t = transport_accept_tls t /\
  fst (transport_accept_tls t) = fst (tls_accept (net t)) /\
  layer (snd (transport_accept_tls t)) = TRANSPORT_LAYER_TLS /\
  net (snd (transport_accept_tls t)) = snd (tls_accept (net t)) /\
  log (snd (transport_accept_tls t)) = log t.
Proof.
  unfold transport_accept_nla, transport_accept_tls.
  assert (Hnet : net (set_layer (if tls t then t else set_tls t true)
                                TRANSPORT_LAYER_TLS) = net t)
    by (destruct (tls t); reflexivity).
  assert (Hlog : log (set_layer (if tls t then t else set_tls t true)
                                TRANSPORT_LAYER_TLS) = log t)
    by (destruct (tls t); reflexivity).
  rewrite Hnet.
  destruct (tls_accept (net t)) as [ok w].
  destruct ok, authentication; cbn; repeat split; auto.
Qed.

(** X12. [transport_connect_nla] reaches the authenticator only after a
    handshake that succeeded and only when [settings->authentication]
    is set: otherwise it is [transport_connect_tls], whatever the
    authenticator would do, and the credssp pointer is left as it
    was. *)
Theorem connect_nla_falls_back_to_tls
    (credssp_authenticate : rdpTransport W -> Z * rdpTransport W)
    (authentication credssp : bool) (t : rdpTransport W) :
  authentication = false \/ fst (tls_connect (net t)) = false ->
  transport_connect_nla credssp_authenticate authentication credssp t
  = (transport_connect_tls t, credssp).
Proof.
  intros H. unfold transport_connect_nla, transport_connect_tls.
  assert (Hnet : net (set_layer (if tls t then t else set_tls t true)
                                TRANSPORT_LAYER_TLS) = net t)
    by (destruct (tls t); reflexivity).
  rewrite Hnet in *.
  destruct (tls_connect (net t)) as [ok w]. cbn [fst] in H.
  destruct ok; cbn [negb].
  - destruct H as [-> | H]; [reflexivity | discriminate].
  - reflexivity.
Qed.

(** X13. When the handshake succeeds and authentication is on, the
    result of [transport_connect_nla] is the authenticator's verdict: a
    negative status gives false and the failure message is the last
    thing printed, any other status gives true and prints nothing; the
    authenticator is handed the transport with the layer already TLS;
    either way the credssp pointer is set afterwards. *)
Theorem connect_nla_reports_authentication
    (credssp_authenticate : rdpTransport W -> Z * rdpTransport W)
    (credssp : bool) (t : rdpTransport W) :
  fst (tls_connect (net t)) = true ->
  exists t3,
    t3 = snd (transport_connect_tls t) /\
    layer t3 = TRANSPORT_LAYER_TLS /\
    fst (fst (transport_connect_nla credssp_authenticate true credssp t))
    = negb (fst (credssp_authenticate t3) <? 0) /\
    snd (transport_connect_nla credssp_authenticate true credssp t) = true /\
    log (snd (fst (transport_connect_nla credssp_authenticate true credssp t)))
    = log (snd (credssp_authenticate t3))
      ++ (if fst (credssp_authenticate t3) <? 0
          then [EvPrintf auth_failure_message] else []).
Proof.
  intros Hok. unfold transport_connect_nla, transport_connect_tls.
  assert (Hnet : net (set_layer (if tls t then t else set_tls t true)
                                TRANSPORT_LAYER_TLS) = net t)
    by (destruct (tls t); reflexivity).
  rewrite Hnet.
  destruct (tls_connect (net t)) as [ok w]. cbn [fst] in Hok. subst ok.
  cbn [negb snd].
  eexists. split; [reflexivity |]. split; [reflexivity |].
  destruct (credssp_authenticate _) as [status t4]. cbn [fst snd].
  destruct (status <? 0); cbn [fst snd negb emit log].
  - repeat split; reflexivity.
  - repeat split. symmetry. apply app_nil_r.
Qed.

End Teardowns.

Lemma failed_write_skips_tls_teardown_witness :
  snd (transport_disconnect
         (set_layer
            (emit (set_layer (transport_new (mkSock [] [] false true))
                             TRANSPORT_LAYER_TLS)
                  [EvWrite TRANSPORT_LAYER_TLS 3 (-1)])
            TRANSPORT_LAYER_CLOSED))
  = [ClosedTcp].
Proof.
  assert (Hl : layer (set_layer (transport_new (mkSock [] [] false true))
                                TRANSPORT_LAYER_TLS)
               = TRANSPORT_LAYER_TLS) by reflexivity.
  assert (Hw : transport_write 1
                 (set_layer (transport_new (mkSock [] [] false true))
                            TRANSPORT_LAYER_TLS)
                 (mkStream 3 3 [1; 2; 3])
               = Done (-1,
                       set_layer
                         (emit (set_layer
                                  (transport_new (mkSock [] [] false true))
                                  TRANSPORT_LAYER_TLS)
                               [EvWrite TRANSPORT_LAYER_TLS 3 (-1)])
                         TRANSPORT_LAYER_CLOSED,
                       mkStream 3 0 [1; 2; 3])) by reflexivity.
  assert (Hneg : -1 < 0) by lia.
  destruct (failed_write_skips_tls_teardown 1 _ _ _ _ (-1) Hl Hw Hneg)
    as [_ [Hcalls _]].
  exact Hcalls.
Defined.

Lemma connect_nla_falls_back_to_tls_witness :
  transport_connect_nla credssp_refuses true false
    (transport_new (mkSock [] [] true false))
  = (transport_connect_tls (transport_new (mkSock [] [] true false)), false).
Proof.
  assert (H : true = false \/
              fst (tls_connect (net (transport_new (mkSock [] [] true false))))
              = false) by (right; reflexivity).
  exact (connect_nla_falls_back_to_tls credssp_refuses true false
           (transport_new (mkSock [] [] true false)) H).
Defined.

Lemma connect_nla_reports_authentication_witness :
  fst (fst (transport_connect_nla credssp_refuses true false
              (transport_new quiet))) = false.
Proof.
  assert (H : fst (tls_connect (net (transport_new quiet))) = true)
    by reflexivity.
  destruct (connect_nla_reports_authentication credssp_refuses false
              (transport_new quiet) H) as (t3 & _ & _ & Hr & _).
  rewrite Hr. reflexivity.
Defined.

(** X14. The descriptor handed to [transport_attach] is the one
    [transport_get_fds] reports: it is stored at index [rcount] of the
    array, the count goes up by one, the other entries and the socket
    itself are as they were. *)
Theorem attached_descriptor_is_reported (t : rdpTransport Wired)
    (fd : Z) (rfds : list Z) (rcount : Z) :
  0 <= rcount < len rfds ->
  exists rfds',
    transport_get_fds (transport_attach t fd) rfds rcount
    = Some (rfds', rcount + 1) /\
    nth (Z.to_nat rcount) rfds' 0 = fd /\
    length rfds' = length rfds /\
    (forall i : nat, i <> Z.to_nat rcount -> nth i rfds' 0 = nth i rfds 0) /\
    wire (net (transport_attach t fd)) = wire (net t).
Proof.
  intros Hr. unfold transport_get_fds, transport_attach, store_at.
  cbn [set_net net sockfd wire].
  replace ((0 <=? rcount) && (rcount <? len rfds)) with true
    by (symmetry; apply andb_true_iff; split;
        [apply Z.leb_le | apply Z.ltb_lt]; lia).
  eexists. split; [reflexivity |].
  set (k := Z.to_nat rcount).
  assert (Hk : (k < length rfds)%nat) by (unfold len in Hr; lia).
  assert (Hlen : length (firstn k rfds) = k)
    by (rewrite length_firstn; lia).
  split; [| split; [| split; [| reflexivity]]].
  - rewrite app_nth2 by lia. rewrite Hlen, Nat.sub_diag. reflexivity.
  - rewrite length_app. cbn [length]. rewrite Hlen, length_skipn. lia.
  - intros i Hi. destruct (Nat.lt_ge_cases i k) as [Hlt | Hge].
    + rewrite app_nth1 by lia. rewrite nth_firstn.
      replace (i <? k)%nat with true by (symmetry; apply Nat.ltb_lt; lia).
      reflexivity.
    + rewrite app_nth2 by lia. rewrite Hlen.
      destruct (i - k)%nat as [| j] eqn:Hj; [lia |].
      cbn [nth]. rewrite nth_skipn. f_equal. lia.
Qed.

Lemma attached_descriptor_is_reported_witness :
  exists rfds',
    transport_get_fds
      (transport_attach
         (mkTransport TRANSPORT_LAYER_TCP (mkWired 0 quiet) false true 100
                      (stream_new 8) 0 [])
         7)
      [10; 11; 0; 0] 2
    = Some (rfds', 3) /\ nth 2 rfds' 0 = 7.
Proof.
  assert (H : 0 <= 2 < len [10; 11; 0; 0])
    by (split; vm_compute; [discriminate | reflexivity]).
  destruct (attached_descriptor_is_reported
              (mkTransport TRANSPORT_LAYER_TCP (mkWired 0 quiet) false true
                           100 (stream_new 8) 0 [])
              7 [10; 11; 0; 0] 2 H) as (rfds' & Hrun & Hnth & _).
  exists rfds'. split; [exact Hrun | exact Hnth].
Defined.

(** ** A poll in blocking mode *)

(** The blocking read loop on an idle socket: every turn reads nothing,
    waits, and asks again. *)
Lemma read_layer_loop_idles (fuel : nat) :
  forall (t : rdpTransport Sock) (d : list Z) (off bytes read status : Z),
    blocking t = true -> layer t <> TRANSPORT_LAYER_CLOSED ->
    peer_up (net t) = true -> rx (net t) = [] -> read < bytes ->
    transport_read_layer_loop fuel t d off bytes read status = Spin.
Proof.
  induction fuel as [| fuel IH];
    intros t d off bytes read status Hblk Hopen Hup Hrx Hlt;
    cbn [transport_read_layer_loop];
    replace (read <? bytes) with true by (symmetry; apply Z.ltb_lt; exact Hlt);
    [reflexivity |].
  destruct (layer_read_open t status (bytes - read) Hopen)
    as (st & bs & w & Hrd & Htcp & Htls).
  assert (Hs : sock_read (net t) (bytes - read) = (st, bs, w)).
  { destruct (layer t); [apply Htcp | apply Htls | congruence]; reflexivity. }
  unfold sock_read in Hs. rewrite Hrx, Hup in Hs.
  inversion Hs; subst st bs w. clear Hs.
  rewrite Hrd. cbn [poke].
  set (t1 := emit (set_net t (net t)) [EvRead (layer t) (bytes - read) 0]).
  assert (Hb1 : blocking t1 = true) by exact Hblk.
  assert (Hl1 : layer t1 = layer t) by reflexivity.
  assert (Hn1 : net t1 = net t) by reflexivity.
  rewrite Hb1. cbn [negb]. change (0 <? 0) with false.
  change (0 =? 0) with true. cbv iota.
  apply IH.
  - unfold idle_wait. rewrite Hl1. destruct (layer t); try exact Hb1.
  - unfold idle_wait. rewrite Hl1.
    destruct (layer t); cbn [emit set_net layer]; congruence.
  - unfold idle_wait. rewrite Hl1.
    destruct (layer t); cbn [emit set_net net sock_endpoint tcp_can_recv
                             freerdp_usleep]; congruence.
  - unfold idle_wait. rewrite Hl1.
    destruct (layer t); cbn [emit set_net net sock_endpoint tcp_can_recv
                             freerdp_usleep]; congruence.
  - lia.
Qed.

(** X15. [transport_check_fds] on a transport that was left in blocking
    mode, as [transport_new] makes it, does not return while the socket
    is idle: with less than a header in the receive buffer, an open
    layer and a peer that sends nothing, the read loop turns for as many
    rounds as it is given, and the handler is not reached.  The same
    holds for [transport_read]. *)
Theorem blocking_poll_waits_for_a_header (fuel : nat)
    (cb : rdpTransport Sock -> bool * rdpTransport Sock)
    (t : rdpTransport Sock) (s : STREAM) :
  level t = 0 -> blocking t = true -> layer t <> TRANSPORT_LAYER_CLOSED ->
  peer_up (net t) = true -> rx (net t) = [] ->
  p (recv_buffer t) < 4 -> p s < 4 ->
  transport_check_fds fuel cb t = Spin /\ transport_read fuel t s = Spin.
Proof.
  intros Hlevel Hblk Hopen Hup Hrx Hp Hs.
  split.
  - unfold transport_check_fds. rewrite Hlevel.
    change (negb (0 =? 0)) with false. cbv iota.
    unfold transport_read_nonblocking, transport_read, stream_get_length.
    set (b := stream_check_size (recv_buffer t) (32 * 1024)).
    assert (Hpb : p b = p (recv_buffer t))
      by (unfold b, stream_check_size;
          destruct (p (recv_buffer t) + 32 * 1024 >? size (recv_buffer t));
          reflexivity).
    rewrite Hpb.
    replace (p (recv_buffer t) <? 4) with true
      by (symmetry; apply Z.ltb_lt; exact Hp).
    unfold transport_read_layer.
    rewrite read_layer_loop_idles by (try assumption; lia).
    reflexivity.
  - unfold transport_read, stream_get_length.
    replace (p s <? 4) with true by (symmetry; apply Z.ltb_lt; exact Hs).
    unfold transport_read_layer.
    rewrite read_layer_loop_idles by (try assumption; lia).
    reflexivity.
Qed.

Lemma blocking_poll_waits_for_a_header_witness :
  transport_check_fds 5 (consume (fun _ => true)) (transport_new quiet)
  = Spin.
Proof.
  assert (H1 : level (transport_new quiet) = 0) by reflexivity.
  assert (H2 : blocking (transport_new quiet) = true) by reflexivity.
  assert (H3 : layer (transport_new quiet) <> TRANSPORT_LAYER_CLOSED)
    by discriminate.
  assert (H4 : peer_up (net (transport_new quiet)) = true) by reflexivity.
  assert (H5 : rx (net (transport_new quiet)) = []) by reflexivity.
  assert (H6 : p (recv_buffer (transport_new quiet)) < 4)
    by (vm_compute; reflexivity).
  assert (H7 : p (stream_new 8) < 4) by (vm_compute; reflexivity).
  exact (proj1 (blocking_poll_waits_for_a_header 5
                  (consume (fun _ => true)) (transport_new quiet)
                  (stream_new 8) H1 H2 H3 H4 H5 H6 H7)).
Defined.

(** ** The formats of the PulseAudio device *)

(** X16. A PCM format that [rdpsnd_pulse_format_supported] accepts gives
    [rdpsnd_pulse_set_format_spec] all it needs: the sample format is
    set, U8 for 8 bits and S16LE for 16, the rate and the channel count
    are within PulseAudio's limits, the block size is the format's; the
    recording side of the plugin is not touched, and nothing is
    printed. *)
Theorem supported_pcm_has_a_sample_format (PA_RATE_MAX PA_CHANNELS_MAX : Z)
    (pulse : Pulse.rdpsndPulsePlugin) (fmt : Pulse.rdpsndFormat) :
  fst (Pulse.rdpsnd_pulse_format_supported PA_RATE_MAX PA_CHANNELS_MAX
         pulse fmt) = true ->
  Pulse.wFormatTag fmt = 1 ->
  (Pulse.spec_format
     (Pulse.sample_spec (Pulse.rdpsnd_pulse_set_format_spec pulse fmt 0))
   = (if Pulse.wBitsPerSample fmt =? 8 then Some Pulse.PA_SAMPLE_U8
      else Some Pulse.PA_SAMPLE_S16LE)) /\
  Pulse.rate
    (Pulse.sample_spec (Pulse.rdpsnd_pulse_set_format_spec pulse fmt 0))
  <= PA_RATE_MAX /\
  1 <= Pulse.channels
         (Pulse.sample_spec (Pulse.rdpsnd_pulse_set_format_spec pulse fmt 0))
    <= PA_CHANNELS_MAX /\
  Pulse.block_size (Pulse.rdpsnd_pulse_set_format_spec pulse fmt 0)
  = Pulse.nBlockAlign fmt /\
  Pulse.rec_sample_spec (Pulse.rdpsnd_pulse_set_format_spec pulse fmt 0)
  = Pulse.rec_sample_spec pulse /\
  snd (Pulse.rdpsnd_pulse_format_supported PA_RATE_MAX PA_CHANNELS_MAX
         pulse fmt) = [].
Proof.
  intros Hs Htag.
  unfold Pulse.rdpsnd_pulse_format_supported,
    Pulse.rdpsnd_pulse_set_format_spec in *.
  destruct (Pulse.context pulse); cbn [negb] in *; [| discriminate].
  rewrite Htag in *. change (1 =? 41222) with false in *.
  change (1 =? 1) with true in *. cbv iota in *.
  change (negb (0 =? 0)) with false. cbv iota.
  cbn [Pulse.sample_spec Pulse.spec_format Pulse.rate Pulse.channels
       Pulse.block_size Pulse.rec_sample_spec].
  destruct ((Pulse.cbSize fmt =? 0)
            && (Pulse.nSamplesPerSec fmt <=? PA_RATE_MAX)
            && ((Pulse.wBitsPerSample fmt =? 8)
                || (Pulse.wBitsPerSample fmt =? 16))
            && ((Pulse.nChannels fmt >=? 1)
                && (Pulse.nChannels fmt <=? PA_CHANNELS_MAX))) eqn:Hc;
    [| discriminate].
  repeat (apply andb_true_iff in Hc; destruct Hc as [Hc ?]).
  repeat match goal with
         | G : (_ && _) = true |- _ =>
             apply andb_true_iff in G; destruct G
         | G : (_ <=? _) = true |- _ => apply Z.leb_le in G
         | G : (_ >=? _) = true |- _ => rewrite Z.geb_leb in G
         end.
  split; [| repeat split; try reflexivity; lia].
  destruct (Pulse.wBitsPerSample fmt =? 8) eqn:H8; [reflexivity |].
  match goal with G : (false || _) = true |- _ => cbn [orb] in G; rewrite G end.
  reflexivity.
Qed.

Lemma supported_pcm_has_a_sample_format_witness :
  Pulse.spec_format
    (Pulse.sample_spec
       (Pulse.rdpsnd_pulse_set_format_spec
          (Pulse.mkPulse true (Pulse.mkSpec None 0 0) 0 0
                         (Pulse.mkSpec None 0 0) 0 0)
          (Pulse.mkFormat 1 2 44100 176400 4 16 0) 0))
  = Some Pulse.PA_SAMPLE_S16LE.
Proof.
  assert (H1 : fst (Pulse.rdpsnd_pulse_format_supported 192000 32
                      (Pulse.mkPulse true (Pulse.mkSpec None 0 0) 0 0
                                     (Pulse.mkSpec None 0 0) 0 0)
                      (Pulse.mkFormat 1 2 44100 176400 4 16 0)) = true)
    by reflexivity.
  assert (H2 : Pulse.wFormatTag (Pulse.mkFormat 1 2 44100 176400 4 16 0) = 1)
    by reflexivity.
  exact (proj1 (supported_pcm_has_a_sample_format 192000 32 _ _ H1 H2)).
Defined.

(** X17. What [rdpsnd_pulse_format_supported] accepts besides PCM is one
    AAC profile: tag 41222, 2 channels, 44100 Hz, 12000 bytes per
    second.  [rdpsnd_pulse_set_format_spec] has no case for that tag, so
    for playback and for recording alike the sample format it stores is
    still what the zero initialiser made it; the A-law, u-law and IMA
    ADPCM tags it does have cases for are never accepted. *)
Theorem supported_aac_has_no_sample_format (PA_RATE_MAX PA_CHANNELS_MAX : Z)
    (pulse : Pulse.rdpsndPulsePlugin) (fmt : Pulse.rdpsndFormat) :
  fst (Pulse.rdpsnd_pulse_format_supported PA_RATE_MAX PA_CHANNELS_MAX
         pulse fmt) = true ->
  Pulse.wFormatTag fmt <> 1 ->
  (Pulse.wFormatTag fmt = 41222 /\ Pulse.nChannels fmt = 2 /\
   Pulse.nSamplesPerSec fmt = 44100 /\ Pulse.nAvgBytesPerSec fmt = 12000) /\
  Pulse.sample_spec (Pulse.rdpsnd_pulse_set_format_spec pulse fmt 0)
  = Pulse.mkSpec None 44100 2 /\
  Pulse.rec_sample_spec (Pulse.rdpsnd_pulse_set_format_spec pulse fmt 1)
  = Pulse.mkSpec None 44100 2 /\
  Pulse.format (Pulse.rdpsnd_pulse_set_format_spec pulse fmt 0) = 41222.
Proof.
  intros Hs Htag.
  unfold Pulse.rdpsnd_pulse_format_supported,
    Pulse.rdpsnd_pulse_set_format_spec in *.
  destruct (Pulse.context pulse); cbn [negb] in *; [| discriminate].
  destruct (Pulse.wFormatTag fmt =? 41222) eqn:Haac.
  - apply Z.eqb_eq in Haac.
    destruct ((Pulse.nChannels fmt =? 2)
              && (Pulse.nSamplesPerSec fmt =? 44100)
              && (Pulse.nAvgBytesPerSec fmt =? 12000)) eqn:Hc;
      [| discriminate].
    repeat (apply andb_true_iff in Hc; destruct Hc as [Hc ?]).
    repeat match goal with
           | G : (_ =? _) = true |- _ => apply Z.eqb_eq in G
           end.
    rewrite Haac.
    change (41222 =? 1) with false. change (41222 =? 6) with false.
    change (41222 =? 7) with false. change (41222 =? 17) with false.
    change (negb (0 =? 0)) with false. change (negb (1 =? 0)) with true.
    cbv iota.
    cbn [Pulse.sample_spec Pulse.rec_sample_spec Pulse.format].
    repeat split; congruence.
  - replace (Pulse.wFormatTag fmt =? 1) with false in Hs
      by (symmetry; apply Z.eqb_neq; exact Htag).
    discriminate.
Qed.

Lemma supported_aac_has_no_sample_format_witness :
  Pulse.sample_spec
    (Pulse.rdpsnd_pulse_set_format_spec
       (Pulse.mkPulse true (Pulse.mkSpec (Some Pulse.PA_SAMPLE_S16LE) 8000 1)
                      1 2 (Pulse.mkSpec None 0 0) 0 0)
       (Pulse.mkFormat 41222 2 44100 12000 4 16 0) 0)
  = Pulse.mkSpec None 44100 2.
Proof.
  assert (H1 : fst (Pulse.rdpsnd_pulse_format_supported 192000 32
                      (Pulse.mkPulse true
                         (Pulse.mkSpec (Some Pulse.PA_SAMPLE_S16LE) 8000 1)
                         1 2 (Pulse.mkSpec None 0 0) 0 0)
                      (Pulse.mkFormat 41222 2 44100 12000 4 16 0)) = true)
    by reflexivity.
  assert (H2 : Pulse.wFormatTag (Pulse.mkFormat 41222 2 44100 12000 4 16 0)
               <> 1) by discriminate.
  exact (proj1 (proj2 (supported_aac_has_no_sample_format 192000 32 _ _
                         H1 H2))).
Defined.
